(** * Hyrox-02: the personal-finance calculation engine

    A shallow embedding of the two calculation modules of the repository,
    [lib/financial-analysis.ts] (categorizer, metrics, spending aggregation,
    insights) and [lib/investment-planning.ts] (allocations, portfolio
    performance, goal projection), with the properties the specification
    states about them.

    Numbers.  A JavaScript [number] is modelled by an exact rational [Q]:
    the properties are those of the calculations in exact arithmetic, and
    they are stated up to [Qeq] ([==]).  Where the source can produce a value
    that is not a rational (the [0/0] of the annuity formula) the value is
    a [number], a rational or an infinity or NaN, and what the source does
    with it is written out.  The host computes in IEEE 754 binary64; module
    [Double] repeats the numeric code on binary64 floats, operation for
    operation, and the places where rounding makes the two differ are
    stated there.

    Strings.  A string is a [string] of 8-bit code units; [toLowerCase]
    maps the letters A-Z to a-z and leaves every other unit unchanged, which
    is what the source's call does on ASCII text. *)

From Stdlib Require Import Reals Qreals Lra.
From Stdlib Require Import ZArith QArith Qpower Qround Qabs Qminmax Lia Lqa.
From Stdlib Require Import Bool List Ascii String DecimalString.
From Stdlib Require Import Permutation Sorted.
From Equations Require Import Equations.
From Stdlib Require PrimFloat Uint63.
Import ListNotations.

Set Warnings "-inexact-float".

(* ===================================================================== *)
(** * Strings of the host language *)
(* ===================================================================== *)

Module JSString.

Local Open Scope string_scope.

(** One code unit of [String.prototype.toLowerCase] on ASCII text. *)
Definition lower_unit (c : ascii) : ascii :=
  let n := N_of_ascii c in
  if ((65 <=? n) && (n <=? 90))%N then ascii_of_N (n + 32) else c.

Fixpoint toLowerCase (s : string) : string :=
  match s with
  | EmptyString => EmptyString
  | String c rest => String (lower_unit c) (toLowerCase rest)
  end.

(** [s.includes(k)]: [k] occurs in [s] at some position. *)
Fixpoint includes (s k : string) : bool :=
  prefix k s ||
  match s with
  | EmptyString => false
  | String _ rest => includes rest k
  end.

(** The relation [includes] decides. *)
Definition occurs_in (k s : string) : Prop :=
  exists before after, s = before ++ k ++ after.

End JSString.
Import JSString.

(* ===================================================================== *)
(** * financial-analysis: the categorizer *)
(* ===================================================================== *)

Local Open Scope string_scope.

(** The object literal, as [Object.entries] enumerates it: string keys in
    the order they are written. *)
Definition TRANSACTION_CATEGORIES : list (string * list string) :=
  [ ("Housing",
      ["rent"; "mortgage"; "utilities"; "insurance"; "property tax"; "maintenance"]);
    ("Transportation",
      ["gas"; "car payment"; "insurance"; "maintenance"; "uber"; "lyft"; "taxi";
       "public transport"]);
    ("Food", ["grocery"; "restaurant"; "fast food"; "coffee"; "dining"; "takeout"]);
    ("Healthcare", ["doctor"; "pharmacy"; "hospital"; "dental"; "vision"; "medical"]);
    ("Entertainment", ["movie"; "streaming"; "games"; "concert"; "sports"; "hobby"]);
    ("Shopping", ["clothing"; "electronics"; "home goods"; "personal care"; "gifts"]);
    ("Education", ["tuition"; "books"; "courses"; "training"; "certification"]);
    ("Savings", ["savings account"; "investment"; "401k"; "ira"; "emergency fund"]);
    ("Debt", ["credit card"; "loan payment"; "student loan"; "personal loan"]);
    ("Income", ["salary"; "bonus"; "freelance"; "investment income"; "rental income"]);
    ("Other", []) ].

(** [keywords.some((keyword) => lowerDesc.includes(keyword))] *)
Definition some_keyword (lowerDesc : string) (keywords : list string) : bool :=
  existsb (fun keyword => includes lowerDesc keyword) keywords.

(** The [for ... of] loop with its early [return]: [None] when the loop
    runs to its end. *)
Fixpoint for_entries (entries : list (string * list string)) (lowerDesc : string)
  : option string :=
  match entries with
  | [] => None
  | (category, keywords) :: rest =>
      if some_keyword lowerDesc keywords then Some category
      else for_entries rest lowerDesc
  end.

Definition categorizeTransaction (description : string) : string :=
  let lowerDesc := toLowerCase description in
  match for_entries TRANSACTION_CATEGORIES lowerDesc with
  | Some category => category
  | None => "Other"
  end.

(** A keyword list matches a lowered description. *)
Definition matches (lowerDesc : string) (keywords : list string) : Prop :=
  exists keyword, In keyword keywords /\ occurs_in keyword lowerDesc.

(** The eleven categories, in declared order. *)
Definition category_names : list string :=
  ["Housing"; "Transportation"; "Food"; "Healthcare"; "Entertainment"; "Shopping";
   "Education"; "Savings"; "Debt"; "Income"; "Other"].

(* ===================================================================== *)
(** * Dates of the host language *)
(* ===================================================================== *)

(** A time value is a number of milliseconds since the epoch; a [Date]
    object holds a time value or is invalid ([None], the NaN time value).
    Local time is UTC. *)
Module JSDate.

Local Open Scope Z_scope.

Definition msPerDay : Z := 86400000.

Definition Day (t : Z) : Z := t / msPerDay.

(** Day number of a date of the proleptic Gregorian calendar, the month
    counted from 1, and its inverse. *)
Definition days_from_civil (y m d : Z) : Z :=
  let y := if m <=? 2 then y - 1 else y in
  let era := y / 400 in
  let yoe := y - era * 400 in
  let doy := (153 * (if 2 <? m then m - 3 else m + 9) + 2) / 5 + d - 1 in
  let doe := yoe * 365 + yoe / 4 - yoe / 100 + doy in
  era * 146097 + doe - 719468.

Definition civil_from_days (z : Z) : Z * Z * Z :=
  let z := z + 719468 in
  let era := z / 146097 in
  let doe := z - era * 146097 in
  let yoe := (doe - doe / 1460 + doe / 36524 - doe / 146096) / 365 in
  let y := yoe + era * 400 in
  let doy := doe - (365 * yoe + yoe / 4 - yoe / 100) in
  let mp := (5 * doy + 2) / 153 in
  let d := doy - (153 * mp + 2) / 5 + 1 in
  let m := if mp <? 10 then mp + 3 else mp - 9 in
  ((if m <=? 2 then y + 1 else y), m, d).

Definition getFullYear (t : Z) : Z := fst (fst (civil_from_days (Day t))).
(** Months are counted from 0. *)
Definition getMonth (t : Z) : Z := snd (fst (civil_from_days (Day t))) - 1.
Definition getDate (t : Z) : Z := snd (civil_from_days (Day t)).

(** [MakeDay]: a month index outside 0..11 carries into the year, a day
    of the month outside the month carries into the neighbouring months. *)
Definition MakeDay (year month date : Z) : Z :=
  let ym := year + month / 12 in
  let mn := month mod 12 in
  days_from_civil ym (mn + 1) 1 + date - 1.

Definition TimeClip (t : Z) : option Z :=
  if Z.abs t <=? 8640000000000000 then Some t else None.

(** [new Date(year, monthIndex, day)] *)
Definition Date_of_ymd (year month date : Z) : option Z :=
  let yr := if (0 <=? year) && (year <=? 99) then 1900 + year else year in
  TimeClip (MakeDay yr month date * msPerDay).

(** [a >= b] on two [Date] objects: false when either is invalid. *)
Definition Date_ge (a b : option Z) : bool :=
  match a, b with
  | Some x, Some y => y <=? x
  | _, _ => false
  end.

(** The string constructor [new Date(s)] on the calendar dates
    [YYYY-MM-DD] that exist (midnight UTC); [None] on anything else.  The
    calculations below are parameterised by the constructor, this is the
    instance the examples use. *)
Definition digit (c : ascii) : option Z :=
  let n := Z.of_N (N_of_ascii c) in
  if (48 <=? n) && (n <=? 57) then Some (n - 48) else None.

Fixpoint digits (acc : Z) (l : list ascii) : option Z :=
  match l with
  | [] => Some acc
  | c :: rest =>
      match digit c with
      | Some d => digits (10 * acc + d) rest
      | None => None
      end
  end.

Definition parseISODate (s : string) : option Z :=
  match list_ascii_of_string s with
  | [y1; y2; y3; y4; "-"%char; m1; m2; "-"%char; d1; d2] =>
      match digits 0 [y1; y2; y3; y4], digits 0 [m1; m2], digits 0 [d1; d2] with
      | Some y, Some m, Some d =>
          let z := days_from_civil y m d in
          if (1 <=? m) && (m <=? 12) && (1 <=? d)
             && (d <=? days_from_civil (y + m / 12) (m mod 12 + 1) 1
                       - days_from_civil y m 1)
          then Some (z * msPerDay) else None
      | _, _, _ => None
      end
  | _ => None
  end.

End JSDate.
Import JSDate.

(* ===================================================================== *)
(** * financial-analysis: data model *)
(* ===================================================================== *)

Local Open Scope Q_scope.
Local Open Scope list_scope.

Inductive TransactionType : Type := income | expense | transfer.

Definition TransactionType_eqb (a b : TransactionType) : bool :=
  match a, b with
  | income, income | expense, expense | transfer, transfer => true
  | _, _ => false
  end.

(** A transaction row.  The description of a row may be absent
    ([null]); the callers pass rows as the store returns them. *)
Record Transaction : Type := {
  amount : Q;
  description : option string;
  transaction_type : TransactionType;
  transaction_date : string
}.

Record FinancialMetrics : Type := {
  totalIncome : Q;
  totalExpenses : Q;
  netIncome : Q;
  savingsRate : Q;
  debtToIncomeRatio : Q;
  emergencyFundMonths : Q;
  monthlyBudgetVariance : Q
}.

Module Bucket.
Record t : Type := { amount : Q; percentage : Q; transactions : Z }.
End Bucket.

(** The object used as a map from category to bucket: its own string keys
    in insertion order.  Only category names are ever used as keys. *)
Definition SpendingByCategory : Type := list (string * Bucket.t).

Fixpoint get (m : SpendingByCategory) (key : string) : option Bucket.t :=
  match m with
  | [] => None
  | (k, b) :: rest => if String.eqb k key then Some b else get rest key
  end.

(** Assignment to a key: in place when the key is present, at the end
    otherwise. *)
Fixpoint set (m : SpendingByCategory) (key : string) (v : Bucket.t)
  : SpendingByCategory :=
  match m with
  | [] => [(key, v)]
  | (k, b) :: rest =>
      if String.eqb k key then (k, v) :: rest else (k, b) :: set rest key v
  end.

(** [array.reduce(f, init)] *)
Definition reduce {A B : Type} (f : B -> A -> B) (init : B) (l : list A) : B :=
  fold_left f l init.

(** [x || ""] on a possibly absent string. *)
Definition or_empty (s : option string) : string :=
  match s with
  | Some x => x
  | None => ""%string
  end.

(* ===================================================================== *)
(** * financial-analysis: metrics and spending *)
(* ===================================================================== *)

Section FinancialAnalysis.

(** [new Date(s)] for a date string [s], as the host parses it. *)
Variable Date_parse : string -> option Z.

(** Both calculations start with [const now = new Date()]: the first
    argument [clock] is the time value the ambient clock gives at the
    call, not an argument of the source function. *)

Definition calculateFinancialMetrics
    (clock : Z) (transactions : list Transaction)
    (emergencyFundBalance : option Q) : FinancialMetrics :=
  let emergencyFundBalance :=
    match emergencyFundBalance with Some b => b | None => 0 end in
  let now := clock in
  let threeMonthsAgo :=
    Date_of_ymd (getFullYear now) (getMonth now - 3) (getDate now) in
  let recentTransactions :=
    filter (fun t => Date_ge (Date_parse (transaction_date t)) threeMonthsAgo)
           transactions in
  let totalIncome :=
    reduce (fun sum t => sum + Qabs (amount t)) 0
      (filter (fun t => TransactionType_eqb (transaction_type t) income)
              recentTransactions) in
  let totalExpenses :=
    reduce (fun sum t => sum + Qabs (amount t)) 0
      (filter (fun t => TransactionType_eqb (transaction_type t) expense)
              recentTransactions) in
  let netIncome := totalIncome - totalExpenses in
  let savingsRate :=
    if Qlt_le_dec 0 totalIncome then (netIncome / totalIncome) * 100 else 0 in
  let monthlyExpenses := totalExpenses / 3 in
  let emergencyFundMonths :=
    if Qlt_le_dec 0 monthlyExpenses then emergencyFundBalance / monthlyExpenses
    else 0 in
  let debtPayments :=
    reduce (fun sum t => sum + Qabs (amount t)) 0
      (filter (fun t =>
                 String.eqb (categorizeTransaction (or_empty (description t)))
                            "Debt")
         (filter (fun t => TransactionType_eqb (transaction_type t) expense)
                 recentTransactions)) in
  let monthlyIncome := totalIncome / 3 in
  let debtToIncomeRatio :=
    if Qlt_le_dec 0 monthlyIncome then (debtPayments / 3 / monthlyIncome) * 100
    else 0 in
  {| totalIncome := totalIncome;
     totalExpenses := totalExpenses;
     netIncome := netIncome;
     savingsRate := savingsRate;
     debtToIncomeRatio := debtToIncomeRatio;
     emergencyFundMonths := emergencyFundMonths;
     monthlyBudgetVariance := 0 |}.

(** The in-window expense rows of the spending analysis. *)
Definition expenseTransactions (clock : Z) (transactions : list Transaction)
  : list Transaction :=
  let now := clock in
  let oneMonthAgo :=
    Date_of_ymd (getFullYear now) (getMonth now - 1) (getDate now) in
  filter (fun t => TransactionType_eqb (transaction_type t) expense
                   && Date_ge (Date_parse (transaction_date t)) oneMonthAgo)
         transactions.

(** The body of the [forEach] over the expense rows.  Calling
    [toLowerCase] on an absent description throws: [None]. *)
Definition accumulate (categorySpending : SpendingByCategory) (transaction : Transaction)
  : option SpendingByCategory :=
  match description transaction with
  | None => None
  | Some d =>
      let category := categorizeTransaction d in
      let amount := Qabs (amount transaction) in
      let categorySpending :=
        match get categorySpending category with
        | None =>
            set categorySpending category
                {| Bucket.amount := 0; Bucket.percentage := 0;
                   Bucket.transactions := 0 |}
        | Some _ => categorySpending
        end in
      match get categorySpending category with
      | None => None
      | Some b =>
          let categorySpending :=
            set categorySpending category
                {| Bucket.amount := Bucket.amount b + amount;
                   Bucket.percentage := Bucket.percentage b;
                   Bucket.transactions := Bucket.transactions b |} in
          match get categorySpending category with
          | None => None
          | Some b =>
              Some (set categorySpending category
                      {| Bucket.amount := Bucket.amount b;
                         Bucket.percentage := Bucket.percentage b;
                         Bucket.transactions := (Bucket.transactions b + 1)%Z |})
          end
      end
  end.

Fixpoint forEach_accumulate (rows : list Transaction)
    (categorySpending : SpendingByCategory) : option SpendingByCategory :=
  match rows with
  | [] => Some categorySpending
  | transaction :: rest =>
      match accumulate categorySpending transaction with
      | None => None
      | Some categorySpending => forEach_accumulate rest categorySpending
      end
  end.

(** The second [forEach], over [Object.keys(categorySpending)]: each key
    is assigned its share.  (A key of the object is always found in it, the
    other branch of the lookup is never taken.) *)
Definition assign_percentages (totalExpenses : Q) (categorySpending : SpendingByCategory)
  : SpendingByCategory :=
  fold_left
    (fun m category =>
       match get m category with
       | None => m
       | Some b =>
           set m category
               {| Bucket.amount := Bucket.amount b;
                  Bucket.percentage :=
                    if Qlt_le_dec 0 totalExpenses
                    then (Bucket.amount b / totalExpenses) * 100 else 0;
                  Bucket.transactions := Bucket.transactions b |}
       end)
    (map fst categorySpending) categorySpending.

Definition analyzeSpendingByCategory (clock : Z) (transactions : list Transaction)
  : option SpendingByCategory :=
  let expenseTransactions := expenseTransactions clock transactions in
  let totalExpenses :=
    reduce (fun sum t => sum + Qabs (amount t)) 0 expenseTransactions in
  match forEach_accumulate expenseTransactions [] with
  | None => None
  | Some categorySpending => Some (assign_percentages totalExpenses categorySpending)
  end.

End FinancialAnalysis.

(** ** The specification's words for the sums *)

(** Sum of the absolute amounts of the rows that satisfy [p]. *)
Fixpoint sum_where (p : Transaction -> bool) (rows : list Transaction) : Q :=
  match rows with
  | [] => 0
  | t :: rest => (if p t then Qabs (amount t) else 0) + sum_where p rest
  end.

Definition sum_abs (rows : list Transaction) : Q := sum_where (fun _ => true) rows.

Section Windows.

Variable Date_parse : string -> option Z.

(** The row is dated on or after the clock's date moved back by [months]
    calendar months. *)
Definition in_window (months : Z) (clock : Z) (t : Transaction) : bool :=
  Date_ge (Date_parse (transaction_date t))
          (Date_of_ymd (getFullYear clock) (getMonth clock - months) (getDate clock)).

Definition is_type (ty : TransactionType) (t : Transaction) : bool :=
  TransactionType_eqb (transaction_type t) ty.

Definition resolves_to (category : string) (t : Transaction) : bool :=
  String.eqb (categorizeTransaction (or_empty (description t))) category.

(** Debt payments in the words of the specification: in-window expense
    rows whose categorization resolves to Debt. *)
Definition debtPayments (clock : Z) (rows : list Transaction) : Q :=
  sum_where (fun t => in_window 3 clock t && is_type expense t && resolves_to "Debt" t)
            rows.

Definition windowIncome (clock : Z) (rows : list Transaction) : Q :=
  sum_where (fun t => in_window 3 clock t && is_type income t) rows.

End Windows.

Definition sum_amounts (m : SpendingByCategory) : Q :=
  fold_right (fun kb acc => Bucket.amount (snd kb) + acc) 0 m.

Definition sum_percentages (m : SpendingByCategory) : Q :=
  fold_right (fun kb acc => Bucket.percentage (snd kb) + acc) 0 m.

(** A row with a description, for the examples. *)
Definition tx (a : Q) (d : string) (ty : TransactionType) (date : string) : Transaction :=
  {| amount := a; description := Some d; transaction_type := ty;
     transaction_date := date |}.

(** What the second loop writes into a bucket. *)
Definition with_percentage (totalExpenses : Q) (b : Bucket.t) : Bucket.t :=
  {| Bucket.amount := Bucket.amount b;
     Bucket.percentage :=
       if Qlt_le_dec 0 totalExpenses
       then (Bucket.amount b / totalExpenses) * 100 else 0;
     Bucket.transactions := Bucket.transactions b |}.


(* ===================================================================== *)
(** * financial-analysis: insights *)
(* ===================================================================== *)

Inductive InsightType : Type := positive | warning | critical.

Inductive Priority : Type := low | medium | high.

Module Insight.
Record t : Type := {
  type : InsightType;
  title : string;
  description : string;
  recommendation : string;
  priority : Priority
}.
End Insight.

Definition FinancialInsight : Type := Insight.t.

Record UserProfile : Type := {
  annual_income : Q;
  risk_tolerance : string;
  financial_goals : list string
}.

(** [{ high: 3, medium: 2, low: 1 }] *)
Definition priorityOrder (p : Priority) : Z :=
  match p with
  | high => 3
  | medium => 2
  | low => 1
  end.

Definition Priority_eqb (p q : Priority) : bool :=
  match p, q with
  | low, low | medium, medium | high, high => true
  | _, _ => false
  end.

(** [Array.prototype.sort(compare)].  The language fixes its result for a
    consistent comparator: the elements in ascending order of [compare],
    elements that compare equal in their original order.  It is computed
    here by insertion from the right, an element going before the first
    one it does not compare greater than. *)
Fixpoint sort_insert {A : Type} (compare : A -> A -> Z) (x : A) (sorted : list A)
  : list A :=
  match sorted with
  | [] => [x]
  | y :: rest =>
      if (compare x y <=? 0)%Z then x :: y :: rest
      else y :: sort_insert compare x rest
  end.

Definition Array_sort {A : Type} (compare : A -> A -> Z) (l : list A) : list A :=
  fold_right (sort_insert compare) [] l.

(** [array.push(x)] *)
Definition push {A : Type} (l : list A) (x : A) : list A := l ++ [x].

(** [x.toFixed(fractionDigits)] for magnitudes below 10^21, where the
    result is the decimal expansion rounded to the nearest, ties to the
    larger magnitude.  The insight generator is parameterised by the
    formatter, this is the instance the examples use. *)
Definition pad_left (width : nat) (s : string) : string :=
  (string_of_list_ascii (repeat "0"%char (width - String.length s)) ++ s)%string.

Definition toFixed_decimal (x : Q) (fractionDigits : Z) : string :=
  let sign := if Qlt_le_dec x 0 then "-"%string else ""%string in
  let scale := (10 ^ fractionDigits)%Z in
  let n := Qfloor (Qabs x * inject_Z scale + (1 # 2)) in
  let whole := NilZero.string_of_uint (N.to_uint (Z.to_N (n / scale))) in
  let fraction := NilZero.string_of_uint (N.to_uint (Z.to_N (n mod scale))) in
  (sign ++ whole ++
   (if (fractionDigits =? 0)%Z then ""
    else "." ++ pad_left (Z.to_nat fractionDigits) fraction))%string.

(** The comparator of the final sort,
    [(a, b) => priorityOrder[b.priority] - priorityOrder[a.priority]]. *)
Definition by_priority (a b : FinancialInsight) : Z :=
  (priorityOrder (Insight.priority b) - priorityOrder (Insight.priority a))%Z.

(** [b] does not weigh more than [a]. *)
Definition not_below (a b : FinancialInsight) : Prop :=
  (priorityOrder (Insight.priority b) <= priorityOrder (Insight.priority a))%Z.

Section Insights.

(** [Number.prototype.toFixed] *)
Variable toFixed : Q -> Z -> string.

Local Notation "a +++ b" := (String.append a b) (at level 60, right associativity).

Definition lowSavingsRate (metrics : FinancialMetrics) : FinancialInsight :=
  {| Insight.type := critical;
     Insight.title := "Low Savings Rate";
     Insight.description :=
       "Your current savings rate is " +++ toFixed (savingsRate metrics) 1
       +++ "%, which is below the recommended 20%.";
     Insight.recommendation :=
       "Consider reducing discretionary spending and automating your savings to reach at least 20% savings rate.";
     Insight.priority := high |}.

Definition moderateSavingsRate (metrics : FinancialMetrics) : FinancialInsight :=
  {| Insight.type := warning;
     Insight.title := "Moderate Savings Rate";
     Insight.description :=
       "Your savings rate of " +++ toFixed (savingsRate metrics) 1
       +++ "% is good, but could be improved.";
     Insight.recommendation :=
       "Try to increase your savings rate to 20% or higher for better financial security.";
     Insight.priority := medium |}.

Definition excellentSavingsRate (metrics : FinancialMetrics) : FinancialInsight :=
  {| Insight.type := positive;
     Insight.title := "Excellent Savings Rate";
     Insight.description :=
       "Your savings rate of " +++ toFixed (savingsRate metrics) 1 +++ "% is excellent!";
     Insight.recommendation :=
       "Keep up the great work! Consider investing your excess savings for long-term growth.";
     Insight.priority := low |}.

Definition insufficientEmergencyFund (metrics : FinancialMetrics) : FinancialInsight :=
  {| Insight.type := critical;
     Insight.title := "Insufficient Emergency Fund";
     Insight.description :=
       "Your emergency fund covers only " +++ toFixed (emergencyFundMonths metrics) 1
       +++ " months of expenses.";
     Insight.recommendation :=
       "Build your emergency fund to cover 3-6 months of expenses before focusing on other investments.";
     Insight.priority := high |}.

Definition emergencyFundNeedsGrowth (metrics : FinancialMetrics) : FinancialInsight :=
  {| Insight.type := warning;
     Insight.title := "Emergency Fund Needs Growth";
     Insight.description :=
       "Your emergency fund covers " +++ toFixed (emergencyFundMonths metrics) 1
       +++ " months of expenses.";
     Insight.recommendation :=
       "Consider building your emergency fund to 6 months of expenses for better security.";
     Insight.priority := medium |}.

Definition highDebtToIncome (metrics : FinancialMetrics) : FinancialInsight :=
  {| Insight.type := critical;
     Insight.title := "High Debt-to-Income Ratio";
     Insight.description :=
       "Your debt-to-income ratio of " +++ toFixed (debtToIncomeRatio metrics) 1
       +++ "% is concerning.";
     Insight.recommendation :=
       "Focus on debt reduction strategies like the debt avalanche or snowball method.";
     Insight.priority := high |}.

Definition moderateDebtLoad (metrics : FinancialMetrics) : FinancialInsight :=
  {| Insight.type := warning;
     Insight.title := "Moderate Debt Load";
     Insight.description :=
       "Your debt-to-income ratio of " +++ toFixed (debtToIncomeRatio metrics) 1
       +++ "% could be improved.";
     Insight.recommendation :=
       "Consider accelerating debt payments to reduce your debt burden.";
     Insight.priority := medium |}.

Definition highHousingCosts (housingSpending : Bucket.t) : FinancialInsight :=
  {| Insight.type := warning;
     Insight.title := "High Housing Costs";
     Insight.description :=
       "Housing costs represent " +++ toFixed (Bucket.percentage housingSpending) 1
       +++ "% of your spending.";
     Insight.recommendation :=
       "Consider ways to reduce housing costs or increase income, as the recommended limit is 30%.";
     Insight.priority := medium |}.

Definition highFoodSpending (foodSpending : Bucket.t) : FinancialInsight :=
  {| Insight.type := warning;
     Insight.title := "High Food Spending";
     Insight.description :=
       "Food expenses represent " +++ toFixed (Bucket.percentage foodSpending) 1
       +++ "% of your spending.";
     Insight.recommendation :=
       "Consider meal planning and cooking at home more often to reduce food costs.";
     Insight.priority := low |}.

(** The array as it stands before the final [sort]. *)
Definition pushed_insights
    (metrics : FinancialMetrics) (spendingByCategory : SpendingByCategory)
    (userProfile : UserProfile) : list FinancialInsight :=
  let insights : list FinancialInsight := [] in
  let insights :=
    if Qlt_le_dec (savingsRate metrics) 10 then push insights (lowSavingsRate metrics)
    else if Qlt_le_dec (savingsRate metrics) 20
         then push insights (moderateSavingsRate metrics)
         else push insights (excellentSavingsRate metrics) in
  let insights :=
    if Qlt_le_dec (emergencyFundMonths metrics) 3
    then push insights (insufficientEmergencyFund metrics)
    else if Qlt_le_dec (emergencyFundMonths metrics) 6
         then push insights (emergencyFundNeedsGrowth metrics)
         else insights in
  let insights :=
    if Qlt_le_dec 40 (debtToIncomeRatio metrics)
    then push insights (highDebtToIncome metrics)
    else if Qlt_le_dec 20 (debtToIncomeRatio metrics)
         then push insights (moderateDebtLoad metrics)
         else insights in
  let housingSpending := get spendingByCategory "Housing" in
  let insights :=
    match housingSpending with
    | Some housingSpending =>
        if Qlt_le_dec 30 (Bucket.percentage housingSpending)
        then push insights (highHousingCosts housingSpending) else insights
    | None => insights
    end in
  let foodSpending := get spendingByCategory "Food" in
  let insights :=
    match foodSpending with
    | Some foodSpending =>
        if Qlt_le_dec 15 (Bucket.percentage foodSpending)
        then push insights (highFoodSpending foodSpending) else insights
    | None => insights
    end in
  insights.

Definition generateFinancialInsights
    (metrics : FinancialMetrics) (spendingByCategory : SpendingByCategory)
    (userProfile : UserProfile) : list FinancialInsight :=
  Array_sort by_priority (pushed_insights metrics spendingByCategory userProfile).

(** ** The rules in the specification's words: each contributes no or one
    insight. *)

Definition savings_rule (metrics : FinancialMetrics) : list FinancialInsight :=
  if Qlt_le_dec (savingsRate metrics) 10 then [lowSavingsRate metrics]
  else if Qlt_le_dec (savingsRate metrics) 20 then [moderateSavingsRate metrics]
       else [excellentSavingsRate metrics].

Definition emergency_rule (metrics : FinancialMetrics) : list FinancialInsight :=
  if Qlt_le_dec (emergencyFundMonths metrics) 3 then [insufficientEmergencyFund metrics]
  else if Qlt_le_dec (emergencyFundMonths metrics) 6
       then [emergencyFundNeedsGrowth metrics] else [].

Definition debt_rule (metrics : FinancialMetrics) : list FinancialInsight :=
  if Qlt_le_dec 40 (debtToIncomeRatio metrics) then [highDebtToIncome metrics]
  else if Qlt_le_dec 20 (debtToIncomeRatio metrics) then [moderateDebtLoad metrics]
       else [].

Definition housing_rule (spendingByCategory : SpendingByCategory) : list FinancialInsight :=
  match get spendingByCategory "Housing" with
  | Some b => if Qlt_le_dec 30 (Bucket.percentage b) then [highHousingCosts b] else []
  | None => []
  end.

Definition food_rule (spendingByCategory : SpendingByCategory) : list FinancialInsight :=
  match get spendingByCategory "Food" with
  | Some b => if Qlt_le_dec 15 (Bucket.percentage b) then [highFoodSpending b] else []
  | None => []
  end.

Definition rule_order
    (metrics : FinancialMetrics) (spendingByCategory : SpendingByCategory)
  : list FinancialInsight :=
  savings_rule metrics ++ emergency_rule metrics ++ debt_rule metrics
  ++ housing_rule spendingByCategory ++ food_rule spendingByCategory.

End Insights.

Definition has_priority (p : Priority) (i : FinancialInsight) : bool :=
  Priority_eqb (Insight.priority i) p.

(* ===================================================================== *)
(** * Numbers of the host language that are not rationals *)
(* ===================================================================== *)

(** The value of a division: a rational, an infinity, or NaN.  Zero has
    no sign here, so a nonzero number over zero takes the sign of the
    numerator. *)
Inductive number : Type :=
| Finite (q : Q)
| Infinite (negative : bool)
| NaN.

Definition divide (x y : Q) : number :=
  if Qeq_bool y 0 then
    if Qeq_bool x 0 then NaN
    else Infinite (if Qlt_le_dec x 0 then true else false)
  else Finite (x / y).

(** [a || b]: [b] when [a] is falsy, that is zero or NaN. *)
Definition or_else (a : number) (b : Q) : number :=
  match a with
  | Finite q => if Qeq_bool q 0 then Finite b else a
  | Infinite _ => a
  | NaN => Finite b
  end.

(** [x / d] for a rational [x]. *)
Definition divide_by (x : Q) (d : number) : number :=
  match d with
  | Finite q => divide x q
  | Infinite _ => Finite 0
  | NaN => NaN
  end.

(** [Math.max(a, b)] for a rational [b]. *)
Definition max_with (a : number) (b : Q) : number :=
  match a with
  | Finite q => Finite (Qmax q b)
  | Infinite false => a
  | Infinite true => Finite b
  | NaN => NaN
  end.

(** [Math.pow(base, exponent)] where the exponent is an integer and the
    power a rational; [None] elsewhere, where the power has no place in
    the rationals. *)
Definition Math_pow (base exponent : Q) : option Q :=
  if Qeq_bool (inject_Z (Qfloor exponent)) exponent then
    if Qeq_bool base 0 && (Qfloor exponent <? 0)%Z then None
    else Some (Qpower base (Qfloor exponent))
  else None.

(** [Math.round]: the nearest integer, a tie going up. *)
Definition Math_round (x : Q) : Q := inject_Z (Qfloor (x + (1 # 2))).

(* ===================================================================== *)
(** * investment-planning: data model *)
(* ===================================================================== *)

Inductive RiskTolerance : Type := conservative | moderate | aggressive.

Definition RiskTolerance_string (r : RiskTolerance) : string :=
  match r with
  | conservative => "conservative"
  | moderate => "moderate"
  | aggressive => "aggressive"
  end.

Record InvestmentProfile : Type := {
  riskTolerance : RiskTolerance;
  timeHorizon : Q;
  investmentGoals : list string;
  currentAge : Q;
  retirementAge : Q;
  availableToInvest : Q
}.

Record AssetAllocation : Type := {
  stocks : Q;
  bonds : Q;
  realEstate : Q;
  commodities : Q;
  cash : Q
}.

(** The recommendation without its two texts ([description],
    [reasoning]), which print numbers in the host's shortest notation. *)
Record InvestmentRecommendation : Type := {
  allocation : AssetAllocation;
  expectedReturn : Q;
  riskLevel : string
}.

Record PortfolioPerformance : Type := {
  totalValue : Q;
  totalGain : Q;
  totalGainPercentage : Q;
  dayChange : Q;
  dayChangePercentage : Q;
  diversificationScore : Q
}.

Record Holding : Type := {
  symbol : string;
  shares : Q;
  purchase_price : Q;
  current_price : Q
}.

Record Projection : Type := {
  projectedAmount : Q;
  yearsToTarget : Q;
  onTrack : bool
}.

(* ===================================================================== *)
(** * investment-planning: allocations *)
(* ===================================================================== *)

(** Age-based asset allocation (rule of 100/110/120).  The risk tolerance
    is any string here, the [default] branch takes the unknown ones. *)
Definition calculateAgeBasedAllocation (age : Q) (riskTolerance : string)
  : AssetAllocation :=
  let stockPercentage :=
    if String.eqb riskTolerance "conservative" then Qmax (100 - age) 20
    else if String.eqb riskTolerance "moderate" then Qmax (110 - age) 30
    else if String.eqb riskTolerance "aggressive" then Qmax (120 - age) 40
    else Qmax (110 - age) 30 in
  let bondPercentage := Qmin (100 - stockPercentage) 60 in
  let remainingPercentage := 100 - stockPercentage - bondPercentage in
  {| stocks := stockPercentage;
     bonds := bondPercentage;
     realEstate := Qmin (remainingPercentage * 0.6) 15;
     commodities := Qmin (remainingPercentage * 0.3) 10;
     cash := Qmax (remainingPercentage * 0.1) 5 |}.

(** The lookup [{conservative: 0.7, moderate: 1.0, aggressive: 1.3}[key]]:
    [undefined] for any other key. *)
Definition riskMultiplier (riskTolerance : string) : option Q :=
  if String.eqb riskTolerance "conservative" then Some 0.7
  else if String.eqb riskTolerance "moderate" then Some 1.0
  else if String.eqb riskTolerance "aggressive" then Some 1.3
  else None.

(** Goal-based asset allocation.  With an unknown risk tolerance the
    multiplier is [undefined] and every component comes out NaN: [None]. *)
Definition calculateGoalBasedAllocation
    (timeHorizon : Q) (riskTolerance : string) (goalType : string)
  : option AssetAllocation :=
  let baseAllocation :=
    if Qlt_le_dec timeHorizon 3 then
      {| stocks := 30; bonds := 50; realEstate := 5; commodities := 5; cash := 10 |}
    else if Qlt_le_dec timeHorizon 10 then
      {| stocks := 50; bonds := 35; realEstate := 8; commodities := 5; cash := 2 |}
    else
      {| stocks := 70; bonds := 20; realEstate := 7; commodities := 2; cash := 1 |} in
  match riskMultiplier riskTolerance with
  | None => None
  | Some riskMultiplier =>
      let stockAdjustment := (stocks baseAllocation - 50) * (riskMultiplier - 1) in
      let stocks' := Qmax (Qmin (stocks baseAllocation + stockAdjustment) 90) 10 in
      let bonds' := Qmax (Qmin (bonds baseAllocation - stockAdjustment * 0.7) 80) 5 in
      let baseAllocation :=
        {| stocks := stocks'; bonds := bonds';
           realEstate := realEstate baseAllocation;
           commodities := commodities baseAllocation;
           cash := cash baseAllocation |} in
      let total :=
        reduce (fun sum val => sum + val) 0
          [stocks baseAllocation; bonds baseAllocation; realEstate baseAllocation;
           commodities baseAllocation; cash baseAllocation] in
      Some {| stocks := (stocks baseAllocation / total) * 100;
              bonds := (bonds baseAllocation / total) * 100;
              realEstate := (realEstate baseAllocation / total) * 100;
              commodities := (commodities baseAllocation / total) * 100;
              cash := (cash baseAllocation / total) * 100 |}
  end.

(** The blend of the two approaches (60% goal-based, 40% age-based), each
    component rounded on its own. *)
Definition blendAllocation (goalBasedAllocation ageBasedAllocation : AssetAllocation)
  : AssetAllocation :=
  {| stocks :=
       Math_round (stocks goalBasedAllocation * 0.6 + stocks ageBasedAllocation * 0.4);
     bonds :=
       Math_round (bonds goalBasedAllocation * 0.6 + bonds ageBasedAllocation * 0.4);
     realEstate :=
       Math_round (realEstate goalBasedAllocation * 0.6
                   + realEstate ageBasedAllocation * 0.4);
     commodities :=
       Math_round (commodities goalBasedAllocation * 0.6
                   + commodities ageBasedAllocation * 0.4);
     cash :=
       Math_round (cash goalBasedAllocation * 0.6 + cash ageBasedAllocation * 0.4) |}.

Definition generateInvestmentRecommendation (profile : InvestmentProfile)
  : option InvestmentRecommendation :=
  let ageBasedAllocation :=
    calculateAgeBasedAllocation (currentAge profile)
      (RiskTolerance_string (riskTolerance profile)) in
  match calculateGoalBasedAllocation (timeHorizon profile)
          (RiskTolerance_string (riskTolerance profile))
          (match investmentGoals profile with
           | g :: _ => if String.eqb g "" then "general" else g
           | [] => "general"
           end) with
  | None => None
  | Some goalBasedAllocation =>
      let allocation := blendAllocation goalBasedAllocation ageBasedAllocation in
      let expectedReturn :=
        (stocks allocation * 0.1 + bonds allocation * 0.04
         + realEstate allocation * 0.08 + commodities allocation * 0.06
         + cash allocation * 0.02) / 100 in
      let riskLevel :=
        match riskTolerance profile with
        | aggressive => "High"
        | moderate => "Medium"
        | conservative => "Low"
        end in
      Some {| allocation := allocation;
              expectedReturn := expectedReturn;
              riskLevel := riskLevel |}
  end.

(** Two allocations with the same five percentages, and an allocation
    with each percentage rounded. *)
Definition same_allocation (a b : AssetAllocation) : Prop :=
  stocks a == stocks b /\ bonds a == bonds b /\ realEstate a == realEstate b
  /\ commodities a == commodities b /\ cash a == cash b.

Definition rounded (a : AssetAllocation) : AssetAllocation :=
  {| stocks := Math_round (stocks a);
     bonds := Math_round (bonds a);
     realEstate := Math_round (realEstate a);
     commodities := Math_round (commodities a);
     cash := Math_round (cash a) |}.

Definition allocation_sum (a : AssetAllocation) : Q :=
  stocks a + bonds a + realEstate a + commodities a + cash a.

(* ===================================================================== *)
(** * investment-planning: portfolio and goals *)
(* ===================================================================== *)

(** The three running totals of the [forEach] over the holdings. *)
Record Totals : Type := { value_so_far : Q; cost_so_far : Q; change_so_far : Q }.

Definition add_holding (acc : Totals) (investment : Holding) : Totals :=
  let currentValue := shares investment * current_price investment in
  let costBasis := shares investment * purchase_price investment in
  let previousPrice := current_price investment * 0.99 in
  {| value_so_far := value_so_far acc + currentValue;
     cost_so_far := cost_so_far acc + costBasis;
     change_so_far :=
       change_so_far acc
       + shares investment * (current_price investment - previousPrice) |}.

Definition calculatePortfolioPerformance (investments : list Holding)
  : PortfolioPerformance :=
  let acc :=
    fold_left add_holding investments
      {| value_so_far := 0; cost_so_far := 0; change_so_far := 0 |} in
  let totalValue := value_so_far acc in
  let totalCost := cost_so_far acc in
  let dayChange := change_so_far acc in
  let totalGain := totalValue - totalCost in
  let totalGainPercentage :=
    if Qlt_le_dec 0 totalCost then (totalGain / totalCost) * 100 else 0 in
  let dayChangePercentage :=
    if Qlt_le_dec 0 totalValue then (dayChange / totalValue) * 100 else 0 in
  let uniqueSymbols :=
    Z.of_nat (List.length (nodup string_dec (map symbol investments))) in
  let diversificationScore := Qmin ((inject_Z uniqueSymbols / 10) * 100) 100 in
  {| totalValue := totalValue;
     totalGain := totalGain;
     totalGainPercentage := totalGainPercentage;
     dayChange := dayChange;
     dayChangePercentage := dayChangePercentage;
     diversificationScore := diversificationScore |}.

(** The annuity factor [(Math.pow(1 + r, n) - 1) / r]. *)
Definition annuityFactor (monthlyReturn totalMonths : Q) : option number :=
  match Math_pow (1 + monthlyReturn) totalMonths with
  | None => None
  | Some p => Some (divide (p - 1) monthlyReturn)
  end.

Definition calculateMonthlyContributionNeeded
    (currentAmount targetAmount yearsToGoal expectedReturn : Q) : option number :=
  if Qle_bool yearsToGoal 0 then Some (Finite (targetAmount - currentAmount))
  else
    let monthlyReturn := expectedReturn / 12 in
    let totalMonths := yearsToGoal * 12 in
    match Math_pow (1 + monthlyReturn) totalMonths with
    | None => None
    | Some growth =>
        let futureValueCurrent := currentAmount * growth in
        let amountNeeded := targetAmount - futureValueCurrent in
        if Qle_bool amountNeeded 0 then Some (Finite 0)
        else
          match annuityFactor monthlyReturn totalMonths with
          | None => None
          | Some factor =>
              let monthlyPayment := divide_by amountNeeded (or_else factor totalMonths) in
              Some (max_with monthlyPayment 0)
          end
    end.

Definition maxMonths : Z := (50 * 12)%Z.

(** The iterations the cap still allows. *)
Definition months_left (months : Z) : nat := Z.to_nat (maxMonths - months).

Arguments months_left : simpl never.

(** The [while] loop of the projection on its two variables; [months]
    counts the iterations. *)
Equations? simulate (monthlyReturn monthlyContribution targetAmount : Q)
    (amount : Q) (months : Z) : Q * Z
  by wf (months_left months) lt :=
  simulate monthlyReturn monthlyContribution targetAmount amount months
    with Qlt_le_dec amount targetAmount, Z_lt_dec months maxMonths => {
    | left _, left _ :=
        simulate monthlyReturn monthlyContribution targetAmount
          (amount * (1 + monthlyReturn) + monthlyContribution) (months + 1);
    | _, _ := (amount, months) }.
Proof. unfold months_left, maxMonths in *. lia. Qed.

Definition projectInvestmentGoal
    (currentAmount monthlyContribution expectedReturn targetAmount : Q) : Projection :=
  let monthlyReturn := expectedReturn / 12 in
  let '(amount, months) :=
    simulate monthlyReturn monthlyContribution targetAmount currentAmount 0 in
  {| projectedAmount := amount;
     yearsToTarget := inject_Z months / 12;
     onTrack := (months <? maxMonths)%Z |}.

(** The amount after [n] months of compounding and contributing. *)
Definition amount_after
    (currentAmount monthlyContribution expectedReturn : Q) (n : nat) : Q :=
  Nat.iter n (fun amount => amount * (1 + expectedReturn / 12) + monthlyContribution)
           currentAmount.


(* ===================================================================== *)
(** * Metrics in terms of the window's sums *)
(* ===================================================================== *)

(** Two metrics with the same seven numbers. *)
Definition metrics_eq (a b : FinancialMetrics) : Prop :=
  totalIncome a == totalIncome b
  /\ totalExpenses a == totalExpenses b
  /\ netIncome a == netIncome b
  /\ savingsRate a == savingsRate b
  /\ debtToIncomeRatio a == debtToIncomeRatio b
  /\ emergencyFundMonths a == emergencyFundMonths b
  /\ monthlyBudgetVariance a == monthlyBudgetVariance b.

Definition windowExpenses (Date_parse : string -> option Z) (clock : Z)
    (rows : list Transaction) : Q :=
  sum_where (fun t => in_window Date_parse 3 clock t && is_type expense t) rows.

(** The metrics that belong to a window's income, expenses and debt
    payments and to a balance. *)
Definition metrics_of_sums (income expenses debt balance : Q) : FinancialMetrics :=
  {| totalIncome := income;
     totalExpenses := expenses;
     netIncome := income - expenses;
     savingsRate :=
       if Qlt_le_dec 0 income then (income - expenses) / income * 100 else 0;
     debtToIncomeRatio := if Qlt_le_dec 0 income then debt / income * 100 else 0;
     emergencyFundMonths :=
       if Qlt_le_dec 0 expenses then 3 * balance / expenses else 0;
     monthlyBudgetVariance := 0 |}.

(** The balance argument with its default. *)
Definition balance_or_zero (emergencyFundBalance : option Q) : Q :=
  match emergencyFundBalance with Some b => b | None => 0 end.

(** The row with the sign of its amount changed. *)
Definition negate (t : Transaction) : Transaction :=
  {| amount := - amount t;
     description := description t;
     transaction_type := transaction_type t;
     transaction_date := transaction_date t |}.

(** The rows that can count: dated in the three-month window and not a
    transfer. *)
Definition counts (Date_parse : string -> option Z) (clock : Z) (t : Transaction)
  : bool :=
  in_window Date_parse 3 clock t && negb (is_type transfer t).

(* ===================================================================== *)
(** * Spending in terms of the rows of a category *)
(* ===================================================================== *)

(** The row has a description and the categorizer sends it to
    [category]. *)
Definition has_category (category : string) (t : Transaction) : bool :=
  match description t with
  | Some d => String.eqb (categorizeTransaction d) category
  | None => false
  end.

(** Number of rows that satisfy [p]. *)
Definition count_where (p : Transaction -> bool) (rows : list Transaction) : Z :=
  Z.of_nat (List.length (filter p rows)).

Definition sum_transactions (m : SpendingByCategory) : Z :=
  fold_right (fun kb acc => (Bucket.transactions (snd kb) + acc)%Z) 0%Z m.

(** What a bucket has to hold for the rows read so far. *)
Definition bucket_for (category : string) (rows : list Transaction)
    (entry : option Bucket.t) : Prop :=
  match entry with
  | Some b =>
      Bucket.amount b == sum_where (has_category category) rows
      /\ Bucket.transactions b = count_where (has_category category) rows
      /\ (0 < count_where (has_category category) rows)%Z
  | None => count_where (has_category category) rows = 0%Z
  end.

(* ===================================================================== *)
(** * The analysis route *)
(* ===================================================================== *)

(** [x || 0] on a balance that may be absent: zero is falsy as well. *)
Definition or_zero (x : option Q) : Q :=
  match x with
  | Some q => q
  | None => 0
  end.

(** The profile row of the store, each column of which may be null. *)
Record ProfileRow : Type := {
  row_annual_income : option Q;
  row_risk_tolerance : option string;
  row_financial_goals : option (list string)
}.

(** What the analysis route answers with. *)
Record Analysis : Type := {
  analysis_metrics : FinancialMetrics;
  analysis_spendingByCategory : SpendingByCategory;
  analysis_insights : list FinancialInsight;
  transactionCount : Z
}.

Section AnalysisRoute.

Variable Date_parse : string -> option Z.
Variable toFixed : Q -> Z -> string.

(** The calculation of the analysis route's [GET], from the rows the
    store returned ([None] for a null result) to the answer; [None] is the
    [catch] branch, taken when the spending aggregation throws. *)
Definition financialAnalysis (clock : Z) (profile : ProfileRow)
    (transactions : option (list Transaction))
    (savingsAccounts : option (list (option Q))) : option Analysis :=
  let emergencyFundBalance :=
    match savingsAccounts with
    | Some accounts =>
        reduce (fun sum current_balance => sum + or_zero current_balance) 0 accounts
    | None => 0
    end in
  let rows := match transactions with Some l => l | None => [] end in
  let metrics :=
    calculateFinancialMetrics Date_parse clock rows (Some emergencyFundBalance) in
  match analyzeSpendingByCategory Date_parse clock rows with
  | None => None
  | Some spendingByCategory =>
      let insights :=
        generateFinancialInsights toFixed metrics spendingByCategory
          {| annual_income := or_zero (row_annual_income profile);
             risk_tolerance :=
               match row_risk_tolerance profile with
               | Some r => if String.eqb r "" then "moderate"%string else r
               | None => "moderate"%string
               end;
             financial_goals :=
               match row_financial_goals profile with
               | Some goals => goals
               | None => []
               end |} in
      Some {| analysis_metrics := metrics;
              analysis_spendingByCategory := spendingByCategory;
              analysis_insights := insights;
              transactionCount :=
                match transactions with
                | Some l => Z.of_nat (List.length l)
                | None => 0%Z
                end |}
  end.

End AnalysisRoute.

(** The metrics of an empty window. *)
Definition no_metrics : FinancialMetrics :=
  {| totalIncome := 0; totalExpenses := 0; netIncome := 0; savingsRate := 0;
     debtToIncomeRatio := 0; emergencyFundMonths := 0; monthlyBudgetVariance := 0 |}.

(* ===================================================================== *)
(** * Allocations and portfolio: auxiliary notions *)
(* ===================================================================== *)

(** What is left after stocks and bonds in an allocation. *)
Definition remaining (a : AssetAllocation) : Q := 100 - stocks a - bonds a.

(** Number of distinct symbols among the holdings. *)
Definition distinct_symbols (investments : list Holding) : Z :=
  Z.of_nat (List.length (nodup string_dec (map symbol investments))).

(** The risk tolerance is one of the three the tables know. *)
Definition known_risk (riskTolerance : string) : Prop :=
  riskTolerance = "conservative"%string \/ riskTolerance = "moderate"%string
  \/ riskTolerance = "aggressive"%string.

(** The value after [n] months of one unit contributed at the end of each
    month, at the monthly rate [r]: 1 + (1 + r) + ... + (1 + r)^(n-1). *)
Fixpoint geometric (r : Q) (n : nat) : Q :=
  match n with
  | O => 0
  | S k => 1 + (1 + r) * geometric r k
  end.

(* ===================================================================== *)
(** * investment-planning: risk assessment *)
(* ===================================================================== *)

(** The volatility is a square root: in this one function a [number] is a
    real number, the allocation's percentages being the rationals they
    are. *)
Module Risk.
Record t : Type := {
  riskScore : R;
  volatility : R;
  riskLevel : string;
  recommendations : list string
}.
End Risk.

(** Risk assessment based on portfolio volatility; the historical
    volatility estimates are 0.16, 0.04, 0.12, 0.2 and 0.01. *)
Definition assessPortfolioRisk (allocation : AssetAllocation) : Risk.t :=
  let portfolioVolatility :=
    sqrt ((Q2R (stocks allocation) / 100 * Q2R 0.16) ^ 2
          + (Q2R (bonds allocation) / 100 * Q2R 0.04) ^ 2
          + (Q2R (realEstate allocation) / 100 * Q2R 0.12) ^ 2
          + (Q2R (commodities allocation) / 100 * Q2R 0.2) ^ 2
          + (Q2R (cash allocation) / 100 * Q2R 0.01) ^ 2)%R in
  let riskScore := Rmin (portfolioVolatility * 500) 100 in
  if Rlt_dec riskScore 30 then
    {| Risk.riskScore := riskScore;
       Risk.volatility := portfolioVolatility;
       Risk.riskLevel := "Low";
       Risk.recommendations :=
         ["Your portfolio has low risk but may have limited growth potential";
          "Consider increasing stock allocation if you have a long time horizon"]%string |}
  else if Rlt_dec riskScore 60 then
    {| Risk.riskScore := riskScore;
       Risk.volatility := portfolioVolatility;
       Risk.riskLevel := "Moderate";
       Risk.recommendations :=
         ["Your portfolio has balanced risk and return potential";
          "Good diversification across asset classes";
          "Review allocation annually and rebalance as needed"]%string |}
  else
    {| Risk.riskScore := riskScore;
       Risk.volatility := portfolioVolatility;
       Risk.riskLevel := "High";
       Risk.recommendations :=
         ["Your portfolio has high growth potential but significant volatility";
          "Ensure you can handle potential short-term losses";
          "Consider reducing risk as you approach your investment goals"]%string |}.

(** The square of the volatility, a rational, and the level it decides. *)
Definition square (x : Q) : Q := x * x.

Definition variance (a : AssetAllocation) : Q :=
  square (stocks a / 100 * 0.16) + square (bonds a / 100 * 0.04)
  + square (realEstate a / 100 * 0.12) + square (commodities a / 100 * 0.2)
  + square (cash a / 100 * 0.01).

Definition riskLevel_of_variance (v : Q) : string :=
  if Qlt_le_dec v (9 # 2500) then "Low"
  else if Qlt_le_dec v (9 # 625) then "Moderate" else "High".

(* ===================================================================== *)
(** * financial-analysis: the recommendation by risk tolerance alone *)
(* ===================================================================== *)

Module SimpleRecommendation.
Record t : Type := {
  stocks : Z;
  bonds : Z;
  cash : Z;
  description : string
}.
End SimpleRecommendation.

(** A whole number as a template literal prints it. *)
Definition show (n : Z) : string := NilZero.string_of_int (Z.to_int n).

(** The [switch] has no [default]: any other risk tolerance keeps the
    initial 60/30/10. *)
Definition calculateInvestmentRecommendations
    (userProfile : UserProfile) (availableToInvest : Q) : SimpleRecommendation.t :=
  let '(stockAllocation, bondAllocation, cashAllocation) :=
    if String.eqb (risk_tolerance userProfile) "conservative" then (30, 60, 10)%Z
    else if String.eqb (risk_tolerance userProfile) "moderate" then (60, 30, 10)%Z
    else if String.eqb (risk_tolerance userProfile) "aggressive" then (80, 15, 5)%Z
    else (60, 30, 10)%Z in
  {| SimpleRecommendation.stocks := stockAllocation;
     SimpleRecommendation.bonds := bondAllocation;
     SimpleRecommendation.cash := cashAllocation;
     SimpleRecommendation.description :=
       ("Based on your " ++ risk_tolerance userProfile
        ++ " risk tolerance, we recommend a portfolio allocation of "
        ++ show stockAllocation ++ "% stocks, " ++ show bondAllocation
        ++ "% bonds, and " ++ show cashAllocation ++ "% cash equivalents.")%string |}.

(* ===================================================================== *)
(** * The portfolio route *)
(* ===================================================================== *)

(** A row of the investments table: the current price and the type may
    be null. *)
Record InvestmentRow : Type := {
  row_symbol : string;
  row_shares : Q;
  row_purchase_price : Q;
  row_current_price : option Q;
  row_investment_type : option string
}.

(** The row as [calculatePortfolioPerformance] reads it: a null price
    counts as 0 in a product. *)
Definition holding_of_row (row : InvestmentRow) : Holding :=
  {| symbol := row_symbol row;
     shares := row_shares row;
     purchase_price := row_purchase_price row;
     current_price := or_zero (row_current_price row) |}.

(** The object used as a map from investment type to value. *)
Definition ValueByType : Type := list (string * Q).

Fixpoint value_of (m : ValueByType) (key : string) : option Q :=
  match m with
  | [] => None
  | (k, v) :: rest => if String.eqb k key then Some v else value_of rest key
  end.

Fixpoint set_value (m : ValueByType) (key : string) (v : Q) : ValueByType :=
  match m with
  | [] => [(key, v)]
  | (k, x) :: rest =>
      if String.eqb k key then (k, v) :: rest else (k, x) :: set_value rest key v
  end.

(** [investment.current_price || investment.purchase_price] *)
Definition price_or_purchase (investment : InvestmentRow) : Q :=
  match row_current_price investment with
  | Some p => if Qeq_bool p 0 then row_purchase_price investment else p
  | None => row_purchase_price investment
  end.

(** The callback of the route's [reduce]. *)
Definition add_to_type (acc : ValueByType) (investment : InvestmentRow) : ValueByType :=
  let type :=
    match row_investment_type investment with
    | Some t => if String.eqb t "" then "other"%string else t
    | None => "other"%string
    end in
  let value := row_shares investment * price_or_purchase investment in
  set_value acc type (or_zero (value_of acc type) + value).

Definition allocationByType (investments : list InvestmentRow) : ValueByType :=
  reduce add_to_type [] investments.

(** The two figures of the portfolio route's answer. *)
Definition portfolioRoute (investments : list InvestmentRow)
  : PortfolioPerformance * ValueByType :=
  (calculatePortfolioPerformance (map holding_of_row investments),
   allocationByType investments).

(** The key a row is counted under: [investment.investment_type || "other"]. *)
Definition type_of_row (investment : InvestmentRow) : string :=
  match row_investment_type investment with
  | Some t => if String.eqb t "" then "other"%string else t
  | None => "other"%string
  end.

(** What the rows of one type are worth, each at its current price or,
    without one, at its purchase price, added up from [init] in the order
    of the rows. *)
Definition value_by_type_from (type : string) (init : Q)
    (investments : list InvestmentRow) : Q :=
  fold_left
    (fun sum row =>
       if String.eqb (type_of_row row) type
       then sum + row_shares row * price_or_purchase row else sum)
    investments init.

Definition value_by_type (type : string) (investments : list InvestmentRow) : Q :=
  value_by_type_from type 0 investments.

(** What the rows are worth at their current price, a missing one counting
    as 0, added up from [init] in the order of the rows. *)
Definition current_value_from (init : Q) (investments : list InvestmentRow) : Q :=
  fold_left
    (fun sum row => sum + row_shares row * or_zero (row_current_price row))
    investments init.

(** The row has no price of its own to go by. *)
Definition unpriced (row : InvestmentRow) : bool :=
  match row_current_price row with
  | Some p => Qeq_bool p 0
  | None => true
  end.

(** The row has a price of its own, and neither it nor the number of
    shares is negative. *)
Definition priced (row : InvestmentRow) : Prop :=
  unpriced row = false /\ 0 <= row_shares row
  /\ 0 <= or_zero (row_current_price row).

(* ===================================================================== *)
(** * The spending analysis component *)
(* ===================================================================== *)

(** The sign of a number, which is all a sort looks at in what its
    comparator returns. *)
Definition sign (q : Q) : Z := Z.sgn (Qnum q).

(** The comparator [([, a], [, b]) => b.amount - a.amount]. *)
Definition by_amount (a b : string * Bucket.t) : Z :=
  sign (Bucket.amount (snd b) - Bucket.amount (snd a)).

(** [Object.entries(spendingByCategory).sort(([, a], [, b]) => b.amount - a.amount)] *)
Definition sortedCategories (spendingByCategory : SpendingByCategory)
  : list (string * Bucket.t) :=
  Array_sort by_amount spendingByCategory.

(** [categories.reduce((sum, [, data]) => sum + data.amount, 0)] *)
Definition totalSpending (categories : list (string * Bucket.t)) : Q :=
  reduce (fun sum entry => sum + Bucket.amount (snd entry)) 0 categories.

(** The entry [x] spent at least as much as the entry [y]. *)
Definition spent_no_less (x y : string * Bucket.t) : Prop :=
  Bucket.amount (snd y) <= Bucket.amount (snd x).

(* ===================================================================== *)
(** * The numeric code in double precision *)
(* ===================================================================== *)

(** The calculations again, on binary64 floats: every [+], [-], [*], [/]
    and comparison of the source is the IEEE operation, in the source's
    order.  A decimal literal stands for the double nearest to it, as the
    host reads it. *)
Module Double.

Import PrimFloat.
Local Open Scope float_scope.

(** 2^52: from here on every double is a whole number. *)
Definition two52 : float := 4503599627370496.

(** An integer as a double (exact below 2^53). *)
Definition of_Z (z : Z) : float :=
  match z with
  | Z0 => 0
  | Zpos _ => of_uint63 (Uint63.of_Z z)
  | Zneg p => - of_uint63 (Uint63.of_Z (Zpos p))
  end.

Definition of_nat (n : nat) : float := of_Z (Z.of_nat n).

(** [Math.max(a, b)]: NaN when either is NaN, and +0 above -0. *)
Definition Math_max (a b : float) : float :=
  if is_nan a || is_nan b then nan
  else if ltb a b then b
  else if ltb b a then a
  else if is_zero a then a + b else a.

(** [Math.min(a, b)]: NaN when either is NaN, and -0 below +0. *)
Definition Math_min (a b : float) : float :=
  if is_nan a || is_nan b then nan
  else if ltb a b then a
  else if ltb b a then b
  else if is_zero a then - (- a + - b) else a.

(** [Math.floor].  Below 2^52 in size, adding and taking away 2^52 rounds
    the size to a whole number, one too many when it rounded up. *)
Definition Math_floor (x : float) : float :=
  if is_nan x || leb two52 (abs x) || is_zero x then x
  else
    let r := (abs x + two52) - two52 in
    let t := if ltb (abs x) r then r - 1 else r in
    if ltb x 0 then (if eqb t (abs x) then - t else - t - 1) else t.

(** [Math.round]: the nearest whole number, a tie going up; the
    difference [x - floor x] is exact. *)
Definition Math_round (x : float) : float :=
  if is_nan x || leb two52 (abs x) || is_zero x then x
  else
    let f := Math_floor x in
    let r := if leb 0.5 (x - f) then f + 1 else f in
    if is_zero r && ltb x 0 then - 0 else r.

(** ** Allocations *)

Record AssetAllocation : Type := {
  stocks : float;
  bonds : float;
  realEstate : float;
  commodities : float;
  cash : float
}.

Record InvestmentProfile : Type := {
  riskTolerance : RiskTolerance;
  timeHorizon : float;
  investmentGoals : list string;
  currentAge : float;
  retirementAge : float;
  availableToInvest : float
}.

(** The recommendation without its two texts, as in the exact model. *)
Record InvestmentRecommendation : Type := {
  allocation : AssetAllocation;
  expectedReturn : float;
  riskLevel : string
}.

Definition calculateAgeBasedAllocation (age : float) (riskTolerance : string)
  : AssetAllocation :=
  let stockPercentage :=
    if String.eqb riskTolerance "conservative" then Math_max (100 - age) 20
    else if String.eqb riskTolerance "moderate" then Math_max (110 - age) 30
    else if String.eqb riskTolerance "aggressive" then Math_max (120 - age) 40
    else Math_max (110 - age) 30 in
  let bondPercentage := Math_min (100 - stockPercentage) 60 in
  let remainingPercentage := 100 - stockPercentage - bondPercentage in
  {| stocks := stockPercentage;
     bonds := bondPercentage;
     realEstate := Math_min (remainingPercentage * 0.6) 15;
     commodities := Math_min (remainingPercentage * 0.3) 10;
     cash := Math_max (remainingPercentage * 0.1) 5 |}.


(** The lookup [{conservative: 0.7, moderate: 1.0, aggressive: 1.3}[key]];
    [undefined] for any other key, which is NaN in the arithmetic that
    follows. *)
Definition riskMultiplier (riskTolerance : string) : float :=
  if String.eqb riskTolerance "conservative" then 0.7
  else if String.eqb riskTolerance "moderate" then 1.0
  else if String.eqb riskTolerance "aggressive" then 1.3
  else nan.

Definition calculateGoalBasedAllocation
    (timeHorizon : float) (riskTolerance : string) (goalType : string)
  : AssetAllocation :=
  let baseAllocation :=
    if ltb timeHorizon 3 then
      {| stocks := 30; bonds := 50; realEstate := 5; commodities := 5; cash := 10 |}
    else if ltb timeHorizon 10 then
      {| stocks := 50; bonds := 35; realEstate := 8; commodities := 5; cash := 2 |}
    else
      {| stocks := 70; bonds := 20; realEstate := 7; commodities := 2; cash := 1 |} in
  let riskMultiplier := riskMultiplier riskTolerance in
  let stockAdjustment := (stocks baseAllocation - 50) * (riskMultiplier - 1) in
  let stocks' := Math_max (Math_min (stocks baseAllocation + stockAdjustment) 90) 10 in
  let bonds' := Math_max (Math_min (bonds baseAllocation - stockAdjustment * 0.7) 80) 5 in
  let baseAllocation :=
    {| stocks := stocks'; bonds := bonds';
       realEstate := realEstate baseAllocation;
       commodities := commodities baseAllocation;
       cash := cash baseAllocation |} in
  let total :=
    reduce (fun sum val => sum + val) 0
      [stocks baseAllocation; bonds baseAllocation; realEstate baseAllocation;
       commodities baseAllocation; cash baseAllocation] in
  {| stocks := (stocks baseAllocation / total) * 100;
     bonds := (bonds baseAllocation / total) * 100;
     realEstate := (realEstate baseAllocation / total) * 100;
     commodities := (commodities baseAllocation / total) * 100;
     cash := (cash baseAllocation / total) * 100 |}.

(** The blend of the two approaches (60% goal-based, 40% age-based), each
    component rounded on its own. *)
Definition blendAllocation (goalBasedAllocation ageBasedAllocation : AssetAllocation)
  : AssetAllocation :=
  {| stocks :=
       Math_round (stocks goalBasedAllocation * 0.6 + stocks ageBasedAllocation * 0.4);
     bonds :=
       Math_round (bonds goalBasedAllocation * 0.6 + bonds ageBasedAllocation * 0.4);
     realEstate :=
       Math_round (realEstate goalBasedAllocation * 0.6
                   + realEstate ageBasedAllocation * 0.4);
     commodities :=
       Math_round (commodities goalBasedAllocation * 0.6
                   + commodities ageBasedAllocation * 0.4);
     cash :=
       Math_round (cash goalBasedAllocation * 0.6 + cash ageBasedAllocation * 0.4) |}.

Definition generateInvestmentRecommendation (profile : InvestmentProfile)
  : InvestmentRecommendation :=
  let ageBasedAllocation :=
    calculateAgeBasedAllocation (currentAge profile)
      (RiskTolerance_string (riskTolerance profile)) in
  let goalBasedAllocation :=
    calculateGoalBasedAllocation (timeHorizon profile)
      (RiskTolerance_string (riskTolerance profile))
      (match investmentGoals profile with
       | g :: _ => if String.eqb g "" then "general"%string else g
       | [] => "general"%string
       end) in
  let allocation := blendAllocation goalBasedAllocation ageBasedAllocation in
  let expectedReturn :=
    (stocks allocation * 0.1 + bonds allocation * 0.04
     + realEstate allocation * 0.08 + commodities allocation * 0.06
     + cash allocation * 0.02) / 100 in
  let riskLevel :=
    match riskTolerance profile with
    | aggressive => "High"%string
    | moderate => "Medium"%string
    | conservative => "Low"%string
    end in
  {| allocation := allocation;
     expectedReturn := expectedReturn;
     riskLevel := riskLevel |}.

(** An allocation with each percentage rounded. *)
Definition rounded (a : AssetAllocation) : AssetAllocation :=
  {| stocks := Math_round (stocks a);
     bonds := Math_round (bonds a);
     realEstate := Math_round (realEstate a);
     commodities := Math_round (commodities a);
     cash := Math_round (cash a) |}.

(** The five percentages added up, in the order of the fields. *)
Definition allocation_sum (a : AssetAllocation) : float :=
  stocks a + bonds a + realEstate a + commodities a + cash a.

(** ** Portfolio *)

Record Holding : Type := {
  symbol : string;
  shares : float;
  purchase_price : float;
  current_price : float
}.

Record PortfolioPerformance : Type := {
  totalValue : float;
  totalGain : float;
  totalGainPercentage : float;
  dayChange : float;
  dayChangePercentage : float;
  diversificationScore : float
}.

Record Totals : Type := {
  value_so_far : float; cost_so_far : float; change_so_far : float }.

Definition add_holding (acc : Totals) (investment : Holding) : Totals :=
  let currentValue := shares investment * current_price investment in
  let costBasis := shares investment * purchase_price investment in
  let previousPrice := current_price investment * 0.99 in
  {| value_so_far := value_so_far acc + currentValue;
     cost_so_far := cost_so_far acc + costBasis;
     change_so_far :=
       change_so_far acc
       + shares investment * (current_price investment - previousPrice) |}.

Definition calculatePortfolioPerformance (investments : list Holding)
  : PortfolioPerformance :=
  let acc :=
    fold_left add_holding investments
      {| value_so_far := 0; cost_so_far := 0; change_so_far := 0 |} in
  let totalValue := value_so_far acc in
  let totalCost := cost_so_far acc in
  let dayChange := change_so_far acc in
  let totalGain := totalValue - totalCost in
  let totalGainPercentage :=
    if ltb 0 totalCost then (totalGain / totalCost) * 100 else 0 in
  let dayChangePercentage :=
    if ltb 0 totalValue then (dayChange / totalValue) * 100 else 0 in
  let uniqueSymbols :=
    of_nat (List.length (nodup string_dec (map symbol investments))) in
  let diversificationScore := Math_min ((uniqueSymbols / 10) * 100) 100 in
  {| totalValue := totalValue;
     totalGain := totalGain;
     totalGainPercentage := totalGainPercentage;
     dayChange := dayChange;
     dayChangePercentage := dayChangePercentage;
     diversificationScore := diversificationScore |}.

(** ** Metrics *)

Record Transaction : Type := {
  amount : float;
  description : option string;
  transaction_type : TransactionType;
  transaction_date : string
}.

Record FinancialMetrics : Type := {
  totalIncome : float;
  totalExpenses : float;
  netIncome : float;
  savingsRate : float;
  debtToIncomeRatio : float;
  emergencyFundMonths : float;
  monthlyBudgetVariance : float
}.

Definition tx (a : float) (d : string) (ty : TransactionType) (date : string)
  : Transaction :=
  {| amount := a; description := Some d; transaction_type := ty;
     transaction_date := date |}.

Section FinancialAnalysis.

Variable Date_parse : string -> option Z.

Definition calculateFinancialMetrics
    (clock : Z) (transactions : list Transaction)
    (emergencyFundBalance : option float) : FinancialMetrics :=
  let emergencyFundBalance :=
    match emergencyFundBalance with Some b => b | None => 0 end in
  let now := clock in
  let threeMonthsAgo :=
    Date_of_ymd (getFullYear now) (getMonth now - 3) (getDate now) in
  let recentTransactions :=
    filter (fun t => Date_ge (Date_parse (transaction_date t)) threeMonthsAgo)
           transactions in
  let totalIncome :=
    reduce (fun sum t => sum + abs (amount t)) 0
      (filter (fun t => TransactionType_eqb (transaction_type t) income)
              recentTransactions) in
  let totalExpenses :=
    reduce (fun sum t => sum + abs (amount t)) 0
      (filter (fun t => TransactionType_eqb (transaction_type t) expense)
              recentTransactions) in
  let netIncome := totalIncome - totalExpenses in
  let savingsRate :=
    if ltb 0 totalIncome then (netIncome / totalIncome) * 100 else 0 in
  let monthlyExpenses := totalExpenses / 3 in
  let emergencyFundMonths :=
    if ltb 0 monthlyExpenses then emergencyFundBalance / monthlyExpenses
    else 0 in
  let debtPayments :=
    reduce (fun sum t => sum + abs (amount t)) 0
      (filter (fun t =>
                 String.eqb (categorizeTransaction (or_empty (description t)))
                            "Debt")
         (filter (fun t => TransactionType_eqb (transaction_type t) expense)
                 recentTransactions)) in
  let monthlyIncome := totalIncome / 3 in
  let debtToIncomeRatio :=
    if ltb 0 monthlyIncome then (debtPayments / 3 / monthlyIncome) * 100
    else 0 in
  {| totalIncome := totalIncome;
     totalExpenses := totalExpenses;
     netIncome := netIncome;
     savingsRate := savingsRate;
     debtToIncomeRatio := debtToIncomeRatio;
     emergencyFundMonths := emergencyFundMonths;
     monthlyBudgetVariance := 0 |}.

End FinancialAnalysis.

(** ** Goal projection *)

Record Projection : Type := {
  projectedAmount : float;
  yearsToTarget : float;
  onTrack : bool
}.

(** The [while] loop of the projection; [allowed] is the number of
    iterations the cap of 600 still allows, [months] their count so far. *)
Fixpoint simulate (allowed : nat)
    (monthlyReturn monthlyContribution targetAmount amount : float) (months : Z)
  : float * Z :=
  match allowed with
  | O => (amount, months)
  | S allowed =>
      if ltb amount targetAmount then
        simulate allowed monthlyReturn monthlyContribution targetAmount
          (amount * (1 + monthlyReturn) + monthlyContribution) (months + 1)%Z
      else (amount, months)
  end.

Definition projectInvestmentGoal
    (currentAmount monthlyContribution expectedReturn targetAmount : float)
  : Projection :=
  let monthlyReturn := expectedReturn / 12 in
  let '(amount, months) :=
    simulate (Z.to_nat maxMonths) monthlyReturn monthlyContribution targetAmount
      currentAmount 0%Z in
  {| projectedAmount := amount;
     yearsToTarget := of_Z months / 12;
     onTrack := (months <? maxMonths)%Z |}.

End Double.

(** [P] holds of every number below [n]. *)
Fixpoint all_below (P : nat -> Prop) (n : nat) : Prop :=
  match n with
  | O => True
  | S k => P k /\ all_below P k
  end.
(* ===================================================================== *)
(** * Categorizer: proofs *)
(* ===================================================================== *)

Section Categorizer.

Local Open Scope string_scope.

Lemma prefix_iff (k s : string) :
  prefix k s = true <-> exists after, s = k ++ after.
Proof.
  revert s; induction k as [|a k IH]; intros s; simpl.
  - destruct s; split; eauto.
  - destruct s as [|b s]; simpl.
    + split; [discriminate | intros [x Hx]; discriminate].
    + destruct (ascii_dec a b) as [->|Hne].
      * rewrite IH. split; intros [x Hx]; exists x; congruence.
      * split; [discriminate | intros [x Hx]; congruence].
Qed.

Lemma includes_iff (s k : string) :
  includes s k = true <-> occurs_in k s.
Proof.
  unfold occurs_in. induction s as [|c s IH]; cbn [includes].
  - rewrite orb_false_r, prefix_iff. split.
    + intros [x ->]. exists "", x. reflexivity.
    + intros [b [a H]]. destruct b; [eauto | discriminate].
  - rewrite orb_true_iff, prefix_iff, IH. split.
    + intros [[x ->] | [b [a ->]]].
      * exists "", x. reflexivity.
      * exists (String c b), a. reflexivity.
    + intros [b [a H]]. destruct b as [|c' b]; simpl in H.
      * left. eauto.
      * right. exists b, a. congruence.
Qed.

Lemma some_keyword_iff (d : string) (keywords : list string) :
  some_keyword d keywords = true <-> matches d keywords.
Proof.
  unfold some_keyword, matches. rewrite existsb_exists.
  split; intros [k [Hin H]]; exists k; split; auto; apply includes_iff; auto.
Qed.

Lemma some_keyword_false (d : string) (keywords : list string) :
  some_keyword d keywords = false <-> ~ matches d keywords.
Proof.
  rewrite <- some_keyword_iff. destruct (some_keyword d keywords); intuition congruence.
Qed.

(** The loop returns the first entry that matches. *)
Lemma for_entries_first entries d before category keywords after :
  entries = (before ++ (category, keywords) :: after)%list ->
  matches d keywords ->
  (forall c k, In (c, k) before -> ~ matches d k) ->
  for_entries entries d = Some category.
Proof.
  intros -> Hm. induction before as [|[c k] before IH]; intros Hnone; simpl.
  - apply some_keyword_iff in Hm. rewrite Hm. reflexivity.
  - assert (Hk : some_keyword d k = false)
      by (apply some_keyword_false, (Hnone c); left; reflexivity).
    rewrite Hk. apply IH. intros c' k' Hin. apply (Hnone c'). right; assumption.
Qed.

Lemma for_entries_none entries d :
  (forall c k, In (c, k) entries -> ~ matches d k) ->
  for_entries entries d = None.
Proof.
  induction entries as [|[c k] entries IH]; intros Hnone; simpl; [reflexivity|].
  assert (Hk : some_keyword d k = false)
    by (apply some_keyword_false, (Hnone c); left; reflexivity).
  rewrite Hk. apply IH. intros c' k' Hin. apply (Hnone c'). right; assumption.
Qed.

Lemma for_entries_key entries d category :
  for_entries entries d = Some category -> In category (map fst entries).
Proof.
  induction entries as [|[c k] entries IH]; simpl; [discriminate|].
  destruct (some_keyword d k).
  - intros [= ->]. left; reflexivity.
  - intros H. right. apply IH, H.
Qed.

End Categorizer.

(** C1. [categorizeTransaction] is a total function of the description into
    the eleven categories, which are enumerated in declared order; its
    result is the first category, in that order, one of whose keywords
    occurs in the lower-cased description (so of two categories with a
    matching keyword the earlier one wins); it is ["Other"] when no keyword
    of any category occurs, and in particular for the empty description. *)
Theorem categorizeTransaction_first_match (description : string) :
  map fst TRANSACTION_CATEGORIES = category_names
  /\ In (categorizeTransaction description) category_names
  /\ (forall before category keywords after,
        TRANSACTION_CATEGORIES = (before ++ (category, keywords) :: after)%list ->
        matches (toLowerCase description) keywords ->
        (forall c k, In (c, k) before -> ~ matches (toLowerCase description) k) ->
        categorizeTransaction description = category)
  /\ ((forall c k, In (c, k) TRANSACTION_CATEGORIES ->
                   ~ matches (toLowerCase description) k) ->
      categorizeTransaction description = "Other")
  /\ categorizeTransaction "" = "Other".
Proof.
  split; [reflexivity|]. split; [|split; [|split]].
  - unfold categorizeTransaction.
    destruct (for_entries TRANSACTION_CATEGORIES (toLowerCase description)) eqn:E.
    + apply for_entries_key in E. exact E.
    + simpl. tauto.
  - intros before category keywords after Hsplit Hm Hnone.
    unfold categorizeTransaction.
    rewrite (for_entries_first _ _ _ _ _ _ Hsplit Hm Hnone). reflexivity.
  - intros Hnone. unfold categorizeTransaction.
    rewrite (for_entries_none _ _ Hnone). reflexivity.
  - reflexivity.
Qed.

(** "insurance" is a keyword of Housing and of Transportation: the
    earlier-declared Housing is returned. *)
Lemma categorizeTransaction_first_match_witness :
  categorizeTransaction "Car INSURANCE premium" = "Housing".
Proof.
  refine (proj1 (proj2 (proj2 (categorizeTransaction_first_match
            "Car INSURANCE premium")))
          [] "Housing" _ (List.tl TRANSACTION_CATEGORIES) eq_refl _ _).
  - exists "insurance". split; [simpl; tauto|].
    exists "car ", " premium". reflexivity.
  - intros c k [].
Defined.

(* ===================================================================== *)
(** * Metrics: proofs *)
(* ===================================================================== *)

Lemma sum_where_nonneg p rows : 0 <= sum_where p rows.
Proof.
  induction rows as [|t rows IH]; simpl; [lra|].
  destruct (p t); [pose proof (Qabs_nonneg (amount t))|]; lra.
Qed.

Lemma sum_where_ext p q rows :
  (forall t, p t = q t) -> sum_where p rows = sum_where q rows.
Proof.
  intros H. induction rows as [|t rows IH]; simpl; [reflexivity|].
  rewrite H, IH. reflexivity.
Qed.

Lemma reduce_sum_where (p : Transaction -> bool) (rows : list Transaction) (init : Q) :
  reduce (fun sum t => sum + Qabs (amount t)) init (filter p rows)
  == init + sum_where p rows.
Proof.
  unfold reduce. revert init. induction rows as [|t rows IH]; intros init; simpl.
  - ring.
  - destruct (p t); simpl; rewrite IH; ring.
Qed.

Lemma reduce_sum_abs (rows : list Transaction) (init : Q) :
  reduce (fun sum t => sum + Qabs (amount t)) init rows == init + sum_abs rows.
Proof.
  rewrite <- (reduce_sum_where (fun _ => true)).
  assert (E : filter (fun _ : Transaction => true) rows = rows)
    by (induction rows; simpl; congruence).
  rewrite E. reflexivity.
Qed.

Lemma filter_filter {A : Type} (p q : A -> bool) (l : list A) :
  filter q (filter p l) = filter (fun x => p x && q x) l.
Proof.
  induction l as [|x l IH]; simpl; [reflexivity|].
  destruct (p x); simpl; [destruct (q x)|]; congruence.
Qed.

(** The metrics' income and debt ratio, in terms of the sums over the
    window. *)
Lemma debtToIncomeRatio_cases
    (Date_parse : string -> option Z) (clock : Z)
    (transactions : list Transaction) (emergencyFundBalance : option Q) :
  let m := calculateFinancialMetrics Date_parse clock transactions emergencyFundBalance in
  let monthlyIncome := totalIncome m / 3 in
  totalIncome m == windowIncome Date_parse clock transactions
  /\ (0 < monthlyIncome ->
      debtToIncomeRatio m
      == (debtPayments Date_parse clock transactions / 3) / monthlyIncome * 100)
  /\ (~ 0 < monthlyIncome -> debtToIncomeRatio m == 0).
Proof.
  cbv zeta. unfold calculateFinancialMetrics; cbn [totalIncome debtToIncomeRatio].
  fold (in_window Date_parse 3 clock). fold (is_type income). fold (is_type expense).
  fold (resolves_to "Debt").
  set (recent := filter (in_window Date_parse 3 clock) transactions).
  set (ti := reduce _ 0 (filter (is_type income) recent)).
  set (dp := reduce _ 0 (filter (resolves_to "Debt") (filter (is_type expense) recent))).
  assert (Hdp : dp == debtPayments Date_parse clock transactions).
  { unfold dp, recent, debtPayments. rewrite !filter_filter, reduce_sum_where, Qplus_0_l.
    erewrite sum_where_ext; [reflexivity|]. intros t; cbv beta. apply andb_assoc. }
  assert (Hti : ti == windowIncome Date_parse clock transactions).
  { unfold ti, recent, windowIncome. rewrite !filter_filter, reduce_sum_where, Qplus_0_l. reflexivity. }
  split; [exact Hti|].
  destruct (Qlt_le_dec 0 (ti / 3)) as [Hpos|Hle]; split; intros H.
  - rewrite Hdp. reflexivity.
  - contradiction.
  - exfalso. lra.
  - reflexivity.
Qed.


(** C3. [debtToIncomeRatio] is [(debtPayments / 3) / monthlyIncome * 100]
    when [monthlyIncome = totalIncome / 3] is positive and [0] otherwise,
    where [debtPayments] is the sum of the absolute amounts of the in-window
    expense rows whose categorization resolves to "Debt" and [totalIncome]
    the sum of the absolute amounts of the in-window income rows: both
    divisions by 3 are kept. *)
Theorem debtToIncomeRatio_formula
    (Date_parse : string -> option Z) (clock : Z)
    (transactions : list Transaction) (emergencyFundBalance : option Q) :
  let m := calculateFinancialMetrics Date_parse clock transactions emergencyFundBalance in
  let monthlyIncome := totalIncome m / 3 in
  totalIncome m == windowIncome Date_parse clock transactions
  /\ (0 < monthlyIncome ->
      debtToIncomeRatio m
      == (debtPayments Date_parse clock transactions / 3) / monthlyIncome * 100)
  /\ (~ 0 < monthlyIncome -> debtToIncomeRatio m == 0).
Proof.
  exact (debtToIncomeRatio_cases Date_parse clock transactions emergencyFundBalance).
Qed.

(** Clock on 1 February 2024: income 5000, a card payment of 300 and rent
    of 1500 in the window give a ratio of 6. *)
Lemma debtToIncomeRatio_formula_witness :
  debtToIncomeRatio
    (calculateFinancialMetrics parseISODate 1706745600000
       [tx 5000 "salary" income "2024-01-15";
        tx (-1500) "rent payment" expense "2024-01-15";
        tx (-300) "Credit Card bill" expense "2024-01-20"] None) == 6.
Proof.
  eapply Qeq_trans.
  - apply (proj1 (proj2 (debtToIncomeRatio_formula parseISODate 1706745600000
       [tx 5000 "salary" income "2024-01-15";
        tx (-1500) "rent payment" expense "2024-01-15";
        tx (-300) "Credit Card bill" expense "2024-01-20"] None))).
    vm_compute. reflexivity.
  - vm_compute. reflexivity.
Defined.

(** The two divisions by 3 cancel: the ratio is the window's debt
    payments over the window's income. *)
Lemma debtToIncomeRatio_window
    (Date_parse : string -> option Z) (clock : Z)
    (transactions : list Transaction) (emergencyFundBalance : option Q) :
  let m := calculateFinancialMetrics Date_parse clock transactions emergencyFundBalance in
  0 < totalIncome m ->
  debtToIncomeRatio m
  == debtPayments Date_parse clock transactions / totalIncome m * 100.
Proof.
  cbv zeta. intros Hpos.
  destruct (debtToIncomeRatio_cases Date_parse clock transactions emergencyFundBalance)
    as [_ [H _]].
  cbv zeta in H.
  set (ti := totalIncome _) in *.
  assert (Hm : 0 < ti / 3) by (apply Qlt_shift_div_l; lra).
  rewrite (H Hm). field. lra.
Qed.

(* ===================================================================== *)
(** * Spending aggregation: proofs *)
(* ===================================================================== *)

Section ObjectAsMap.

Implicit Types (m : SpendingByCategory) (k : string) (v b : Bucket.t).

Lemma get_set_same m k v : get (set m k v) k = Some v.
Proof.
  induction m as [|[k' b] m IH]; simpl.
  - rewrite String.eqb_refl. reflexivity.
  - destruct (String.eqb k' k) eqn:E; simpl; rewrite E; auto.
Qed.

Lemma get_None_iff m k : get m k = None <-> ~ In k (map fst m).
Proof.
  induction m as [|[k' b] m IH]; simpl; [tauto|].
  destruct (String.eqb k' k) eqn:E.
  - apply String.eqb_eq in E. split; [discriminate | intros H; exfalso; auto].
  - apply String.eqb_neq in E. rewrite IH. tauto.
Qed.

Lemma get_Some_key m k b : get m k = Some b -> In k (map fst m).
Proof.
  intros H. destruct (in_dec string_dec k (map fst m)) as [Hin|Hnin]; [assumption|].
  apply get_None_iff in Hnin. congruence.
Qed.

Lemma keys_set m k v :
  map fst (set m k v)
  = match get m k with
    | Some _ => map fst m
    | None => (map fst m ++ [k])%list
    end.
Proof.
  induction m as [|[k' b] m IH]; simpl; [reflexivity|].
  destruct (String.eqb k' k); simpl; [reflexivity|].
  rewrite IH. destruct (get m k); reflexivity.
Qed.

Lemma sum_amounts_set m k v :
  sum_amounts (set m k v)
  == sum_amounts m + Bucket.amount v
     - match get m k with Some b => Bucket.amount b | None => 0 end.
Proof.
  induction m as [|[k' b] m IH]; simpl; [ring|].
  destruct (String.eqb k' k); simpl; [ring|].
  rewrite IH. ring.
Qed.

Lemma NoDup_keys_set m k v : NoDup (map fst m) -> NoDup (map fst (set m k v)).
Proof.
  intros H. rewrite keys_set. destruct (get m k) eqn:G; [assumption|].
  apply get_None_iff in G.
  apply NoDup_rev in H. rewrite <- (rev_involutive (map fst m ++ [k])).
  apply NoDup_rev. rewrite rev_app_distr. simpl. constructor; [|assumption].
  rewrite <- in_rev. assumption.
Qed.

Lemma get_app_notin pre post k :
  ~ In k (map fst pre) -> get (pre ++ post) k = get post k.
Proof.
  induction pre as [|[k' b] pre IH]; simpl; [reflexivity|].
  intros H. destruct (String.eqb k' k) eqn:E.
  - apply String.eqb_eq in E. exfalso; auto.
  - apply IH. tauto.
Qed.

Lemma set_app_notin pre post k v :
  ~ In k (map fst pre) -> set (pre ++ post) k v = (pre ++ set post k v)%list.
Proof.
  induction pre as [|[k' b] pre IH]; simpl; [reflexivity|].
  intros H. destruct (String.eqb k' k) eqn:E.
  - apply String.eqb_eq in E. exfalso; auto.
  - rewrite IH by tauto. reflexivity.
Qed.

End ObjectAsMap.

(** One row adds its absolute amount to exactly one bucket and keeps each
    key unique. *)
Lemma accumulate_sum m t m' :
  accumulate m t = Some m' ->
  sum_amounts m' == sum_amounts m + Qabs (amount t)
  /\ (NoDup (map fst m) -> NoDup (map fst m')).
Proof.
  unfold accumulate. destruct (description t) as [d|]; [|discriminate].
  set (category := categorizeTransaction d).
  set (m1 := match get m category with None => set m category _ | Some _ => m end).
  assert (H1 : sum_amounts m1 == sum_amounts m
               /\ (NoDup (map fst m) -> NoDup (map fst m1))
               /\ exists b, get m1 category = Some b).
  { unfold m1. destruct (get m category) as [b|] eqn:G.
    - split; [reflexivity|]. split; [auto|]. eauto.
    - split; [|split].
      + rewrite sum_amounts_set, G. simpl. ring.
      + apply NoDup_keys_set.
      + rewrite get_set_same. eauto. }
  destruct H1 as [Hs [Hn [b Hb]]]. rewrite Hb, get_set_same.
  intros [= <-]. split.
  - rewrite sum_amounts_set, get_set_same, sum_amounts_set, Hb. simpl.
    rewrite Hs. ring.
  - intros H. apply NoDup_keys_set, NoDup_keys_set, Hn, H.
Qed.

Lemma forEach_accumulate_sum rows m m' :
  forEach_accumulate rows m = Some m' ->
  sum_amounts m' == sum_amounts m + sum_abs rows
  /\ (NoDup (map fst m) -> NoDup (map fst m')).
Proof.
  revert m. induction rows as [|t rows IH]; intros m; simpl.
  - intros [= <-]. split; [unfold sum_abs; simpl; ring | auto].
  - destruct (accumulate m t) as [m1|] eqn:E; [|discriminate].
    intros H. apply IH in H. apply accumulate_sum in E.
    destruct H as [H Hn], E as [E En]. split; [|auto].
    rewrite H, E. unfold sum_abs. simpl. ring.
Qed.

(** The loop returns when every row has a description. *)
Lemma forEach_accumulate_returns rows m :
  Forall (fun t => description t <> None) rows ->
  exists m', forEach_accumulate rows m = Some m'.
Proof.
  intros H. revert m. induction H as [|t rows Ht _ IH]; intros m; simpl; [eauto|].
  assert (E : exists m1, accumulate m t = Some m1).
  { unfold accumulate. destruct (description t) as [d|]; [|congruence].
    set (category := categorizeTransaction d).
    destruct (get m category) as [b|] eqn:G.
    - rewrite G, get_set_same. eauto.
    - rewrite !get_set_same. eauto. }
  destruct E as [m1 ->]. apply IH.
Qed.

Lemma assign_percentages_map total m :
  NoDup (map fst m) ->
  assign_percentages total m
  = map (fun kb => (fst kb, with_percentage total (snd kb))) m.
Proof.
  unfold assign_percentages.
  set (F := fun kb : string * Bucket.t => (fst kb, with_percentage total (snd kb))).
  set (step := fun (m : SpendingByCategory) (category : string) => _).
  assert (G : forall post pre,
             NoDup (map fst (pre ++ post)) ->
             fold_left step (map fst post) (map F pre ++ post)%list
             = map F (pre ++ post)).
  { induction post as [|[k b] post IH]; intros pre Hnd; simpl.
    - rewrite !app_nil_r. reflexivity.
    - assert (Hk : ~ In k (map fst (map F pre))).
      { rewrite map_map. simpl. rewrite map_app in Hnd. simpl in Hnd.
        apply NoDup_remove_2 in Hnd. intros Hin. apply Hnd, in_or_app. left.
        exact Hin. }
      unfold step at 2. rewrite get_app_notin by exact Hk. simpl.
      rewrite String.eqb_refl. rewrite set_app_notin by exact Hk. simpl.
      rewrite String.eqb_refl.
      specialize (IH (pre ++ [(k, b)])%list).
      rewrite <- app_assoc in IH. simpl in IH. rewrite <- (IH Hnd).
      rewrite map_app, <- app_assoc. reflexivity. }
  intros Hnd. apply (G m []). exact Hnd.
Qed.

Lemma sum_percentages_positive total m :
  0 < total ->
  sum_percentages (map (fun kb => (fst kb, with_percentage total (snd kb))) m)
  == sum_amounts m / total * 100.
Proof.
  intros Hpos. induction m as [|[k b] m IH]; simpl.
  - field. lra.
  - rewrite IH. destruct (Qlt_le_dec 0 total); [field; lra | lra].
Qed.

(** C4. In the map [analyzeSpendingByCategory] returns, every category is
    present once, the total of the in-window expense amounts is not
    negative, the percentages of the present categories add up to 100 when
    that total is positive, and each of them is 0 when the total is 0. *)
Theorem analyzeSpendingByCategory_percentages
    (Date_parse : string -> option Z) (clock : Z)
    (transactions : list Transaction) (spending : SpendingByCategory) :
  analyzeSpendingByCategory Date_parse clock transactions = Some spending ->
  let total := sum_abs (expenseTransactions Date_parse clock transactions) in
  NoDup (map fst spending)
  /\ 0 <= total
  /\ (0 < total -> sum_percentages spending == 100)
  /\ (total == 0 -> forall category b, In (category, b) spending ->
                                       Bucket.percentage b == 0).
Proof.
  unfold analyzeSpendingByCategory.
  set (rows := expenseTransactions Date_parse clock transactions).
  destruct (forEach_accumulate rows []) as [m|] eqn:E; [|discriminate].
  intros [= <-]. cbv zeta.
  apply forEach_accumulate_sum in E. destruct E as [Hsum Hnd].
  specialize (Hnd (NoDup_nil _)). simpl in Hsum. rewrite Qplus_0_l in Hsum.
  assert (Htot : reduce (fun sum t => sum + Qabs (amount t)) 0 rows == sum_abs rows)
    by (rewrite reduce_sum_abs; ring).
  rewrite (assign_percentages_map _ _ Hnd).
  split; [|split; [|split]].
  - rewrite map_map. simpl. exact Hnd.
  - apply sum_where_nonneg.
  - intros Hpos.
    rewrite sum_percentages_positive by (rewrite Htot; exact Hpos).
    rewrite Htot, Hsum. field. lra.
  - intros Hz category b Hin. apply in_map_iff in Hin.
    destruct Hin as [[k b0] [[= _ <-] _]]. simpl.
    destruct (Qlt_le_dec 0 _) as [Hpos|_]; [|reflexivity].
    rewrite Htot in Hpos. lra.
Qed.

(** The aggregation returns whenever each in-window expense row has a
    description. *)
Lemma analyzeSpendingByCategory_returns
    (Date_parse : string -> option Z) (clock : Z) (transactions : list Transaction) :
  Forall (fun t => description t <> None)
         (expenseTransactions Date_parse clock transactions) ->
  exists spending,
    analyzeSpendingByCategory Date_parse clock transactions = Some spending.
Proof.
  intros H. unfold analyzeSpendingByCategory.
  destruct (forEach_accumulate_returns _ [] H) as [m ->]. eauto.
Qed.

(** Clock on 1 February 2024, three expense rows in two categories. *)
Lemma analyzeSpendingByCategory_percentages_witness :
  exists spending,
    analyzeSpendingByCategory parseISODate 1706745600000
      [tx (-1500) "rent payment" expense "2024-01-15";
       tx (-300) "Credit Card bill" expense "2024-01-20";
       tx 200 "mortgage" expense "2024-01-20"] = Some spending
    /\ sum_percentages spending == 100.
Proof.
  eexists. split.
  - vm_compute. reflexivity.
  - refine (proj1 (proj2 (proj2
      (analyzeSpendingByCategory_percentages parseISODate 1706745600000
         [tx (-1500) "rent payment" expense "2024-01-15";
          tx (-300) "Credit Card bill" expense "2024-01-20";
          tx 200 "mortgage" expense "2024-01-20"] _ _))) _).
    + vm_compute. reflexivity.
    + vm_compute. reflexivity.
Defined.

(* ===================================================================== *)
(** * The clock: proofs *)
(* ===================================================================== *)

(** C2, as the specification states it, does not hold: evaluated on
    1 February 2024 and on 1 June 2024 with the same rows, the metrics
    differ (income 5000 against 0) and so do the spending maps. *)
Lemma clock_changes_result :
  ~ totalIncome
      (calculateFinancialMetrics parseISODate 1706745600000
         [tx 5000 "salary" income "2024-01-15";
          tx (-1500) "rent payment" expense "2024-01-15"] None)
    == totalIncome
         (calculateFinancialMetrics parseISODate 1717200000000
            [tx 5000 "salary" income "2024-01-15";
             tx (-1500) "rent payment" expense "2024-01-15"] None)
  /\ analyzeSpendingByCategory parseISODate 1706745600000
       [tx 5000 "salary" income "2024-01-15";
        tx (-1500) "rent payment" expense "2024-01-15"]
     <> analyzeSpendingByCategory parseISODate 1717200000000
          [tx 5000 "salary" income "2024-01-15";
           tx (-1500) "rent payment" expense "2024-01-15"].
Proof.
  split.
  - vm_compute. discriminate.
  - vm_compute. discriminate.
Qed.

(** C2, amended.  Neither calculation has a reference-time parameter: each
    reads the clock, and uses of it only the calendar day.  With the same
    rows (and balance), two evaluations whose clock readings fall on the
    same day return the same result. *)
Theorem same_day_same_result
    (Date_parse : string -> option Z) (clock1 clock2 : Z)
    (transactions : list Transaction) (emergencyFundBalance : option Q) :
  Day clock1 = Day clock2 ->
  calculateFinancialMetrics Date_parse clock1 transactions emergencyFundBalance
  = calculateFinancialMetrics Date_parse clock2 transactions emergencyFundBalance
  /\ analyzeSpendingByCategory Date_parse clock1 transactions
     = analyzeSpendingByCategory Date_parse clock2 transactions.
Proof.
  intros H.
  unfold calculateFinancialMetrics, analyzeSpendingByCategory, expenseTransactions,
    getFullYear, getMonth, getDate.
  rewrite H. split; reflexivity.
Qed.

(** Midnight and one o'clock of 1 February 2024. *)
Lemma same_day_same_result_witness :
  calculateFinancialMetrics parseISODate 1706745600000
    [tx 5000 "salary" income "2024-01-15"] None
  = calculateFinancialMetrics parseISODate 1706749200000
      [tx 5000 "salary" income "2024-01-15"] None.
Proof.
  refine (proj1 (same_day_same_result parseISODate 1706745600000 1706749200000
                   [tx 5000 "salary" income "2024-01-15"] None _)).
  vm_compute. reflexivity.
Defined.

(* ===================================================================== *)
(** * Insights: proofs *)
(* ===================================================================== *)

Section SortByPriority.

Lemma sort_insert_after (x : FinancialInsight) (front back : list FinancialInsight) :
  (forall a, In a front -> (0 < by_priority x a)%Z) ->
  (forall b, In b back -> (by_priority x b <= 0)%Z) ->
  sort_insert by_priority x (front ++ back) = front ++ x :: back.
Proof.
  intros Hfront Hback. induction front as [|a front IH]; simpl.
  - destruct back as [|b back]; [reflexivity|]. simpl.
    assert (H : (by_priority x b <=? 0)%Z = true)
      by (apply Z.leb_le, Hback; left; reflexivity).
    rewrite H. reflexivity.
  - assert (H : (by_priority x a <=? 0)%Z = false)
      by (apply Z.leb_gt, Hfront; left; reflexivity).
    rewrite H, IH; [reflexivity|]. intros a' Ha. apply Hfront. right; exact Ha.
Qed.

Lemma has_priority_iff p i : has_priority p i = true <-> Insight.priority i = p.
Proof.
  unfold has_priority. destruct (Insight.priority i), p; simpl;
    split; congruence.
Qed.

Lemma in_class p i l : In i (filter (has_priority p) l) -> Insight.priority i = p.
Proof. intros H. apply filter_In in H. apply has_priority_iff, H. Qed.

Lemma class_cons p x l :
  filter (has_priority p) (x :: l)
  = if Priority_eqb (Insight.priority x) p
    then x :: filter (has_priority p) l else filter (has_priority p) l.
Proof. reflexivity. Qed.

(** The sort lists the high insights, then the medium, then the low ones,
    each class in its original order. *)
Lemma Array_sort_by_priority (l : list FinancialInsight) :
  Array_sort by_priority l
  = filter (has_priority high) l ++ filter (has_priority medium) l
    ++ filter (has_priority low) l.
Proof.
  induction l as [|x l IH]; [reflexivity|].
  change (Array_sort by_priority (x :: l))
    with (sort_insert by_priority x (Array_sort by_priority l)).
  rewrite IH, !class_cons.
  destruct (Insight.priority x) eqn:Px; cbn [Priority_eqb].
  - rewrite app_assoc. rewrite sort_insert_after.
    + rewrite <- app_assoc. reflexivity.
    + intros a Ha. unfold by_priority. rewrite Px.
      apply in_app_or in Ha. destruct Ha as [Ha|Ha]; apply in_class in Ha;
        rewrite Ha; simpl; lia.
    + intros b Hb. unfold by_priority. rewrite Px.
      apply in_class in Hb. rewrite Hb. simpl. lia.
  - rewrite sort_insert_after.
    + reflexivity.
    + intros a Ha. unfold by_priority. rewrite Px.
      apply in_class in Ha. rewrite Ha. simpl. lia.
    + intros b Hb. unfold by_priority. rewrite Px.
      apply in_app_or in Hb. destruct Hb as [Hb|Hb]; apply in_class in Hb;
        rewrite Hb; simpl; lia.
  - apply (sort_insert_after x []).
    + intros a [].
    + intros b Hb. unfold by_priority. rewrite Px.
      destruct (Insight.priority b); simpl; lia.
Qed.

Lemma classes_permutation (l : list FinancialInsight) :
  Permutation l
    (filter (has_priority high) l ++ filter (has_priority medium) l
     ++ filter (has_priority low) l).
Proof.
  induction l as [|x l IH]; [constructor|].
  rewrite !class_cons. destruct (Insight.priority x); cbn [Priority_eqb].
  - rewrite app_assoc. apply Permutation_cons_app. rewrite <- app_assoc. exact IH.
  - apply Permutation_cons_app. exact IH.
  - simpl. constructor. exact IH.
Qed.

Lemma StronglySorted_app (R : FinancialInsight -> FinancialInsight -> Prop)
    (front back : list FinancialInsight) :
  StronglySorted R front -> StronglySorted R back ->
  (forall a b, In a front -> In b back -> R a b) ->
  StronglySorted R (front ++ back).
Proof.
  intros Hf Hb Hcross. induction Hf as [|a front Hf IH Ha]; simpl; [exact Hb|].
  constructor.
  - apply IH. intros a' b Ha' Hb'. apply Hcross; [right|]; assumption.
  - apply Forall_app. split; [exact Ha|].
    apply Forall_forall. intros b Hb'. apply Hcross; [left; reflexivity | exact Hb'].
Qed.

Lemma class_sorted p l : StronglySorted not_below (filter (has_priority p) l).
Proof.
  induction l as [|x l IH]; simpl; [constructor|].
  destruct (has_priority p x) eqn:Hx; [|exact IH].
  constructor; [exact IH|]. apply Forall_forall. intros b Hb.
  apply in_class in Hb. apply has_priority_iff in Hx.
  unfold not_below. rewrite Hb, Hx. lia.
Qed.

Lemma classes_sorted (l : list FinancialInsight) :
  StronglySorted not_below
    (filter (has_priority high) l ++ filter (has_priority medium) l
     ++ filter (has_priority low) l).
Proof.
  apply StronglySorted_app; [apply class_sorted | apply StronglySorted_app |];
    try apply class_sorted.
  - intros a b Ha Hb. apply in_class in Ha, Hb. unfold not_below.
    rewrite Ha, Hb. simpl. lia.
  - intros a b Ha Hb. apply in_class in Ha.
    apply in_app_or in Hb. unfold not_below. rewrite Ha.
    destruct Hb as [Hb|Hb]; apply in_class in Hb; rewrite Hb; simpl; lia.
Qed.

Lemma class_of_class p q l :
  filter (has_priority p) (filter (has_priority q) l)
  = if Priority_eqb q p then filter (has_priority p) l else [].
Proof.
  induction l as [|x l IH]; [destruct (Priority_eqb q p); reflexivity|].
  rewrite !class_cons.
  destruct (Insight.priority x) eqn:Px, q, p; cbn [Priority_eqb] in *;
    rewrite ?class_cons, ?Px; cbn [Priority_eqb]; rewrite ?IH; reflexivity.
Qed.

Lemma classes_stable p (l : list FinancialInsight) :
  filter (has_priority p)
    (filter (has_priority high) l ++ filter (has_priority medium) l
     ++ filter (has_priority low) l)
  = filter (has_priority p) l.
Proof.
  rewrite !filter_app, !class_of_class.
  destruct p; simpl; rewrite ?app_nil_r; reflexivity.
Qed.

End SortByPriority.

(** C5. The array before the sort holds the insights in rule order
    (savings rate, emergency fund, debt-to-income, housing share, food
    share).  The returned list is the stable sort of it by descending
    weight: the high insights, then the medium, then the low ones; it is a
    permutation of the array, no insight is followed by one of greater
    weight, and the insights of each priority are in the order in which
    they were appended. *)
Theorem generateFinancialInsights_stable_sort
    (toFixed : Q -> Z -> string) (metrics : FinancialMetrics)
    (spendingByCategory : SpendingByCategory) (userProfile : UserProfile) :
  let appended := rule_order toFixed metrics spendingByCategory in
  let result :=
    generateFinancialInsights toFixed metrics spendingByCategory userProfile in
  pushed_insights toFixed metrics spendingByCategory userProfile = appended
  /\ result = filter (has_priority high) appended
               ++ filter (has_priority medium) appended
               ++ filter (has_priority low) appended
  /\ Permutation appended result
  /\ StronglySorted not_below result
  /\ (forall p, filter (has_priority p) result = filter (has_priority p) appended).
Proof.
  cbv zeta.
  assert (Hpushed : pushed_insights toFixed metrics spendingByCategory userProfile
                    = rule_order toFixed metrics spendingByCategory).
  { unfold pushed_insights, rule_order, savings_rule, emergency_rule, debt_rule,
      housing_rule, food_rule, push.
    destruct (Qlt_le_dec (savingsRate metrics) 10);
      [|destruct (Qlt_le_dec (savingsRate metrics) 20)];
    (destruct (Qlt_le_dec (emergencyFundMonths metrics) 3);
      [|destruct (Qlt_le_dec (emergencyFundMonths metrics) 6)]);
    (destruct (Qlt_le_dec 40 (debtToIncomeRatio metrics));
      [|destruct (Qlt_le_dec 20 (debtToIncomeRatio metrics))]);
    (destruct (get spendingByCategory "Housing") as [h|];
      [destruct (Qlt_le_dec 30 (Bucket.percentage h))|]);
    (destruct (get spendingByCategory "Food") as [f|];
      [destruct (Qlt_le_dec 15 (Bucket.percentage f))|]);
    reflexivity. }
  split; [exact Hpushed|].
  unfold generateFinancialInsights. rewrite Hpushed.
  rewrite Array_sort_by_priority.
  split; [reflexivity|]. split; [apply classes_permutation|].
  split; [apply classes_sorted | intros p; apply classes_stable].
Qed.

(* ===================================================================== *)
(** * Allocations: proofs *)
(* ===================================================================== *)

Lemma all_below_spec (P : nat -> Prop) (n : nat) :
  all_below P n -> forall k, (k < n)%nat -> P k.
Proof.
  induction n as [|n IH]; intros H k Hk; [lia|].
  destruct H as [Hn H].
  destruct (Nat.eq_dec k n) as [->|Hne]; [exact Hn | apply IH; [exact H | lia]].
Qed.

Section BlendInDoubles.

Import PrimFloat.
Local Open Scope float_scope.








End BlendInDoubles.

(** The recommendation is defined for every profile, and its allocation
    is the blend of the two allocations of the profile. *)
Lemma generateInvestmentRecommendation_blend (profile : InvestmentProfile) :
  exists goalBased recommendation,
    calculateGoalBasedAllocation (timeHorizon profile)
      (RiskTolerance_string (riskTolerance profile))
      (match investmentGoals profile with
       | g :: _ => if String.eqb g "" then "general"%string else g
       | [] => "general"%string
       end) = Some goalBased
    /\ generateInvestmentRecommendation profile = Some recommendation
    /\ allocation recommendation
       = blendAllocation goalBased
           (calculateAgeBasedAllocation (currentAge profile)
              (RiskTolerance_string (riskTolerance profile))).
Proof.
  unfold generateInvestmentRecommendation.
  destruct (calculateGoalBasedAllocation _ _ _) as [g|] eqn:E.
  - exists g. eexists. split; [reflexivity|]. split; reflexivity.
  - exfalso. unfold calculateGoalBasedAllocation in E.
    destruct (riskTolerance profile); simpl in E; discriminate.
Qed.

(** The age-based percentages add up to 103 at least: the cash component
    is at least 5 whatever remains after stocks and bonds. *)
Lemma age_allocation_sum (age : Q) (riskTolerance : string) :
  103 <= allocation_sum (calculateAgeBasedAllocation age riskTolerance).
Proof.
  unfold calculateAgeBasedAllocation, allocation_sum; cbn.
  set (s := if String.eqb riskTolerance "conservative" then _ else _).
  assert (Hs : 20 <= s).
  { unfold s. destruct (String.eqb riskTolerance "conservative");
      [|destruct (String.eqb riskTolerance "moderate");
        [|destruct (String.eqb riskTolerance "aggressive")]].
    - apply Q.le_max_r.
    - eapply Qle_trans; [|apply Q.le_max_r]. lra.
    - eapply Qle_trans; [|apply Q.le_max_r]. lra.
    - eapply Qle_trans; [|apply Q.le_max_r]. lra. }
  clearbody s.
  destruct (Q.min_spec (100 - s) 60) as [[H1 E1]|[H1 E1]];
    set (b := Qmin (100 - s) 60) in *; clearbody b;
    destruct (Q.min_spec ((100 - s - b) * 0.6) 15) as [[H2 E2]|[H2 E2]];
    set (r := Qmin ((100 - s - b) * 0.6) 15) in *; clearbody r;
    destruct (Q.min_spec ((100 - s - b) * 0.3) 10) as [[H3 E3]|[H3 E3]];
    set (c := Qmin ((100 - s - b) * 0.3) 10) in *; clearbody c;
    destruct (Q.max_spec ((100 - s - b) * 0.1) 5) as [[H4 E4]|[H4 E4]];
    set (k := Qmax ((100 - s - b) * 0.1) 5) in *; clearbody k;
    lra.
Qed.

(** The goal-based percentages are normalised: they add up to 100. *)
Lemma goal_allocation_sum (timeHorizon : Q) (riskTolerance goalType : string)
    (a : AssetAllocation) :
  calculateGoalBasedAllocation timeHorizon riskTolerance goalType = Some a ->
  allocation_sum a == 100.
Proof.
  unfold calculateGoalBasedAllocation.
  destruct (riskMultiplier riskTolerance) as [m|]; [|discriminate].
  intros [= <-]. unfold allocation_sum, reduce; cbn.
  destruct (Qlt_le_dec timeHorizon 3); [|destruct (Qlt_le_dec timeHorizon 10)]; cbn;
    match goal with
    | |- context [Qmax ?x 10] =>
        pose proof (Q.le_max_r x 10); set (s := Qmax x 10) in *; clearbody s
    end;
    match goal with
    | |- context [Qmax ?x 5] =>
        pose proof (Q.le_max_r x 5); set (b := Qmax x 5) in *; clearbody b
    end;
    field; lra.
Qed.

(** So in exact arithmetic, too, no profile has the same age-based and
    goal-based allocation. *)
Lemma profile_allocations_differ (profile : InvestmentProfile)
    (goalBased : AssetAllocation) (goalType : string) :
  calculateGoalBasedAllocation (timeHorizon profile)
    (RiskTolerance_string (riskTolerance profile)) goalType = Some goalBased ->
  ~ same_allocation goalBased
      (calculateAgeBasedAllocation (currentAge profile)
         (RiskTolerance_string (riskTolerance profile))).
Proof.
  intros Hg (Hs & Hb & Hr & Hc & Hk).
  pose proof (goal_allocation_sum _ _ _ _ Hg) as H100.
  pose proof (age_allocation_sum (currentAge profile)
                (RiskTolerance_string (riskTolerance profile))) as H103.
  unfold allocation_sum in *. rewrite Hs, Hb, Hr, Hc, Hk in H100. lra.
Qed.

(** C10. For an age below 20 and the aggressive risk tolerance the stock
    percentage is [120 - age], above 100, and the bond percentage is
    [age - 20], below 0: the components are not clamped. *)
Theorem aggressive_young_allocation (age : Q) :
  age < 20 ->
  let a := calculateAgeBasedAllocation age "aggressive" in
  stocks a == 120 - age /\ 100 < stocks a
  /\ bonds a == age - 20 /\ bonds a < 0.
Proof.
  intros Hage. cbv zeta. unfold calculateAgeBasedAllocation; cbn.
  assert (Hs : Qmax (120 - age) 40 == 120 - age) by (apply Q.max_l; lra).
  assert (Hb : Qmin (100 - Qmax (120 - age) 40) 60 == age - 20).
  { rewrite Q.min_l by (rewrite Hs; lra). rewrite Hs. ring. }
  rewrite Hb, Hs. repeat split; lra.
Qed.

Lemma aggressive_young_allocation_witness :
  stocks (calculateAgeBasedAllocation 18 "aggressive") == 102
  /\ bonds (calculateAgeBasedAllocation 18 "aggressive") == -2.
Proof.
  assert (H : 18 < 20) by reflexivity.
  destruct (aggressive_young_allocation 18 H) as (Hs & _ & Hb & _).
  split; [rewrite Hs | rewrite Hb]; reflexivity.
Defined.

(* ===================================================================== *)
(** * Portfolio: proofs *)
(* ===================================================================== *)


Section DayChangeInDoubles.

Import PrimFloat.
Local Open Scope float_scope.


End DayChangeInDoubles.

Section DayChange.

Import PrimFloat.



End DayChange.

(* ===================================================================== *)
(** * Goals: proofs *)
(* ===================================================================== *)

(** C7. With no expected return the annuity factor is 0/0, which is NaN
    and falsy, so the payment is the gap over the number of months:
    [calculateMonthlyContributionNeeded(0, 12000, 1, 0)] is 12000 / 12,
    that is 1000. *)
Theorem monthly_contribution_zero_return :
  annuityFactor (0 / 12) (1 * 12) = Some NaN
  /\ or_else NaN (1 * 12) = Finite (1 * 12)
  /\ exists payment,
       calculateMonthlyContributionNeeded 0 12000 1 0 = Some (Finite payment)
       /\ payment == (12000 - 0) / (1 * 12)
       /\ payment == 1000.
Proof.
  split; [vm_compute; reflexivity|]. split; [reflexivity|].
  eexists. split; [vm_compute; reflexivity|]. split; reflexivity.
Qed.

(** The loop started after [months] iterations makes [more] of them, at
    most 600 in all; the guard held before each of these, and it is the
    target that stopped the loop when fewer than 600 iterations were made. *)
Lemma simulate_iterations
    (monthlyReturn monthlyContribution targetAmount amount : Q) (months : Z) :
  (0 <= months <= maxMonths)%Z ->
  exists more : nat,
    simulate monthlyReturn monthlyContribution targetAmount amount months
    = (Nat.iter more (fun a => a * (1 + monthlyReturn) + monthlyContribution) amount,
       (months + Z.of_nat more)%Z)
    /\ (months + Z.of_nat more <= maxMonths)%Z
    /\ (forall j, (j < more)%nat ->
          Nat.iter j (fun a => a * (1 + monthlyReturn) + monthlyContribution) amount
          < targetAmount)
    /\ ((months + Z.of_nat more < maxMonths)%Z ->
        targetAmount
        <= Nat.iter more (fun a => a * (1 + monthlyReturn) + monthlyContribution) amount).
Proof.
  funelim (simulate monthlyReturn monthlyContribution targetAmount amount months);
    intros Hm.
  - match goal with
    | IH : _ -> exists _, _ |- _ =>
        destruct (IH ltac:(lia)) as (more & Hsim & Hcap & Hguard & Hstop)
    end.
    exists (S more). rewrite Nat.iter_succ_r.
    replace (months + Z.of_nat (S more))%Z with (months + 1 + Z.of_nat more)%Z by lia.
    split; [|split; [|split]].
    + exact Hsim.
    + exact Hcap.
    + intros [|j] Hj; [simpl; assumption|].
      rewrite Nat.iter_succ_r. apply Hguard. lia.
    + exact Hstop.
  - exists 0%nat. rewrite Z.add_0_r. simpl.
    split; [reflexivity|]. split; [lia|]. split; [intros j Hj; lia | intros; lia].
  - exists 0%nat. rewrite Z.add_0_r. simpl.
    split; [reflexivity|]. split; [lia|]. split; [intros j Hj; lia|].
    intros _. assumption.
Qed.

(** C6. The projection is defined for every input.  Its loop makes some
    number [months] of iterations, at most 600: [yearsToTarget] is
    [months / 12], [projectedAmount] the amount after [months] months, and
    the amount was below the target before each iteration.  [onTrack] is
    true exactly when the amount reaches the target after fewer than 600
    months. *)
Theorem projectInvestmentGoal_bounded
    (currentAmount monthlyContribution expectedReturn targetAmount : Q) :
  let p :=
    projectInvestmentGoal currentAmount monthlyContribution expectedReturn targetAmount in
  let amount := amount_after currentAmount monthlyContribution expectedReturn in
  exists months : nat,
    (months <= 600)%nat
    /\ yearsToTarget p = inject_Z (Z.of_nat months) / 12
    /\ projectedAmount p = amount months
    /\ (forall j, (j < months)%nat -> amount j < targetAmount)
    /\ (onTrack p = true <-> (months < 600)%nat)
    /\ (onTrack p = true <-> exists n, (n < 600)%nat /\ targetAmount <= amount n).
Proof.
  cbv zeta. unfold projectInvestmentGoal.
  destruct (simulate_iterations (expectedReturn / 12) monthlyContribution
              targetAmount currentAmount 0 ltac:(unfold maxMonths; lia))
    as (months & Hsim & Hcap & Hguard & Hstop).
  rewrite Hsim. cbn [projectedAmount yearsToTarget onTrack]. unfold maxMonths in *.
  exists months. rewrite Z.add_0_l in *.
  split; [lia|]. split; [reflexivity|]. split; [reflexivity|].
  split; [exact Hguard|]. rewrite Z.ltb_lt.
  split; [lia|]. split.
  - intros Hlt. exists months. split; [lia|]. apply Hstop. exact Hlt.
  - intros (n & Hn & Hreach).
    destruct (Z_lt_dec (Z.of_nat months) 600) as [Hlt|Hge]; [exact Hlt|].
    exfalso. assert (Hn' : (n < months)%nat) by lia.
    specialize (Hguard n Hn'). unfold amount_after in Hreach. lra.
Qed.

(** From nothing, 100 a month and no return reach 1200 after 12 months. *)
Lemma projectInvestmentGoal_bounded_witness :
  onTrack (projectInvestmentGoal 0 100 0 1200) = true.
Proof.
  destruct (projectInvestmentGoal_bounded 0 100 0 1200)
    as (months & _ & _ & _ & _ & _ & H).
  apply H. exists 12%nat. split; [lia|]. vm_compute. discriminate.
Defined.

(** At the cap itself: one a month reaches 600 at month 600, and the
    projection is reported as not on track. *)
Example projection_at_the_cap :
  onTrack (projectInvestmentGoal 0 1 0 600) = false
  /\ projectedAmount (projectInvestmentGoal 0 1 0 600) == 600.
Proof. split; vm_compute; reflexivity. Qed.

(* ===================================================================== *)
(** * Categorizer: what decides a category *)
(* ===================================================================== *)

Section CategorizerMore.

Local Open Scope string_scope.

Lemma lower_unit_idempotent (c : ascii) : lower_unit (lower_unit c) = lower_unit c.
Proof. destruct c as [[] [] [] [] [] [] [] []]; reflexivity. Qed.

Lemma toLowerCase_idempotent (s : string) : toLowerCase (toLowerCase s) = toLowerCase s.
Proof.
  induction s as [|c s IH]; simpl; [reflexivity|].
  rewrite lower_unit_idempotent, IH. reflexivity.
Qed.

Lemma string_app_assoc (a b c : string) : (a ++ b) ++ c = a ++ (b ++ c).
Proof. induction a as [|x a IH]; simpl; [reflexivity|]. rewrite IH. reflexivity. Qed.

Lemma occurs_in_trans (a b s : string) :
  occurs_in a b -> occurs_in b s -> occurs_in a s.
Proof.
  intros (p1 & q1 & ->) (p2 & q2 & ->).
  exists (p2 ++ p1), (q1 ++ q2).
  rewrite !string_app_assoc. reflexivity.
Qed.

Lemma some_keyword_occurs (d keyword : string) (keywords : list string) :
  In keyword keywords -> occurs_in keyword d -> some_keyword d keywords = true.
Proof. intros Hin Hocc. apply some_keyword_iff. exists keyword. split; assumption. Qed.

Lemma some_keyword_none (d keyword : string) (keywords : list string) :
  some_keyword d keywords = false -> In keyword keywords -> ~ occurs_in keyword d.
Proof.
  intros Hnone Hin Hocc. rewrite (some_keyword_occurs _ _ _ Hin Hocc) in Hnone.
  discriminate.
Qed.

End CategorizerMore.

(** The loop over the eleven entries, as the chain of tests it makes. *)
Ltac categorizer_cases d :=
  unfold categorizeTransaction; cbn [for_entries TRANSACTION_CATEGORIES];
  repeat match goal with
         | |- context [some_keyword (toLowerCase d) ?kws] =>
             lazymatch kws with
             | [] => change (some_keyword (toLowerCase d) []) with false
             | _ =>
                 let E := fresh "E" in
                 destruct (some_keyword (toLowerCase d) kws) eqn:E
             end
         end;
  cbv iota.

(** X1. Letter case plays no part: a description and its lower-cased form
    get the same category, and so do two descriptions with the same
    lower-cased form. *)
Theorem categorizeTransaction_case_insensitive (d d' : string) :
  categorizeTransaction (toLowerCase d) = categorizeTransaction d
  /\ (toLowerCase d = toLowerCase d' ->
      categorizeTransaction d = categorizeTransaction d').
Proof.
  unfold categorizeTransaction. rewrite toLowerCase_idempotent.
  split; [reflexivity|]. intros ->. reflexivity.
Qed.

Lemma categorizeTransaction_case_insensitive_witness :
  categorizeTransaction "UBER Trip" = categorizeTransaction "uber trip".
Proof.
  apply (proj2 (categorizeTransaction_case_insensitive "UBER Trip" "uber trip")).
  reflexivity.
Defined.

(** X2. ["Other"] is returned exactly when no keyword of any category
    occurs in the lower-cased description. *)
Theorem categorizeTransaction_Other_iff (description : string) :
  categorizeTransaction description = "Other"%string
  <-> (forall category keywords,
         In (category, keywords) TRANSACTION_CATEGORIES ->
         ~ matches (toLowerCase description) keywords).
Proof.
  split.
  - intros H category keywords Hin.
    revert H. categorizer_cases description; try discriminate. intros _.
    simpl in Hin.
    repeat (destruct Hin as [[= <- <-]|Hin];
            [apply some_keyword_false; assumption|]).
    destruct Hin as [[= <- <-]|[]].
    intros (k & [] & _).
  - intros Hnone. unfold categorizeTransaction.
    rewrite (for_entries_none _ _ Hnone). reflexivity.
Qed.

(** X3. Keywords that never decide.  A description that mentions
    insurance, maintenance or rental income is Housing, never
    Transportation or Income ("rent" occurs in "rental income"); one that
    mentions investment income is never Income (Savings has "investment").
    So Transportation is decided by one of six keywords and Income by one
    of three. *)
Theorem categorizeTransaction_shadowed_keywords (description : string) :
  let d := toLowerCase description in
  (occurs_in "insurance" d \/ occurs_in "maintenance" d \/ occurs_in "rental income" d ->
   categorizeTransaction description = "Housing"%string)
  /\ (occurs_in "investment income" d ->
      categorizeTransaction description <> "Income"%string)
  /\ (categorizeTransaction description = "Transportation"%string ->
      exists keyword,
        In keyword ["gas"; "car payment"; "uber"; "lyft"; "taxi"; "public transport"]%string
        /\ occurs_in keyword d)
  /\ (categorizeTransaction description = "Income"%string ->
      exists keyword,
        In keyword ["salary"; "bonus"; "freelance"]%string /\ occurs_in keyword d).
Proof.
  cbv zeta.
  assert (Hrent : occurs_in "rent" "rental income")
    by (exists ""%string, "al income"%string; reflexivity).
  assert (Hinv : occurs_in "investment" "investment income")
    by (exists ""%string, " income"%string; reflexivity).
  split; [|split; [|split]].
  - intros H.
    assert (Hh : some_keyword (toLowerCase description)
                   ["rent"; "mortgage"; "utilities"; "insurance"; "property tax";
                    "maintenance"]%string = true).
    { destruct H as [H|[H|H]].
      - apply (some_keyword_occurs _ "insurance"); [simpl; tauto | exact H].
      - apply (some_keyword_occurs _ "maintenance"); [simpl; tauto | exact H].
      - apply (some_keyword_occurs _ "rent"); [simpl; tauto|].
        exact (occurs_in_trans _ _ _ Hrent H). }
    unfold categorizeTransaction; cbn [for_entries TRANSACTION_CATEGORIES].
    rewrite Hh. reflexivity.
  - intros H. categorizer_cases description; try discriminate.
    exfalso.
    match goal with
    | E : some_keyword _ ("savings account" :: _)%string = false |- _ =>
        apply (some_keyword_none _ "investment" _ E); [simpl; tauto|]
    end.
    exact (occurs_in_trans _ _ _ Hinv H).
  - categorizer_cases description; try discriminate. intros _.
    match goal with
    | E : some_keyword _ ("gas" :: _)%string = true |- _ =>
        apply some_keyword_iff in E; destruct E as (k & Hk & Hocc)
    end.
    exists k. split; [|exact Hocc].
    simpl in Hk.
    destruct Hk as [<-|[<-|[<-|[<-|[<-|[<-|[<-|[<-|[]]]]]]]]]; simpl; try tauto;
      exfalso;
      match goal with
      | E : some_keyword _ ("rent" :: _)%string = false |- _ =>
          first [ apply (some_keyword_none _ "insurance" _ E); [simpl; tauto | exact Hocc]
                | apply (some_keyword_none _ "maintenance" _ E); [simpl; tauto | exact Hocc] ]
      end.
  - categorizer_cases description; try discriminate. intros _.
    match goal with
    | E : some_keyword _ ("salary" :: _)%string = true |- _ =>
        apply some_keyword_iff in E; destruct E as (k & Hk & Hocc)
    end.
    exists k. split; [|exact Hocc].
    simpl in Hk.
    destruct Hk as [<-|[<-|[<-|[<-|[<-|[]]]]]]; simpl; try tauto; exfalso.
    + match goal with
      | E : some_keyword _ ("savings account" :: _)%string = false |- _ =>
          apply (some_keyword_none _ "investment" _ E); [simpl; tauto|]
      end.
      exact (occurs_in_trans _ _ _ Hinv Hocc).
    + match goal with
      | E : some_keyword _ ("rent" :: _)%string = false |- _ =>
          apply (some_keyword_none _ "rent" _ E); [simpl; tauto|]
      end.
      exact (occurs_in_trans _ _ _ Hrent Hocc).
Qed.

Lemma categorizeTransaction_shadowed_keywords_witness :
  categorizeTransaction "Monthly RENTAL INCOME unit 4" = "Housing"%string.
Proof.
  apply (proj1 (categorizeTransaction_shadowed_keywords "Monthly RENTAL INCOME unit 4")).
  right; right. exists "monthly "%string, " unit 4"%string. reflexivity.
Defined.

(* ===================================================================== *)
(** * Metrics: edge cases and invariances *)
(* ===================================================================== *)

Lemma metrics_eq_refl (m : FinancialMetrics) : metrics_eq m m.
Proof. unfold metrics_eq. repeat split; reflexivity. Qed.

Lemma metrics_eq_sym (a b : FinancialMetrics) : metrics_eq a b -> metrics_eq b a.
Proof. unfold metrics_eq. intuition (symmetry; assumption). Qed.

Lemma metrics_eq_trans (a b c : FinancialMetrics) :
  metrics_eq a b -> metrics_eq b c -> metrics_eq a c.
Proof.
  unfold metrics_eq.
  intros (H1 & H2 & H3 & H4 & H5 & H6 & H7) (G1 & G2 & G3 & G4 & G5 & G6 & G7).
  repeat split; etransitivity; eassumption.
Qed.

Lemma metrics_of_sums_compat (i i' e e' d d' b b' : Q) :
  i == i' -> e == e' -> d == d' -> b == b' ->
  metrics_eq (metrics_of_sums i e d b) (metrics_of_sums i' e' d' b').
Proof.
  intros Hi He Hd Hb. unfold metrics_eq, metrics_of_sums; cbn.
  repeat split; try assumption; try reflexivity.
  - rewrite Hi, He. reflexivity.
  - destruct (Qlt_le_dec 0 i), (Qlt_le_dec 0 i'); try lra.
    rewrite Hi, He. reflexivity.
  - destruct (Qlt_le_dec 0 i), (Qlt_le_dec 0 i'); try lra.
    rewrite Hi, Hd. reflexivity.
  - destruct (Qlt_le_dec 0 e), (Qlt_le_dec 0 e'); try lra.
    rewrite He, Hb. reflexivity.
Qed.

Lemma third_positive (x : Q) : 0 < x / 3 <-> 0 < x.
Proof.
  split; intros H.
  - assert (E : x == x / 3 * 3) by (field; lra). rewrite E.
    apply Qmult_lt_0_compat; [exact H | lra].
  - apply Qlt_shift_div_l; lra.
Qed.

(** The source's metrics are those of the window's three sums. *)
Lemma calculateFinancialMetrics_sums
    (Date_parse : string -> option Z) (clock : Z)
    (transactions : list Transaction) (emergencyFundBalance : option Q) :
  metrics_eq
    (calculateFinancialMetrics Date_parse clock transactions emergencyFundBalance)
    (metrics_of_sums (windowIncome Date_parse clock transactions)
       (windowExpenses Date_parse clock transactions)
       (debtPayments Date_parse clock transactions)
       (balance_or_zero emergencyFundBalance)).
Proof.
  unfold calculateFinancialMetrics.
  fold (in_window Date_parse 3 clock). fold (is_type income). fold (is_type expense).
  fold (resolves_to "Debt"). fold (balance_or_zero emergencyFundBalance).
  set (recent := filter (in_window Date_parse 3 clock) transactions).
  set (ti := reduce _ 0 (filter (is_type income) recent)).
  set (te := reduce _ 0 (filter (is_type expense) recent)).
  set (dp := reduce _ 0 (filter (resolves_to "Debt") (filter (is_type expense) recent))).
  assert (Hti : ti == windowIncome Date_parse clock transactions).
  { unfold ti, recent, windowIncome. rewrite !filter_filter, reduce_sum_where, Qplus_0_l.
    reflexivity. }
  assert (Hte : te == windowExpenses Date_parse clock transactions).
  { unfold te, recent, windowExpenses. rewrite !filter_filter, reduce_sum_where, Qplus_0_l.
    reflexivity. }
  assert (Hdp : dp == debtPayments Date_parse clock transactions).
  { unfold dp, recent, debtPayments. rewrite !filter_filter, reduce_sum_where, Qplus_0_l.
    erewrite sum_where_ext; [reflexivity|]. intros t; cbv beta. apply andb_assoc. }
  set (wi := windowIncome _ _ _) in *. set (we := windowExpenses _ _ _) in *.
  set (wd := debtPayments _ _ _) in *. set (b := balance_or_zero _).
  clearbody ti te dp wi we wd b. clear recent.
  unfold metrics_eq, metrics_of_sums; cbn.
  pose proof (third_positive ti) as Pi. pose proof (third_positive te) as Pe.
  repeat split; try assumption; try reflexivity.
  - rewrite Hti, Hte. reflexivity.
  - destruct (Qlt_le_dec 0 ti), (Qlt_le_dec 0 wi); try lra.
    rewrite Hti, Hte. reflexivity.
  - destruct (Qlt_le_dec 0 (ti / 3)) as [H|H], (Qlt_le_dec 0 wi) as [H'|H'].
    + rewrite Hti, Hdp. field. lra.
    + apply Pi in H. lra.
    + exfalso. apply (Qle_not_lt _ _ H). apply Pi. lra.
    + reflexivity.
  - destruct (Qlt_le_dec 0 (te / 3)) as [H|H], (Qlt_le_dec 0 we) as [H'|H'].
    + rewrite Hte. field. lra.
    + apply Pe in H. lra.
    + exfalso. apply (Qle_not_lt _ _ H). apply Pe. lra.
    + reflexivity.
Qed.

Lemma sum_where_le (p q : Transaction -> bool) (rows : list Transaction) :
  (forall t, p t = true -> q t = true) -> sum_where p rows <= sum_where q rows.
Proof.
  intros H. induction rows as [|t rows IH]; simpl; [lra|].
  pose proof (Qabs_nonneg (amount t)).
  destruct (p t) eqn:Ep; [rewrite (H _ Ep); lra|].
  destruct (q t); lra.
Qed.

Lemma sum_where_perm (p : Transaction -> bool) (rows rows' : list Transaction) :
  Permutation rows rows' -> sum_where p rows == sum_where p rows'.
Proof.
  induction 1; simpl.
  - reflexivity.
  - rewrite IHPermutation. reflexivity.
  - ring.
  - etransitivity; eassumption.
Qed.

(** X4. The guards of the three ratios.  Without income in the window the
    savings rate and the debt-to-income ratio are 0; without expenses in
    the window the emergency fund covers 0 months, whatever the balance;
    an empty list gives metrics that are all 0. *)
Theorem metrics_guards
    (Date_parse : string -> option Z) (clock : Z)
    (transactions : list Transaction) (emergencyFundBalance : option Q) :
  let m :=
    calculateFinancialMetrics Date_parse clock transactions emergencyFundBalance in
  (totalIncome m == 0 -> savingsRate m == 0 /\ debtToIncomeRatio m == 0)
  /\ (totalExpenses m == 0 -> emergencyFundMonths m == 0)
  /\ calculateFinancialMetrics Date_parse clock [] emergencyFundBalance
     = {| totalIncome := 0; totalExpenses := 0; netIncome := 0; savingsRate := 0;
          debtToIncomeRatio := 0; emergencyFundMonths := 0;
          monthlyBudgetVariance := 0 |}.
Proof.
  cbv zeta. split; [|split; [|reflexivity]].
  - unfold calculateFinancialMetrics; cbn [totalIncome savingsRate debtToIncomeRatio].
    set (ti := reduce _ 0 (filter _ (filter _ transactions))).
    intros Hz. pose proof (third_positive ti).
    destruct (Qlt_le_dec 0 ti); [lra|].
    destruct (Qlt_le_dec 0 (ti / 3)); [lra|]. split; reflexivity.
  - unfold calculateFinancialMetrics; cbn [totalExpenses emergencyFundMonths].
    set (te := reduce _ 0 (filter (fun t => TransactionType_eqb _ expense) _)).
    intros Hz. pose proof (third_positive te).
    destruct (Qlt_le_dec 0 (te / 3)); [lra | reflexivity].
Qed.

(** A balance of 50000 and only income in the window: 0 months. *)
Lemma metrics_guards_witness :
  emergencyFundMonths
    (calculateFinancialMetrics parseISODate 1706745600000
       [tx 5000 "salary" income "2024-01-15"] (Some 50000)) == 0.
Proof.
  apply (proj1 (proj2 (metrics_guards parseISODate 1706745600000
                         [tx 5000 "salary" income "2024-01-15"] (Some 50000)))).
  vm_compute. reflexivity.
Defined.

(** X5. With income in the window, the savings rate is at most 100; it is
    negative exactly when the expenses exceed the income, 0 exactly when
    they equal it, and 100 when nothing was spent. *)
Theorem savingsRate_sign
    (Date_parse : string -> option Z) (clock : Z)
    (transactions : list Transaction) (emergencyFundBalance : option Q) :
  let m :=
    calculateFinancialMetrics Date_parse clock transactions emergencyFundBalance in
  0 < totalIncome m ->
  savingsRate m <= 100
  /\ (savingsRate m < 0 <-> totalIncome m < totalExpenses m)
  /\ (savingsRate m == 0 <-> totalExpenses m == totalIncome m)
  /\ (totalExpenses m == 0 -> savingsRate m == 100).
Proof.
  cbv zeta.
  destruct (calculateFinancialMetrics_sums Date_parse clock transactions
              emergencyFundBalance) as (Hi & He & _ & Hs & _).
  cbn [metrics_of_sums totalIncome totalExpenses savingsRate] in Hi, He, Hs.
  pose proof (sum_where_nonneg
    (fun t => in_window Date_parse 3 clock t && is_type expense t) transactions) as Hnn.
  fold (windowExpenses Date_parse clock transactions) in Hnn.
  set (m := calculateFinancialMetrics _ _ _ _) in *.
  set (wi := windowIncome _ _ _) in *. set (we := windowExpenses _ _ _) in *.
  clearbody m wi we. intros Hpos. rewrite Hs, Hi, He.
  destruct (Qlt_le_dec 0 wi) as [Hw|Hw]; [|lra].
  assert (E : (wi - we) / wi * 100 == 100 - we / wi * 100) by (field; lra).
  assert (Hshare : 0 <= we / wi).
  { apply Qle_shift_div_l; [exact Hw | lra]. }
  assert (Hwe : we == we / wi * wi) by (field; lra).
  rewrite E. split; [lra|]. split; [|split].
  - split; intros H.
    + assert (1 < we / wi) by lra.
      rewrite Hwe. setoid_replace wi with (1 * wi) at 1 by ring.
      apply Qmult_lt_compat_r; assumption.
    + assert (1 < we / wi); [|lra].
      apply Qlt_shift_div_l; [exact Hw | lra].
  - split; intros H.
    + assert (H1 : we / wi == 1) by lra. rewrite Hwe, H1. ring.
    + rewrite H. field. lra.
  - intros H. rewrite H. field. lra.
Qed.

(** Income 5000 and rent 6000 in the window: a negative savings rate. *)
Lemma savingsRate_sign_witness :
  savingsRate
    (calculateFinancialMetrics parseISODate 1706745600000
       [tx 5000 "salary" income "2024-01-15";
        tx (-6000) "rent payment" expense "2024-01-15"] None) < 0.
Proof.
  apply (proj1 (proj1 (proj2 (savingsRate_sign parseISODate 1706745600000
       [tx 5000 "salary" income "2024-01-15";
        tx (-6000) "rent payment" expense "2024-01-15"] None
       ltac:(vm_compute; reflexivity))))).
  vm_compute. reflexivity.
Defined.

(** X6. The debt-to-income ratio is never negative, it is 0 when no debt
    payment falls in the window, and it is above 100 only when the
    expenses exceed the income, the savings rate then being negative:
    debt payments are part of the expenses. *)
Theorem debtToIncomeRatio_bounds
    (Date_parse : string -> option Z) (clock : Z)
    (transactions : list Transaction) (emergencyFundBalance : option Q) :
  let m :=
    calculateFinancialMetrics Date_parse clock transactions emergencyFundBalance in
  0 <= debtToIncomeRatio m
  /\ (debtPayments Date_parse clock transactions == 0 -> debtToIncomeRatio m == 0)
  /\ (100 < debtToIncomeRatio m ->
      totalIncome m < totalExpenses m /\ savingsRate m < 0).
Proof.
  cbv zeta.
  destruct (calculateFinancialMetrics_sums Date_parse clock transactions
              emergencyFundBalance) as (Hi & He & _ & Hs & Hd & _).
  cbn [metrics_of_sums totalIncome totalExpenses savingsRate debtToIncomeRatio]
    in Hi, He, Hs, Hd.
  rewrite Hs, Hd, Hi, He.
  assert (Hle : debtPayments Date_parse clock transactions
                <= windowExpenses Date_parse clock transactions).
  { apply sum_where_le. intros t H. apply andb_true_iff in H. apply H. }
  pose proof (sum_where_nonneg
    (fun t => in_window Date_parse 3 clock t && is_type expense t
              && resolves_to "Debt" t) transactions) as Hnn.
  fold (debtPayments Date_parse clock transactions) in Hnn.
  set (wi := windowIncome _ _ _) in *. set (we := windowExpenses _ _ _) in *.
  set (wd := debtPayments _ _ _) in *. clearbody wi we wd.
  destruct (Qlt_le_dec 0 wi) as [Hw|Hw].
  - assert (H0 : 0 <= wd / wi) by (apply Qle_shift_div_l; [exact Hw | lra]).
    split; [lra|]. split.
    + intros Hz. rewrite Hz. field. lra.
    + intros Hbig.
      assert (H1 : 1 < wd / wi) by lra.
      assert (Hwd : wd == wd / wi * wi) by (field; lra).
      assert (Hlt : wi < wd).
      { rewrite Hwd. setoid_replace wi with (1 * wi) at 1 by ring.
        apply Qmult_lt_compat_r; assumption. }
      split; [lra|].
      assert (E : (wi - we) / wi * 100 == 100 - we / wi * 100) by (field; lra).
      rewrite E.
      assert (1 < we / wi); [|lra].
      apply Qlt_shift_div_l; [exact Hw | lra].
  - split; [lra|]. split; [intros _; reflexivity | intros H; lra].
Qed.

(** Income 1000 and a card payment of 1200 in the window. *)
Lemma debtToIncomeRatio_bounds_witness :
  savingsRate
    (calculateFinancialMetrics parseISODate 1706745600000
       [tx 1000 "salary" income "2024-01-15";
        tx (-1200) "credit card bill" expense "2024-01-20"] None) < 0.
Proof.
  apply (proj2 (proj2 (debtToIncomeRatio_bounds parseISODate 1706745600000
       [tx 1000 "salary" income "2024-01-15";
        tx (-1200) "credit card bill" expense "2024-01-20"] None))).
  vm_compute. reflexivity.
Defined.

Section RowOrder.

Import PrimFloat.

(** X7. The order of the rows.  In exact arithmetic it plays no part in
    the metrics.  The source adds doubles from left to right, and there
    the order shows: three income rows of 3200.4, 450.75 and 19.99 add up
    to 3671.14, and in the opposite order to 3671.1400000000003. *)
Theorem metrics_row_order :
  (forall (Date_parse : string -> option Z) (clock : Z)
          (transactions transactions' : list Transaction)
          (emergencyFundBalance : option Q),
      Permutation transactions transactions' ->
      metrics_eq
        (calculateFinancialMetrics Date_parse clock transactions emergencyFundBalance)
        (calculateFinancialMetrics Date_parse clock transactions' emergencyFundBalance))
  /\ (exists rows rows' : list Double.Transaction,
        Permutation rows rows'
        /\ Double.totalIncome
             (Double.calculateFinancialMetrics parseISODate 1706745600000 rows None)
           = 3671.1399999999999%float
        /\ Double.totalIncome
             (Double.calculateFinancialMetrics parseISODate 1706745600000 rows' None)
           = 3671.1400000000003%float).
Proof.
  split.
  - intros Date_parse clock transactions transactions' emergencyFundBalance Hperm.
    eapply metrics_eq_trans; [apply calculateFinancialMetrics_sums|].
    eapply metrics_eq_trans; [|apply metrics_eq_sym, calculateFinancialMetrics_sums].
    apply metrics_of_sums_compat; try reflexivity;
      unfold windowIncome, windowExpenses, debtPayments; apply sum_where_perm, Hperm.
  - exists [Double.tx 3200.4%float "salary" income "2024-01-15";
            Double.tx 450.75%float "bonus" income "2024-01-20";
            Double.tx 19.99%float "freelance" income "2024-01-25"],
           [Double.tx 19.99%float "freelance" income "2024-01-25";
            Double.tx 450.75%float "bonus" income "2024-01-20";
            Double.tx 3200.4%float "salary" income "2024-01-15"].
    split; [|split; vm_compute; reflexivity].
    apply (Permutation_rev
             [Double.tx 3200.4%float "salary" income "2024-01-15";
              Double.tx 450.75%float "bonus" income "2024-01-20";
              Double.tx 19.99%float "freelance" income "2024-01-25"]).
Qed.

Lemma metrics_row_order_witness :
  metrics_eq
    (calculateFinancialMetrics parseISODate 1706745600000
       [tx 5000 "salary" income "2024-01-15";
        tx (-1500) "rent payment" expense "2024-01-15"] None)
    (calculateFinancialMetrics parseISODate 1706745600000
       [tx (-1500) "rent payment" expense "2024-01-15";
        tx 5000 "salary" income "2024-01-15"] None).
Proof.
  apply (proj1 metrics_row_order). apply perm_swap.
Defined.

End RowOrder.

(** The metrics read the rows that count and no other. *)
Lemma metrics_filter_counts
    (Date_parse : string -> option Z) (clock : Z)
    (transactions : list Transaction) (emergencyFundBalance : option Q) :
  calculateFinancialMetrics Date_parse clock
    (filter (counts Date_parse clock) transactions) emergencyFundBalance
  = calculateFinancialMetrics Date_parse clock transactions emergencyFundBalance.
Proof.
  unfold calculateFinancialMetrics.
  fold (in_window Date_parse 3 clock). fold (is_type income). fold (is_type expense).
  assert (Hi : filter (is_type income)
                 (filter (in_window Date_parse 3 clock)
                    (filter (counts Date_parse clock) transactions))
               = filter (is_type income)
                   (filter (in_window Date_parse 3 clock) transactions)).
  { rewrite !filter_filter. apply filter_ext. intros t. unfold counts, is_type.
    destruct (in_window Date_parse 3 clock t), (transaction_type t); reflexivity. }
  assert (He : filter (is_type expense)
                 (filter (in_window Date_parse 3 clock)
                    (filter (counts Date_parse clock) transactions))
               = filter (is_type expense)
                   (filter (in_window Date_parse 3 clock) transactions)).
  { rewrite !filter_filter. apply filter_ext. intros t. unfold counts, is_type.
    destruct (in_window Date_parse 3 clock t), (transaction_type t); reflexivity. }
  rewrite Hi, He. reflexivity.
Qed.


(** X8. Transfers and rows dated before the window never count: the
    metrics are those of the remaining rows. *)
Theorem metrics_ignore_transfers_and_old_rows
    (Date_parse : string -> option Z) (clock : Z)
    (transactions : list Transaction) (emergencyFundBalance : option Q) :
  calculateFinancialMetrics Date_parse clock
    (filter (counts Date_parse clock) transactions) emergencyFundBalance
  = calculateFinancialMetrics Date_parse clock transactions emergencyFundBalance.
Proof.
  exact (metrics_filter_counts Date_parse clock transactions emergencyFundBalance).
Qed.

(** X9. Amounts count by their absolute value: changing the sign of every
    amount leaves the metrics as they are. *)
Theorem metrics_sign_independent
    (Date_parse : string -> option Z) (clock : Z)
    (transactions : list Transaction) (emergencyFundBalance : option Q) :
  metrics_eq
    (calculateFinancialMetrics Date_parse clock (map negate transactions)
       emergencyFundBalance)
    (calculateFinancialMetrics Date_parse clock transactions emergencyFundBalance).
Proof.
  assert (Hsum : forall p : Transaction -> bool,
             (forall t, p (negate t) = p t) ->
             sum_where p (map negate transactions) == sum_where p transactions).
  { intros p Hp. induction transactions as [|t rows IH]; [reflexivity|].
    cbn [map sum_where]. rewrite Hp, IH.
    change (amount (negate t)) with (- amount t).
    destruct (p t); [rewrite Qabs_opp|]; reflexivity. }
  eapply metrics_eq_trans; [apply calculateFinancialMetrics_sums|].
  eapply metrics_eq_trans; [|apply metrics_eq_sym, calculateFinancialMetrics_sums].
  apply metrics_of_sums_compat; try reflexivity;
    unfold windowIncome, windowExpenses, debtPayments; apply Hsum; intros t; reflexivity.
Qed.

(* ===================================================================== *)
(** * Spending aggregation: the buckets *)
(* ===================================================================== *)

Lemma get_set_other (m : SpendingByCategory) (k k' : string) (v : Bucket.t) :
  k <> k' -> get (set m k v) k' = get m k'.
Proof.
  intros Hne. induction m as [|[k0 b] m IH]; simpl.
  - destruct (String.eqb k k') eqn:E; [apply String.eqb_eq in E; contradiction|].
    reflexivity.
  - destruct (String.eqb k0 k) eqn:E; simpl.
    + apply String.eqb_eq in E. subst k0.
      destruct (String.eqb k k') eqn:E'; [apply String.eqb_eq in E'; contradiction|].
      reflexivity.
    + rewrite IH. reflexivity.
Qed.

Lemma sum_where_app (p : Transaction -> bool) (l1 l2 : list Transaction) :
  sum_where p (l1 ++ l2) == sum_where p l1 + sum_where p l2.
Proof. induction l1 as [|t l1 IH]; simpl; [ring|]. rewrite IH. ring. Qed.

Lemma count_where_app (p : Transaction -> bool) (l1 l2 : list Transaction) :
  count_where p (l1 ++ l2) = (count_where p l1 + count_where p l2)%Z.
Proof. unfold count_where. rewrite filter_app, length_app. lia. Qed.

Lemma count_where_nonneg (p : Transaction -> bool) (rows : list Transaction) :
  (0 <= count_where p rows)%Z.
Proof. unfold count_where. lia. Qed.

(** One row keeps every bucket right for the rows read so far. *)
Lemma accumulate_buckets (m m' : SpendingByCategory) (t : Transaction)
    (seen : list Transaction) :
  accumulate m t = Some m' ->
  (forall c, bucket_for c seen (get m c)) ->
  forall c, bucket_for c (seen ++ [t]) (get m' c).
Proof.
  unfold accumulate. destruct (description t) as [d|] eqn:Hd; [|discriminate].
  set (category := categorizeTransaction d).
  intros Hacc Hinv c.
  assert (Hcat : has_category c t = String.eqb category c)
    by (unfold has_category; rewrite Hd; reflexivity).
  assert (Hsum : sum_where (has_category c) (seen ++ [t])
                 == sum_where (has_category c) seen
                    + (if String.eqb category c then Qabs (amount t) else 0)).
  { rewrite sum_where_app. simpl. rewrite Hcat. ring. }
  assert (Hcnt : count_where (has_category c) (seen ++ [t])
                 = (count_where (has_category c) seen
                    + (if String.eqb category c then 1 else 0))%Z).
  { rewrite count_where_app. unfold count_where at 2. simpl. rewrite Hcat.
    destruct (String.eqb category c); reflexivity. }
  pose proof (count_where_nonneg (has_category c) seen) as Hnn.
  pose proof (Hinv category) as Hown. pose proof (Hinv c) as Hc.
  destruct (String.eqb category c) eqn:E.
  - apply String.eqb_eq in E. subst c.
    destruct (get m category) as [b|] eqn:G.
    + rewrite G, get_set_same in Hacc. injection Hacc as <-.
      rewrite get_set_same. simpl in *. destruct Hown as (Ha & Ht & Hp).
      rewrite Hsum, Hcnt, Ha, Ht. repeat split; try reflexivity; try lia.
    + rewrite !get_set_same in Hacc. injection Hacc as <-.
      rewrite get_set_same. simpl in *.
      rewrite Hsum, Hcnt, Hown.
      assert (Hz : sum_where (has_category category) seen == 0).
      { clear - Hown. unfold count_where in Hown.
        induction seen as [|x seen IH]; simpl in *; [reflexivity|].
        destruct (has_category category x); simpl in *; [lia|].
        rewrite IH by assumption. ring. }
      rewrite Hz. repeat split; try reflexivity; try ring; try lia.
  - assert (Hne : category <> c) by (apply String.eqb_neq; exact E).
    assert (Hget : get m' c = get m c).
    { destruct (get m category) as [b|] eqn:G.
      - rewrite G, get_set_same in Hacc. injection Hacc as <-.
        rewrite !get_set_other by exact Hne. reflexivity.
      - rewrite !get_set_same in Hacc. injection Hacc as <-.
        rewrite !get_set_other by exact Hne. reflexivity. }
    rewrite Hget. unfold bucket_for in *.
    destruct (get m c) as [b|].
    + destruct Hc as (Ha & Ht & Hp). rewrite Hsum, Hcnt, Ha, Ht.
      repeat split; try ring; lia.
    + rewrite Hcnt, Hc. reflexivity.
Qed.

Lemma forEach_accumulate_buckets (rows seen : list Transaction)
    (m m' : SpendingByCategory) :
  forEach_accumulate rows m = Some m' ->
  (forall c, bucket_for c seen (get m c)) ->
  forall c, bucket_for c (seen ++ rows) (get m' c).
Proof.
  revert seen m. induction rows as [|t rows IH]; intros seen m; simpl.
  - intros [= <-] Hinv c. rewrite app_nil_r. apply Hinv.
  - destruct (accumulate m t) as [m1|] eqn:E; [|discriminate].
    intros H Hinv c.
    replace (seen ++ t :: rows) with ((seen ++ [t]) ++ rows)
      by (rewrite <- app_assoc; reflexivity).
    apply (IH _ _ H). apply (accumulate_buckets _ _ _ _ E Hinv).
Qed.

Lemma get_map_percentage (total : Q) (m : SpendingByCategory) (c : string) :
  get (map (fun kb => (fst kb, with_percentage total (snd kb))) m) c
  = option_map (with_percentage total) (get m c).
Proof.
  induction m as [|[k b] m IH]; simpl; [reflexivity|].
  destruct (String.eqb k c); [reflexivity | exact IH].
Qed.

Lemma forEach_accumulate_descriptions (rows : list Transaction)
    (m : SpendingByCategory) :
  forEach_accumulate rows m = None <-> Exists (fun t => description t = None) rows.
Proof.
  revert m. induction rows as [|t rows IH]; intros m; simpl.
  - split; [discriminate | intros H; inversion H].
  - destruct (accumulate m t) as [m1|] eqn:E.
    + rewrite IH. split; intros H.
      * right. exact H.
      * inversion H as [x l Hx|x l Hx]; subst; [|exact Hx].
        unfold accumulate in E. rewrite Hx in E. discriminate.
    + split; intros _; [|reflexivity]. left.
      unfold accumulate in E. destruct (description t) as [d|]; [|reflexivity].
      exfalso. set (category := categorizeTransaction d) in E.
      destruct (get m category) as [b|] eqn:G.
      * rewrite G, get_set_same in E. discriminate.
      * rewrite !get_set_same in E. discriminate.
Qed.

Lemma categorizeTransaction_name (d : string) :
  In (categorizeTransaction d) category_names.
Proof.
  unfold categorizeTransaction.
  destruct (for_entries TRANSACTION_CATEGORIES (toLowerCase d)) eqn:E.
  - apply for_entries_key in E. exact E.
  - simpl. tauto.
Qed.

Lemma count_where_positive (p : Transaction -> bool) (rows : list Transaction) :
  (0 < count_where p rows)%Z -> exists t, In t rows /\ p t = true.
Proof.
  unfold count_where. destruct (filter p rows) as [|t l] eqn:E; simpl; [lia|].
  intros _. exists t. apply filter_In. rewrite E. left; reflexivity.
Qed.

(** X10. Each bucket of the returned map holds what its category spent:
    the sum of the absolute amounts of the in-window expense rows the
    categorizer sends to it, their number (at least one), and that amount's
    share of the window total; a category without such rows has no
    bucket. *)
Theorem analyzeSpendingByCategory_buckets
    (Date_parse : string -> option Z) (clock : Z)
    (transactions : list Transaction) (spending : SpendingByCategory) :
  analyzeSpendingByCategory Date_parse clock transactions = Some spending ->
  let rows := expenseTransactions Date_parse clock transactions in
  forall category,
    match get spending category with
    | Some b =>
        Bucket.amount b == sum_where (has_category category) rows
        /\ Bucket.transactions b = count_where (has_category category) rows
        /\ (0 < Bucket.transactions b)%Z
        /\ (0 < sum_abs rows ->
            Bucket.percentage b
            == sum_where (has_category category) rows / sum_abs rows * 100)
    | None => forall t, In t rows -> has_category category t = false
    end.
Proof.
  unfold analyzeSpendingByCategory.
  set (rows := expenseTransactions Date_parse clock transactions).
  destruct (forEach_accumulate rows []) as [m|] eqn:E; [|discriminate].
  intros [= <-]. cbv zeta. intros category.
  pose proof (forEach_accumulate_sum _ _ _ E) as [_ Hnd].
  specialize (Hnd (NoDup_nil _)).
  pose proof (forEach_accumulate_buckets rows [] [] m E) as Hb.
  simpl in Hb. specialize (Hb (fun c => eq_refl) category).
  rewrite (assign_percentages_map _ _ Hnd), get_map_percentage.
  assert (Htot : reduce (fun sum t => sum + Qabs (amount t)) 0 rows == sum_abs rows)
    by (rewrite reduce_sum_abs; ring).
  destruct (get m category) as [b|]; simpl in *.
  - destruct Hb as (Ha & Ht & Hp). repeat split; try assumption; [lia|].
    intros Hpos. destruct (Qlt_le_dec 0 _) as [_|Hle]; [|lra].
    rewrite Ha, Htot. reflexivity.
  - intros t Hin. destruct (has_category category t) eqn:Hc; [|reflexivity].
    exfalso. unfold count_where in Hb.
    assert (Hf : In t (filter (has_category category) rows))
      by (apply filter_In; split; assumption).
    destruct (filter (has_category category) rows); [contradiction | simpl in Hb; lia].
Qed.

(** Rent, a card bill and a mortgage payment: there is no Food bucket, and
    the rent row is not Food. *)
Lemma analyzeSpendingByCategory_buckets_witness :
  has_category "Food" (tx (-1500) "rent payment" expense "2024-01-15") = false.
Proof.
  destruct (analyzeSpendingByCategory parseISODate 1706745600000
      [tx (-1500) "rent payment" expense "2024-01-15";
       tx (-300) "Credit Card bill" expense "2024-01-20";
       tx 200 "mortgage" expense "2024-01-20"]) as [spending|] eqn:E;
    [|vm_compute in E; discriminate].
  pose proof (analyzeSpendingByCategory_buckets _ _ _ _ E "Food"%string) as H.
  cbv zeta in H.
  assert (G : get spending "Food" = None).
  { vm_compute in E. injection E as <-. reflexivity. }
  rewrite G in H. apply H. vm_compute. left. reflexivity.
Defined.

(** X11. The keys of the returned map are category names, each once, so
    there are at most eleven buckets; their transaction counts add up to
    the number of in-window expense rows. *)
Theorem analyzeSpendingByCategory_keys
    (Date_parse : string -> option Z) (clock : Z)
    (transactions : list Transaction) (spending : SpendingByCategory) :
  analyzeSpendingByCategory Date_parse clock transactions = Some spending ->
  incl (map fst spending) category_names
  /\ (List.length spending <= 11)%nat
  /\ sum_transactions spending
     = Z.of_nat (List.length (expenseTransactions Date_parse clock transactions)).
Proof.
  unfold analyzeSpendingByCategory.
  set (rows := expenseTransactions Date_parse clock transactions).
  destruct (forEach_accumulate rows []) as [m|] eqn:E; [|discriminate].
  intros [= <-].
  pose proof (forEach_accumulate_sum _ _ _ E) as [_ Hnd].
  specialize (Hnd (NoDup_nil _)).
  pose proof (forEach_accumulate_buckets rows [] [] m E) as Hb.
  simpl in Hb. specialize (Hb (fun c => eq_refl)).
  rewrite (assign_percentages_map _ _ Hnd).
  assert (Hkeys : map fst (map (fun kb : string * Bucket.t =>
                     (fst kb, with_percentage
                        (reduce (fun sum t => sum + Qabs (amount t)) 0 rows) (snd kb))) m)
                  = map fst m) by (rewrite map_map; reflexivity).
  assert (Hincl : incl (map fst m) category_names).
  { intros c Hc. specialize (Hb c).
    destruct (get m c) as [b|] eqn:G.
    - destruct Hb as (_ & _ & Hp). apply count_where_positive in Hp.
      destruct Hp as (t & _ & Ht). unfold has_category in Ht.
      destruct (description t) as [d|]; [|discriminate].
      apply String.eqb_eq in Ht. subst c. apply categorizeTransaction_name.
    - apply get_None_iff in G. contradiction. }
  rewrite Hkeys. split; [exact Hincl|]. split.
  - rewrite length_map. rewrite <- (length_map fst m).
    apply (NoDup_incl_length Hnd Hincl).
  - assert (Hcount : forall rows0 m0 m1,
               forEach_accumulate rows0 m0 = Some m1 ->
               sum_transactions m1
               = (sum_transactions m0 + Z.of_nat (List.length rows0))%Z).
    { assert (Hset : forall m0 k v,
                 sum_transactions (set m0 k v)
                 = (sum_transactions m0 + Bucket.transactions v
                    - match get m0 k with
                      | Some b => Bucket.transactions b
                      | None => 0
                      end)%Z).
      { induction m0 as [|[k0 b0] m0 IH0]; intros k v; simpl; [lia|].
        destruct (String.eqb k0 k); simpl; [lia|]. rewrite IH0. lia. }
      induction rows0 as [|t rows0 IH0]; intros m0 m1; simpl.
      - intros [= <-]. lia.
      - destruct (accumulate m0 t) as [m2|] eqn:E2; [|discriminate].
        intros H. rewrite (IH0 _ _ H).
        unfold accumulate in E2. destruct (description t) as [d|]; [|discriminate].
        set (category := categorizeTransaction d) in E2.
        destruct (get m0 category) as [b|] eqn:G.
        + rewrite G, get_set_same in E2. injection E2 as <-.
          rewrite !Hset, get_set_same, G. simpl. lia.
        + rewrite !get_set_same in E2. injection E2 as <-.
          rewrite !Hset, !get_set_same, G. simpl. lia. }
    assert (Hmap : forall total m0,
               sum_transactions
                 (map (fun kb : string * Bucket.t =>
                         (fst kb, with_percentage total (snd kb))) m0)
               = sum_transactions m0).
    { intros total m0. induction m0 as [|[k b] m0 IH0]; simpl; [reflexivity|].
      rewrite IH0. reflexivity. }
    rewrite Hmap, (Hcount _ _ _ E). reflexivity.
Qed.

Lemma analyzeSpendingByCategory_keys_witness :
  exists spending,
    analyzeSpendingByCategory parseISODate 1706745600000
      [tx (-1500) "rent payment" expense "2024-01-15";
       tx (-300) "Credit Card bill" expense "2024-01-20";
       tx 200 "mortgage" expense "2024-01-20"] = Some spending
    /\ sum_transactions spending = 3%Z.
Proof.
  eexists. split.
  - vm_compute. reflexivity.
  - refine (proj2 (proj2 (analyzeSpendingByCategory_keys parseISODate 1706745600000
      [tx (-1500) "rent payment" expense "2024-01-15";
       tx (-300) "Credit Card bill" expense "2024-01-20";
       tx 200 "mortgage" expense "2024-01-20"] _ _))).
    vm_compute. reflexivity.
Defined.

(** X12. The aggregation fails exactly when an in-window expense row has
    no description (the categorizer is called on it as it is), whereas the
    metrics, which put the empty string in its place, are computed for the
    same rows. *)
Theorem analyzeSpendingByCategory_fails_iff
    (Date_parse : string -> option Z) (clock : Z) (transactions : list Transaction) :
  analyzeSpendingByCategory Date_parse clock transactions = None
  <-> exists t, In t transactions
                /\ transaction_type t = expense
                /\ in_window Date_parse 1 clock t = true
                /\ description t = None.
Proof.
  unfold analyzeSpendingByCategory.
  set (rows := expenseTransactions Date_parse clock transactions).
  assert (Hrows : forall t, In t rows <->
                    In t transactions /\ transaction_type t = expense
                    /\ in_window Date_parse 1 clock t = true).
  { intros t. unfold rows, expenseTransactions. rewrite filter_In, andb_true_iff.
    unfold in_window.
    assert (Ht : TransactionType_eqb (transaction_type t) expense = true
                 <-> transaction_type t = expense)
      by (destruct (transaction_type t); simpl; split; congruence).
    rewrite Ht. tauto. }
  split.
  - destruct (forEach_accumulate rows []) as [m|] eqn:E; [discriminate|]. intros _.
    apply forEach_accumulate_descriptions in E. apply Exists_exists in E.
    destruct E as (t & Hin & Hd). exists t. apply Hrows in Hin. tauto.
  - intros (t & Hin & Hty & Hw & Hd).
    assert (E : forEach_accumulate rows [] = None).
    { apply forEach_accumulate_descriptions, Exists_exists. exists t.
      split; [apply Hrows; tauto | exact Hd]. }
    rewrite E. reflexivity.
Qed.

Lemma analyzeSpendingByCategory_fails_iff_witness :
  analyzeSpendingByCategory parseISODate 1706745600000
    [ {| amount := -20; description := None; transaction_type := expense;
         transaction_date := "2024-01-20" |} ] = None.
Proof.
  apply (proj2 (analyzeSpendingByCategory_fails_iff parseISODate 1706745600000
    [ {| amount := -20; description := None; transaction_type := expense;
         transaction_date := "2024-01-20" |} ])).
  eexists. split; [left; reflexivity|]. repeat split.
Defined.

(* ===================================================================== *)
(** * The two windows *)
(* ===================================================================== *)

Section Calendar.

Local Open Scope Z_scope.

Ltac decide_tests :=
  repeat match goal with
         | |- context [(?a <=? ?b)] =>
             let v := eval vm_compute in (a <=? b) in change (a <=? b) with v
         | |- context [(?a <? ?b)] =>
             let v := eval vm_compute in (a <? b) in change (a <? b) with v
         end; cbv iota.

(** The day number of a date is that of the first of its month, plus the
    days since. *)
Lemma days_from_civil_day (y m d : Z) :
  days_from_civil y m d = days_from_civil y m 1 + d - 1.
Proof. unfold days_from_civil. lia. Qed.

(** From a day number to its date and back. *)
Lemma civil_from_days_inverse (z : Z) :
  days_from_civil (fst (fst (civil_from_days z))) (snd (fst (civil_from_days z)))
    (snd (civil_from_days z)) = z
  /\ 1 <= snd (fst (civil_from_days z)) <= 12
  /\ 1 <= snd (civil_from_days z) <= 31
  /\ (0 <= z -> 1600 <= fst (fst (civil_from_days z))).
Proof.
  unfold civil_from_days, days_from_civil; cbn [fst snd].
  set (z0 := z + 719468).
  set (era := z0 / 146097).
  set (doe := z0 - era * 146097).
  assert (Hdoe : 0 <= doe < 146097) by (unfold doe, era; Z.div_mod_to_equations; lia).
  set (yoe := (doe - doe / 1460 + doe / 36524 - doe / 146096) / 365).
  assert (Hyoe : 0 <= yoe <= 399) by (unfold yoe; Z.div_mod_to_equations; lia).
  set (doy := doe - (365 * yoe + yoe / 4 - yoe / 100)).
  assert (Hdoy : 0 <= doy <= 365).
  { unfold doy, yoe. Z.div_mod_to_equations. lia. }
  set (mp := (5 * doy + 2) / 153).
  assert (Hmp : 0 <= mp <= 11) by (unfold mp; Z.div_mod_to_equations; lia).
  assert (Hz : z = era * 146097 + doe - 719468) by (unfold doe, z0; lia).
  assert (Hd : 1 <= doy - (153 * mp + 2) / 5 + 1 <= 31).
  { unfold mp. Z.div_mod_to_equations. lia. }
  assert (Hera : (yoe + era * 400) / 400 = era) by (Z.div_mod_to_equations; lia).
  assert (Hdoe' : doe = yoe * 365 + yoe / 4 - yoe / 100 + doy) by (unfold doy; lia).
  assert (Hpos : 0 <= z -> 4 <= era) by (unfold era, z0; Z.div_mod_to_equations; lia).
  clearbody doy mp yoe doe era. clear z0.
  destruct (Z.ltb_spec mp 10).
  - destruct (Z.leb_spec (mp + 3) 2); [lia|].
    destruct (Z.ltb_spec 2 (mp + 3)); [|lia].
    replace (mp + 3 - 3) with mp by lia. rewrite Hera.
    replace (yoe + era * 400 - era * 400) with yoe by lia.
    repeat split; lia.
  - destruct (Z.leb_spec (mp - 9) 2); [|lia].
    destruct (Z.ltb_spec 2 (mp - 9)); [lia|].
    replace (mp - 9 + 9) with mp by lia.
    replace (yoe + era * 400 + 1 - 1) with (yoe + era * 400) by lia. rewrite Hera.
    replace (yoe + era * 400 - era * 400) with yoe by lia.
    repeat split; lia.
Qed.

(** The date the clock shows, put together again, is the clock's day. *)
Lemma MakeDay_of_clock (clock : Z) :
  MakeDay (getFullYear clock) (getMonth clock) (getDate clock) = Day clock.
Proof.
  unfold MakeDay, getFullYear, getMonth, getDate.
  destruct (civil_from_days_inverse (Day clock)) as (Hinv & Hm & Hd & _).
  set (y := fst (fst (civil_from_days (Day clock)))) in *.
  set (m := snd (fst (civil_from_days (Day clock)))) in *.
  set (d := snd (civil_from_days (Day clock))) in *.
  assert (Hq : (m - 1) / 12 = 0) by (Z.div_mod_to_equations; lia).
  assert (Hr : (m - 1) mod 12 = m - 1) by (Z.div_mod_to_equations; lia).
  rewrite Hq, Hr, Z.add_0_r. replace (m - 1 + 1) with m by lia.
  rewrite (days_from_civil_day y m d) in Hinv. lia.
Qed.

(** From a month to the next there are 28 to 31 days. *)
Lemma MakeDay_month_step (y mo d : Z) :
  28 <= MakeDay y (mo + 1) d - MakeDay y mo d <= 31.
Proof.
  unfold MakeDay, days_from_civil.
  pose proof (Z.mod_pos_bound mo 12 ltac:(lia)) as Hr.
  assert (Hcase :
    (mo mod 12 < 11 /\ (mo + 1) / 12 = mo / 12 /\ (mo + 1) mod 12 = mo mod 12 + 1)
    \/ (mo mod 12 = 11 /\ (mo + 1) / 12 = mo / 12 + 1 /\ (mo + 1) mod 12 = 0)).
  { Z.div_mod_to_equations. lia. }
  set (q := mo / 12) in *. set (r := mo mod 12) in *.
  destruct Hcase as [(H1 & -> & ->)|(H1 & -> & ->)].
  - clearbody q r.
    assert (Hr' : r = 0 \/ r = 1 \/ r = 2 \/ r = 3 \/ r = 4 \/ r = 5 \/ r = 6
                  \/ r = 7 \/ r = 8 \/ r = 9 \/ r = 10) by lia.
    destruct Hr' as [->|[->|[->|[->|[->|[->|[->|[->|[->|[->| ->]]]]]]]]]];
      decide_tests; Z.div_mod_to_equations; lia.
  - rewrite H1. decide_tests. Z.div_mod_to_equations; lia.
Qed.

(** Three months in a row have 89 to 92 days. *)
Lemma MakeDay_quarter_step (y mo d : Z) :
  89 <= MakeDay y (mo + 3) d - MakeDay y mo d <= 92.
Proof.
  unfold MakeDay, days_from_civil.
  pose proof (Z.mod_pos_bound mo 12 ltac:(lia)) as Hr.
  assert (Hcase :
    (mo mod 12 < 9 /\ (mo + 3) / 12 = mo / 12 /\ (mo + 3) mod 12 = mo mod 12 + 3)
    \/ (9 <= mo mod 12 /\ (mo + 3) / 12 = mo / 12 + 1
        /\ (mo + 3) mod 12 = mo mod 12 - 9)).
  { Z.div_mod_to_equations. lia. }
  set (q := mo / 12) in *. set (r := mo mod 12) in *.
  destruct Hcase as [(H1 & -> & ->)|(H1 & -> & ->)].
  - clearbody q r.
    assert (Hr' : r = 0 \/ r = 1 \/ r = 2 \/ r = 3 \/ r = 4 \/ r = 5 \/ r = 6
                  \/ r = 7 \/ r = 8) by lia.
    destruct Hr' as [->|[->|[->|[->|[->|[->|[->|[->| ->]]]]]]]];
      decide_tests; Z.div_mod_to_equations; lia.
  - clearbody q r.
    assert (Hr' : r = 9 \/ r = 10 \/ r = 11) by lia.
    destruct Hr' as [->|[->| ->]]; decide_tests; Z.div_mod_to_equations; lia.
Qed.

(** Where a window starts: [back] days before the clock's day, at
    midnight. *)
Lemma window_start (clock months : Z) :
  0 <= clock <= 8640000000000000 ->
  0 <= MakeDay (getFullYear clock) (getMonth clock) (getDate clock)
       - MakeDay (getFullYear clock) (getMonth clock - months) (getDate clock)
    <= 100 ->
  Date_of_ymd (getFullYear clock) (getMonth clock - months) (getDate clock)
  = Some (MakeDay (getFullYear clock) (getMonth clock - months) (getDate clock)
          * msPerDay).
Proof.
  intros Hclock Hback. unfold Date_of_ymd.
  destruct (civil_from_days_inverse (Day clock)) as (_ & _ & _ & Hy).
  assert (Hday : 0 <= Day clock /\ Day clock * msPerDay <= clock).
  { unfold Day, msPerDay. Z.div_mod_to_equations. lia. }
  specialize (Hy (proj1 Hday)). fold (getFullYear clock) in Hy.
  destruct (Z.leb_spec 0 (getFullYear clock)); [|lia].
  destruct (Z.leb_spec (getFullYear clock) 99); [lia|]. cbn [andb].
  rewrite MakeDay_of_clock in Hback.
  unfold TimeClip.
  destruct (Z.leb_spec (Z.abs (MakeDay (getFullYear clock) (getMonth clock - months)
                                  (getDate clock) * msPerDay)) 8640000000000000)
    as [_|Hbig]; [reflexivity|].
  exfalso. unfold msPerDay in *. lia.
Qed.

End Calendar.

(** The starts of the two windows. *)
Lemma window_starts_bounds
    (clock : Z) :
  (0 <= clock <= 8640000000000000)%Z ->
  exists quarter month : Z,
    Date_of_ymd (getFullYear clock) (getMonth clock - 3) (getDate clock)
    = Some ((Day clock - quarter) * msPerDay)%Z
    /\ (89 <= quarter <= 92)%Z
    /\ Date_of_ymd (getFullYear clock) (getMonth clock - 1) (getDate clock)
       = Some ((Day clock - month) * msPerDay)%Z
    /\ (28 <= month <= 31)%Z.
Proof.
  intros Hclock.
  pose proof (MakeDay_quarter_step (getFullYear clock) (getMonth clock - 3)
                (getDate clock)) as H3.
  pose proof (MakeDay_month_step (getFullYear clock) (getMonth clock - 1)
                (getDate clock)) as H1.
  replace (getMonth clock - 3 + 3)%Z with (getMonth clock) in H3 by lia.
  replace (getMonth clock - 1 + 1)%Z with (getMonth clock) in H1 by lia.
  exists (MakeDay (getFullYear clock) (getMonth clock) (getDate clock)
          - MakeDay (getFullYear clock) (getMonth clock - 3) (getDate clock))%Z,
         (MakeDay (getFullYear clock) (getMonth clock) (getDate clock)
          - MakeDay (getFullYear clock) (getMonth clock - 1) (getDate clock))%Z.
  rewrite (window_start clock 3 Hclock) by lia.
  rewrite (window_start clock 1 Hclock) by lia.
  rewrite !MakeDay_of_clock in *.
  repeat split; try lia; f_equal; f_equal; lia.
Qed.


(** X13. Where the windows start.  With the clock between 1970 and the
    last time value, the metrics window starts at midnight 89 to 92 days
    before the clock's day and the spending window 28 to 31 days before
    it. *)
Theorem windows_start
    (clock : Z) :
  (0 <= clock <= 8640000000000000)%Z ->
  exists quarter month : Z,
    Date_of_ymd (getFullYear clock) (getMonth clock - 3) (getDate clock)
    = Some ((Day clock - quarter) * msPerDay)%Z
    /\ (89 <= quarter <= 92)%Z
    /\ Date_of_ymd (getFullYear clock) (getMonth clock - 1) (getDate clock)
       = Some ((Day clock - month) * msPerDay)%Z
    /\ (28 <= month <= 31)%Z.
Proof. exact (window_starts_bounds clock). Qed.

(** 31 May 2024: the metrics window has a start (it is 2 March, "31
    February" carried over). *)
Lemma windows_start_witness :
  Date_of_ymd (getFullYear 1717113600000) (getMonth 1717113600000 - 3)
    (getDate 1717113600000) <> None.
Proof.
  destruct (windows_start 1717113600000 ltac:(lia)) as (q & m & H3 & _).
  rewrite H3. discriminate.
Defined.

Lemma in_window_nested (Date_parse : string -> option Z) (clock : Z) (t : Transaction) :
  (0 <= clock <= 8640000000000000)%Z ->
  in_window Date_parse 1 clock t = true -> in_window Date_parse 3 clock t = true.
Proof.
  intros Hclock. unfold in_window.
  destruct (window_starts_bounds clock Hclock) as (q & m & -> & Hq & -> & Hm).
  destruct (Date_parse (transaction_date t)) as [x|]; simpl; [|discriminate].
  rewrite !Z.leb_le. unfold msPerDay. lia.
Qed.

(** The map the aggregation returns, in terms of the map its first loop
    leaves. *)
Lemma analyzeSpendingByCategory_map
    (Date_parse : string -> option Z) (clock : Z)
    (transactions : list Transaction) (spending : SpendingByCategory) :
  analyzeSpendingByCategory Date_parse clock transactions = Some spending ->
  let rows := expenseTransactions Date_parse clock transactions in
  exists m total,
    forEach_accumulate rows [] = Some m
    /\ NoDup (map fst m)
    /\ spending = map (fun kb => (fst kb, with_percentage total (snd kb))) m
    /\ (forall c, bucket_for c rows (get m c)).
Proof.
  unfold analyzeSpendingByCategory. cbv zeta.
  set (rows := expenseTransactions Date_parse clock transactions).
  destruct (forEach_accumulate rows []) as [m|] eqn:E; [|discriminate].
  intros [= <-].
  pose proof (forEach_accumulate_sum _ _ _ E) as [_ Hnd].
  specialize (Hnd (NoDup_nil _)).
  exists m. eexists. split; [reflexivity|]. split; [exact Hnd|]. split.
  - apply assign_percentages_map, Hnd.
  - intros c. apply (forEach_accumulate_buckets rows [] [] m E).
    intros c'. reflexivity.
Qed.

Lemma sum_where_filter (p q : Transaction -> bool) (l : list Transaction) :
  sum_where q (filter p l) == sum_where (fun t => p t && q t) l.
Proof.
  induction l as [|x l IH]; simpl; [reflexivity|].
  destruct (p x); simpl; rewrite IH; ring.
Qed.

(** The amount of a bucket is a sum of absolute amounts of rows. *)
Lemma bucket_amount
    (Date_parse : string -> option Z) (clock : Z)
    (transactions : list Transaction) (spending : SpendingByCategory)
    (category : string) (b : Bucket.t) :
  analyzeSpendingByCategory Date_parse clock transactions = Some spending ->
  get spending category = Some b ->
  Bucket.amount b
  == sum_where (has_category category)
       (expenseTransactions Date_parse clock transactions).
Proof.
  intros Ha Hg.
  destruct (analyzeSpendingByCategory_map _ _ _ _ Ha) as (m & total & _ & _ & -> & Hb).
  rewrite get_map_percentage in Hg. specialize (Hb category).
  destruct (get m category) as [b0|]; [|discriminate].
  injection Hg as <-. simpl. apply Hb.
Qed.

(** X14. The spending window lies inside the metrics window: a row that
    counts for the spending analysis is dated in the metrics window, and
    no bucket of the spending analysis holds more than the metrics' total
    expenses. *)
Theorem spending_within_metrics
    (Date_parse : string -> option Z) (clock : Z)
    (transactions : list Transaction) (emergencyFundBalance : option Q) :
  (0 <= clock <= 8640000000000000)%Z ->
  (forall t, in_window Date_parse 1 clock t = true ->
             in_window Date_parse 3 clock t = true)
  /\ (forall spending category b,
        analyzeSpendingByCategory Date_parse clock transactions = Some spending ->
        get spending category = Some b ->
        0 <= Bucket.amount b
        /\ Bucket.amount b
           <= totalExpenses
                (calculateFinancialMetrics Date_parse clock transactions
                   emergencyFundBalance)).
Proof.
  intros Hclock. split; [intros t; apply in_window_nested, Hclock|].
  intros spending category b Ha Hg.
  rewrite (bucket_amount _ _ _ _ _ _ Ha Hg).
  split; [apply sum_where_nonneg|].
  destruct (calculateFinancialMetrics_sums Date_parse clock transactions
              emergencyFundBalance) as (_ & He & _).
  cbn [metrics_of_sums totalExpenses] in He. rewrite He.
  unfold expenseTransactions, windowExpenses. rewrite sum_where_filter.
  apply sum_where_le. intros t Ht.
  apply andb_true_iff in Ht. destruct Ht as [Ht _].
  apply andb_true_iff in Ht. destruct Ht as [Hty Hw].
  apply andb_true_iff. split; [|exact Hty].
  apply (in_window_nested Date_parse clock t Hclock). exact Hw.
Qed.

(** Rent in the last month and a card bill two months back: the Housing
    bucket holds 1500 of the 1800 the metrics count. *)
Lemma spending_within_metrics_witness :
  exists spending b,
    analyzeSpendingByCategory parseISODate 1706745600000
      [tx (-1500) "rent payment" expense "2024-01-15";
       tx (-300) "credit card bill" expense "2023-12-05"] = Some spending
    /\ get spending "Housing" = Some b
    /\ Bucket.amount b
       <= totalExpenses
            (calculateFinancialMetrics parseISODate 1706745600000
               [tx (-1500) "rent payment" expense "2024-01-15";
                tx (-300) "credit card bill" expense "2023-12-05"] None).
Proof.
  eexists. eexists. split; [vm_compute; reflexivity|]. split; [vm_compute; reflexivity|].
  refine (proj2 (proj2 (spending_within_metrics parseISODate 1706745600000
    [tx (-1500) "rent payment" expense "2024-01-15";
     tx (-300) "credit card bill" expense "2023-12-05"] None _) _ "Housing"%string _ _ _)).
  - lia.
  - vm_compute. reflexivity.
  - vm_compute. reflexivity.
Defined.

(* ===================================================================== *)
(** * Insights: shape of the list *)
(* ===================================================================== *)

Lemma pushed_insights_rule_order
    (toFixed : Q -> Z -> string) (metrics : FinancialMetrics)
    (spendingByCategory : SpendingByCategory) (userProfile : UserProfile) :
  pushed_insights toFixed metrics spendingByCategory userProfile
  = rule_order toFixed metrics spendingByCategory.
Proof.
  unfold pushed_insights, rule_order, savings_rule, emergency_rule, debt_rule,
    housing_rule, food_rule, push.
  destruct (Qlt_le_dec (savingsRate metrics) 10);
    [|destruct (Qlt_le_dec (savingsRate metrics) 20)];
  (destruct (Qlt_le_dec (emergencyFundMonths metrics) 3);
    [|destruct (Qlt_le_dec (emergencyFundMonths metrics) 6)]);
  (destruct (Qlt_le_dec 40 (debtToIncomeRatio metrics));
    [|destruct (Qlt_le_dec 20 (debtToIncomeRatio metrics))]);
  (destruct (get spendingByCategory "Housing") as [h|];
    [destruct (Qlt_le_dec 30 (Bucket.percentage h))|]);
  (destruct (get spendingByCategory "Food") as [f|];
    [destruct (Qlt_le_dec 15 (Bucket.percentage f))|]);
  reflexivity.
Qed.

Lemma generateFinancialInsights_classes
    (toFixed : Q -> Z -> string) (metrics : FinancialMetrics)
    (spendingByCategory : SpendingByCategory) (userProfile : UserProfile) :
  generateFinancialInsights toFixed metrics spendingByCategory userProfile
  = filter (has_priority high) (rule_order toFixed metrics spendingByCategory)
    ++ filter (has_priority medium) (rule_order toFixed metrics spendingByCategory)
    ++ filter (has_priority low) (rule_order toFixed metrics spendingByCategory).
Proof.
  unfold generateFinancialInsights.
  rewrite pushed_insights_rule_order. apply Array_sort_by_priority.
Qed.

(** In what the rules produce, critical goes with high and positive with
    low. *)
Lemma rule_order_types
    (toFixed : Q -> Z -> string) (metrics : FinancialMetrics)
    (spendingByCategory : SpendingByCategory) (i : FinancialInsight) :
  In i (rule_order toFixed metrics spendingByCategory) ->
  (Insight.type i = critical <-> Insight.priority i = high)
  /\ (Insight.type i = positive -> Insight.priority i = low).
Proof.
  unfold rule_order, savings_rule, emergency_rule, debt_rule, housing_rule, food_rule.
  intros H.
  repeat (apply in_app_or in H; destruct H as [H|H]);
    repeat match type of H with
           | In _ (if ?c then _ else _) => destruct c
           | In _ (match ?o with Some _ => _ | None => _ end) => destruct o
           end;
    simpl in H; try contradiction; destruct H as [<-|[]]; simpl;
    (split; [split|]; congruence).
Qed.

Lemma rule_order_length
    (toFixed : Q -> Z -> string) (metrics : FinancialMetrics)
    (spendingByCategory : SpendingByCategory) :
  (1 <= List.length (rule_order toFixed metrics spendingByCategory) <= 5)%nat.
Proof.
  unfold rule_order. rewrite !length_app.
  assert (H1 : List.length (savings_rule toFixed metrics) = 1%nat).
  { unfold savings_rule. destruct (Qlt_le_dec _ _); [|destruct (Qlt_le_dec _ _)];
      reflexivity. }
  assert (H2 : (List.length (emergency_rule toFixed metrics) <= 1)%nat).
  { unfold emergency_rule. destruct (Qlt_le_dec _ _); [|destruct (Qlt_le_dec _ _)];
      simpl; lia. }
  assert (H3 : (List.length (debt_rule toFixed metrics) <= 1)%nat).
  { unfold debt_rule. destruct (Qlt_le_dec _ _); [|destruct (Qlt_le_dec _ _)];
      simpl; lia. }
  assert (H4 : (List.length (housing_rule toFixed spendingByCategory) <= 1)%nat).
  { unfold housing_rule. destruct (get _ _); [destruct (Qlt_le_dec _ _)|]; simpl; lia. }
  assert (H5 : (List.length (food_rule toFixed spendingByCategory) <= 1)%nat).
  { unfold food_rule. destruct (get _ _); [destruct (Qlt_le_dec _ _)|]; simpl; lia. }
  lia.
Qed.

(** X15. The list of insights has one to five entries; in it critical
    goes with high priority and positive with low; and the critical
    insights come first, before every warning and positive one. *)
Theorem generateFinancialInsights_critical_first
    (toFixed : Q -> Z -> string) (metrics : FinancialMetrics)
    (spendingByCategory : SpendingByCategory) (userProfile : UserProfile) :
  let result :=
    generateFinancialInsights toFixed metrics spendingByCategory userProfile in
  (1 <= List.length result <= 5)%nat
  /\ (forall i, In i result ->
        (Insight.type i = critical <-> Insight.priority i = high)
        /\ (Insight.type i = positive -> Insight.priority i = low))
  /\ exists first rest,
       result = first ++ rest
       /\ Forall (fun i => Insight.type i = critical) first
       /\ Forall (fun i => Insight.type i <> critical) rest.
Proof.
  cbv zeta. rewrite generateFinancialInsights_classes.
  set (l := rule_order toFixed metrics spendingByCategory).
  pose proof (classes_permutation l) as Hperm.
  assert (Hin : forall i,
             In i (filter (has_priority high) l ++ filter (has_priority medium) l
                   ++ filter (has_priority low) l) -> In i l).
  { intros i Hi. apply (Permutation_in _ (Permutation_sym Hperm) Hi). }
  split; [|split].
  - rewrite <- (Permutation_length Hperm). apply rule_order_length.
  - intros i Hi. apply (rule_order_types toFixed metrics spendingByCategory).
    apply Hin, Hi.
  - exists (filter (has_priority high) l),
           (filter (has_priority medium) l ++ filter (has_priority low) l).
    split; [reflexivity|]. split; apply Forall_forall; intros i Hi.
    + pose proof (in_class _ _ _ Hi) as Hp.
      apply filter_In in Hi.
      apply (rule_order_types toFixed metrics spendingByCategory i); tauto.
    + intros Hc.
      assert (Hl : In i l).
      { apply in_app_or in Hi. destruct Hi as [Hi|Hi]; apply filter_In in Hi; tauto. }
      apply (rule_order_types toFixed metrics spendingByCategory i Hl) in Hc.
      apply in_app_or in Hi. destruct Hi as [Hi|Hi]; apply in_class in Hi; congruence.
Qed.

(* ===================================================================== *)
(** * The analysis route: nothing in the window *)
(* ===================================================================== *)

Lemma reduce_nil_filter (p : Transaction -> bool) (rows : list Transaction) :
  Forall (fun t => p t = false) rows -> filter p rows = [].
Proof.
  induction 1 as [|t rows Ht _ IH]; simpl; [reflexivity|]. rewrite Ht. exact IH.
Qed.

(** X16. The analysis of a user without income or expense rows in the
    metrics window (none at all, say): the metrics are all 0, the spending
    map is empty, and the insights are the two critical ones, a low savings
    rate and an insufficient emergency fund, whatever the savings balance
    and the profile. *)
Theorem financialAnalysis_empty_window
    (Date_parse : string -> option Z) (toFixed : Q -> Z -> string) (clock : Z)
    (profile : ProfileRow) (transactions : list Transaction)
    (savingsAccounts : option (list (option Q))) :
  (0 <= clock <= 8640000000000000)%Z ->
  Forall (fun t => counts Date_parse clock t = false) transactions ->
  exists answer,
    financialAnalysis Date_parse toFixed clock profile (Some transactions)
      savingsAccounts = Some answer
    /\ analysis_metrics answer = no_metrics
    /\ analysis_spendingByCategory answer = []
    /\ analysis_insights answer
       = [lowSavingsRate toFixed no_metrics; insufficientEmergencyFund toFixed no_metrics].
Proof.
  intros Hclock Hnone. unfold financialAnalysis.
  set (balance := match savingsAccounts with Some _ => _ | None => _ end).
  assert (Hrows : expenseTransactions Date_parse clock transactions = []).
  { unfold expenseTransactions. apply reduce_nil_filter.
    eapply Forall_impl; [|exact Hnone]. intros t Ht. cbv beta.
    fold (in_window Date_parse 1 clock t).
    destruct (in_window Date_parse 1 clock t) eqn:Hw; [|apply andb_false_r].
    apply (in_window_nested Date_parse clock t Hclock) in Hw.
    unfold counts, is_type in Ht. rewrite Hw in Ht. simpl in Ht.
    destruct (transaction_type t); simpl in *; congruence. }
  assert (Hmetrics : calculateFinancialMetrics Date_parse clock transactions
                       (Some balance) = no_metrics).
  { rewrite <- metrics_filter_counts.
    rewrite (reduce_nil_filter _ _ Hnone). reflexivity. }
  unfold analyzeSpendingByCategory. rewrite Hrows. cbn [forEach_accumulate].
  eexists. split; [reflexivity|]. cbn [analysis_metrics analysis_spendingByCategory
                                       analysis_insights].
  rewrite Hmetrics. split; [reflexivity|]. split; reflexivity.
Qed.

Lemma financialAnalysis_empty_window_witness :
  exists answer,
    financialAnalysis parseISODate toFixed_decimal 1706745600000
      {| row_annual_income := None; row_risk_tolerance := None;
         row_financial_goals := None |}
      (Some [tx 900 "salary" income "2023-06-01"]) (Some [Some 25000; None])
    = Some answer
    /\ map Insight.title (analysis_insights answer)
       = ["Low Savings Rate"; "Insufficient Emergency Fund"]%string.
Proof.
  destruct (financialAnalysis_empty_window parseISODate toFixed_decimal 1706745600000
      {| row_annual_income := None; row_risk_tolerance := None;
         row_financial_goals := None |}
      [tx 900 "salary" income "2023-06-01"] (Some [Some 25000; None])
      ltac:(lia) ltac:(repeat constructor))
    as (answer & Ha & _ & _ & Hi).
  exists answer. split; [exact Ha|]. rewrite Hi. reflexivity.
Defined.

(* ===================================================================== *)
(** * Allocations: further properties *)
(* ===================================================================== *)

Section GoalAllocationInDoubles.

Import PrimFloat.
Local Open Scope float_scope.

Lemma riskMultiplier_unknown (riskTolerance : string) :
  ~ known_risk riskTolerance -> Double.riskMultiplier riskTolerance = nan.
Proof.
  unfold Double.riskMultiplier, known_risk. intros H.
  destruct (String.eqb riskTolerance "conservative") eqn:E1;
    [apply String.eqb_eq in E1; tauto|].
  destruct (String.eqb riskTolerance "moderate") eqn:E2;
    [apply String.eqb_eq in E2; tauto|].
  destruct (String.eqb riskTolerance "aggressive") eqn:E3;
    [apply String.eqb_eq in E3; tauto|].
  reflexivity.
Qed.

(** X17. The goal-based allocation as the source computes it, in doubles.
    For a risk tolerance other than the three known ones all five
    percentages are NaN.  Otherwise they are all positive, and added up in
    the order of the fields they give 100 or, the division by the total
    being rounded, 99.99999999999999. *)
Theorem calculateGoalBasedAllocation_normalised
    (timeHorizon : float) (riskTolerance goalType : string) :
  let a := Double.calculateGoalBasedAllocation timeHorizon riskTolerance goalType in
  (~ known_risk riskTolerance ->
   a = {| Double.stocks := nan; Double.bonds := nan; Double.realEstate := nan;
          Double.commodities := nan; Double.cash := nan |})
  /\ (known_risk riskTolerance ->
      (0 <? Double.stocks a) = true /\ (0 <? Double.bonds a) = true
      /\ (0 <? Double.realEstate a) = true /\ (0 <? Double.commodities a) = true
      /\ (0 <? Double.cash a) = true
      /\ (Double.allocation_sum a = 100
          \/ Double.allocation_sum a = 99.999999999999986)).
Proof.
  cbv zeta. split.
  - intros H. unfold Double.calculateGoalBasedAllocation.
    rewrite (riskMultiplier_unknown _ H).
    destruct (timeHorizon <? 3); [|destruct (timeHorizon <? 10)];
      vm_compute; reflexivity.
  - intros [-> | [-> | ->]]; unfold Double.calculateGoalBasedAllocation;
      (destruct (timeHorizon <? 3); [|destruct (timeHorizon <? 10)]);
      vm_compute; repeat split;
      first [left; reflexivity | right; reflexivity].
Qed.

(** Fifteen years and a conservative investor: 65.17 percent stocks, and a
    total one unit in the last place short of 100. *)
Lemma calculateGoalBasedAllocation_normalised_witness :
  Double.allocation_sum
    (Double.calculateGoalBasedAllocation 15 "conservative" "retirement")
  = 100
  \/ Double.allocation_sum
       (Double.calculateGoalBasedAllocation 15 "conservative" "retirement")
     = 99.999999999999986.
Proof.
  apply (proj2 (calculateGoalBasedAllocation_normalised 15 "conservative" "retirement")).
  left. reflexivity.
Defined.

End GoalAllocationInDoubles.

(** X18. What the risk tolerance does to the goal-based stocks.  For a
    horizon of ten years or more the stock share grows from conservative to
    moderate to aggressive; for a horizon from three to ten years the
    tolerance changes nothing; for a horizon under three years the order is
    reversed, the aggressive share is the smallest. *)
Theorem calculateGoalBasedAllocation_risk_effect (timeHorizon : Q) (goalType : string) :
  exists c m a,
    calculateGoalBasedAllocation timeHorizon "conservative" goalType = Some c
    /\ calculateGoalBasedAllocation timeHorizon "moderate" goalType = Some m
    /\ calculateGoalBasedAllocation timeHorizon "aggressive" goalType = Some a
    /\ (10 <= timeHorizon -> stocks c < stocks m /\ stocks m < stocks a)
    /\ (3 <= timeHorizon -> timeHorizon < 10 ->
        same_allocation c m /\ same_allocation a m)
    /\ (timeHorizon < 3 -> stocks a < stocks m /\ stocks m < stocks c).
Proof.
  unfold calculateGoalBasedAllocation.
  destruct (Qlt_le_dec timeHorizon 3); [|destruct (Qlt_le_dec timeHorizon 10)];
    cbn [riskMultiplier String.eqb Ascii.eqb Bool.eqb];
    do 3 eexists; (split; [reflexivity|]); (split; [reflexivity|]);
    (split; [reflexivity|]);
    (split; [|split]); intros; try lra;
    unfold same_allocation; vm_compute; repeat split.
Qed.

Lemma calculateGoalBasedAllocation_risk_effect_witness :
  exists c a,
    calculateGoalBasedAllocation 2 "conservative" "car" = Some c
    /\ calculateGoalBasedAllocation 2 "aggressive" "car" = Some a
    /\ stocks a < stocks c.
Proof.
  destruct (calculateGoalBasedAllocation_risk_effect 2 "car")
    as (c & m & a & Hc & _ & Ha & _ & _ & H).
  exists c, a. split; [exact Hc|]. split; [exact Ha|].
  assert (H2 : 2 < 3) by reflexivity.
  destruct (H H2) as [H1 H3]. eapply Qlt_trans; eassumption.
Defined.

Lemma age_stocks_floor (age : Q) (riskTolerance : string) :
  20 <= stocks (calculateAgeBasedAllocation age riskTolerance).
Proof.
  unfold calculateAgeBasedAllocation; cbn.
  destruct (String.eqb riskTolerance "conservative");
    [|destruct (String.eqb riskTolerance "moderate");
      [|destruct (String.eqb riskTolerance "aggressive")]].
  - apply Q.le_max_r.
  - eapply Qle_trans; [|apply Q.le_max_r]. lra.
  - eapply Qle_trans; [|apply Q.le_max_r]. lra.
  - eapply Qle_trans; [|apply Q.le_max_r]. lra.
Qed.

(** The age-based allocation in terms of what remains after stocks and
    bonds. *)
Lemma age_allocation_shape (age : Q) (riskTolerance : string) :
  let a := calculateAgeBasedAllocation age riskTolerance in
  0 <= remaining a /\ remaining a <= 20
  /\ bonds a <= 60
  /\ realEstate a == remaining a * 0.6
  /\ commodities a == remaining a * 0.3
  /\ cash a == 5
  /\ allocation_sum a == 105 - remaining a * 0.1.
Proof.
  cbv zeta. pose proof (age_stocks_floor age riskTolerance) as Hs.
  unfold remaining, allocation_sum.
  unfold calculateAgeBasedAllocation in *; cbn in *.
  set (s := if String.eqb riskTolerance "conservative" then _ else _) in *.
  clearbody s.
  destruct (Q.min_spec (100 - s) 60) as [[H1 E1]|[H1 E1]];
    set (b := Qmin (100 - s) 60) in *; clearbody b;
    destruct (Q.min_spec ((100 - s - b) * 0.6) 15) as [[H2 E2]|[H2 E2]];
    set (r := Qmin ((100 - s - b) * 0.6) 15) in *; clearbody r;
    destruct (Q.min_spec ((100 - s - b) * 0.3) 10) as [[H3 E3]|[H3 E3]];
    set (c := Qmin ((100 - s - b) * 0.3) 10) in *; clearbody c;
    destruct (Q.max_spec ((100 - s - b) * 0.1) 5) as [[H4 E4]|[H4 E4]];
    set (k := Qmax ((100 - s - b) * 0.1) 5) in *; clearbody k;
    repeat split; lra.
Qed.

Section AgeAllocationInDoubles.

Import PrimFloat.

(** The same in doubles, for the whole ages up to 120. *)
Lemma age_allocation_shape_doubles (riskTolerance : string) (n : nat) :
  (n <= 120)%nat ->
  let d := Double.calculateAgeBasedAllocation (Double.of_nat n) riskTolerance in
  Double.cash d = 5%float
  /\ (Double.realEstate d <? 15)%float = true
  /\ (Double.commodities d <? 10)%float = true
  /\ (103 <=? Double.allocation_sum d)%float = true
  /\ (Double.allocation_sum d <=? 105)%float = true.
Proof.
  intros Hn. unfold Double.calculateAgeBasedAllocation.
  destruct (String.eqb riskTolerance "conservative");
    [|destruct (String.eqb riskTolerance "moderate");
      [|destruct (String.eqb riskTolerance "aggressive")]];
    pattern n; apply (all_below_spec _ 121); try lia;
    vm_compute; repeat split.
Qed.

(** X19. In every age-based allocation at most 20 percent remain after
    stocks and bonds, so the caps of real estate (15) and commodities (10)
    are never reached and cash is always its floor, 5: real estate is 0.6
    and commodities 0.3 of the remainder, and the five percentages add up
    to something between 103 and 105, never to 100.  So it is in exact
    arithmetic for every age, and in the source's doubles for every whole
    age up to 120. *)
Theorem calculateAgeBasedAllocation_shape (age : Q) (riskTolerance : string) :
  let a := calculateAgeBasedAllocation age riskTolerance in
  (0 <= remaining a /\ remaining a <= 20
   /\ realEstate a == remaining a * 0.6
   /\ commodities a == remaining a * 0.3
   /\ cash a == 5
   /\ 103 <= allocation_sum a /\ allocation_sum a <= 105)
  /\ (forall n : nat, (n <= 120)%nat ->
      let d := Double.calculateAgeBasedAllocation (Double.of_nat n) riskTolerance in
      Double.cash d = 5%float
      /\ (Double.realEstate d <? 15)%float = true
      /\ (Double.commodities d <? 10)%float = true
      /\ (103 <=? Double.allocation_sum d)%float = true
      /\ (Double.allocation_sum d <=? 105)%float = true).
Proof.
  cbv zeta. split.
  - destruct (age_allocation_shape age riskTolerance)
      as (H0 & H20 & _ & Hr & Hc & Hk & Hsum).
    cbv zeta in *. repeat split; try assumption; rewrite Hsum; lra.
  - intros n Hn. apply (age_allocation_shape_doubles riskTolerance n Hn).
Qed.

(** A conservative investor of 61: 39, 60, 0.6, 0.3 and 5 percent. *)
Lemma calculateAgeBasedAllocation_shape_witness :
  Double.cash (Double.calculateAgeBasedAllocation (Double.of_nat 61) "conservative")
  = 5%float
  /\ (Double.allocation_sum
        (Double.calculateAgeBasedAllocation (Double.of_nat 61) "conservative")
      <=? 105)%float = true.
Proof.
  destruct (proj2 (calculateAgeBasedAllocation_shape 61 "conservative") 61%nat
              ltac:(lia)) as (Hk & _ & _ & _ & Hs).
  split; [exact Hk | exact Hs].
Defined.

End AgeAllocationInDoubles.

(** X20. The age-based stock share never rises with age and never falls
    below the floor of the risk tolerance (20, 30, 40); a risk tolerance
    other than the three known ones is treated as moderate. *)
Theorem calculateAgeBasedAllocation_stocks (age age' : Q) (riskTolerance : string) :
  (age <= age' ->
   stocks (calculateAgeBasedAllocation age' riskTolerance)
   <= stocks (calculateAgeBasedAllocation age riskTolerance))
  /\ 20 <= stocks (calculateAgeBasedAllocation age "conservative")
  /\ 30 <= stocks (calculateAgeBasedAllocation age "moderate")
  /\ 40 <= stocks (calculateAgeBasedAllocation age "aggressive")
  /\ (~ known_risk riskTolerance ->
      calculateAgeBasedAllocation age riskTolerance
      = calculateAgeBasedAllocation age "moderate").
Proof.
  split; [|split; [|split; [|split]]].
  - intros Hle. unfold calculateAgeBasedAllocation; cbn.
    destruct (String.eqb riskTolerance "conservative");
      [|destruct (String.eqb riskTolerance "moderate");
        [|destruct (String.eqb riskTolerance "aggressive")]];
      apply Q.max_le_compat_r; lra.
  - apply Q.le_max_r.
  - apply Q.le_max_r.
  - apply Q.le_max_r.
  - intros Hk. unfold known_risk in Hk. unfold calculateAgeBasedAllocation.
    destruct (String.eqb riskTolerance "conservative") eqn:E1;
      [apply String.eqb_eq in E1; tauto|].
    destruct (String.eqb riskTolerance "moderate") eqn:E2;
      [apply String.eqb_eq in E2; tauto|].
    destruct (String.eqb riskTolerance "aggressive") eqn:E3;
      [apply String.eqb_eq in E3; tauto|].
    reflexivity.
Qed.

Lemma calculateAgeBasedAllocation_stocks_witness :
  stocks (calculateAgeBasedAllocation 60 "moderate")
  <= stocks (calculateAgeBasedAllocation 30 "moderate").
Proof.
  apply (proj1 (calculateAgeBasedAllocation_stocks 30 60 "moderate")).
  vm_compute. discriminate.
Defined.

Lemma Math_round_bounds (x : Q) : x - (1 # 2) < Math_round x /\ Math_round x <= x + (1 # 2).
Proof.
  unfold Math_round. pose proof (Qfloor_le (x + (1 # 2))) as Hle.
  pose proof (Qlt_floor (x + (1 # 2))) as Hlt.
  rewrite inject_Z_plus in Hlt. change (inject_Z 1) with 1 in Hlt. split; lra.
Qed.

(** X21. A recommendation is made for every profile.  Its five
    percentages are integers that add up to an integer between 99 and 104,
    not to 100 in general: the age-based part brings in more than its
    share and each component is rounded on its own. *)
Theorem generateInvestmentRecommendation_total (profile : InvestmentProfile) :
  exists recommendation (total : Z),
    generateInvestmentRecommendation profile = Some recommendation
    /\ allocation_sum (allocation recommendation) == inject_Z total
    /\ (99 <= total <= 104)%Z.
Proof.
  destruct (generateInvestmentRecommendation_blend profile)
    as (g & r & Hg & Hr & Ha).
  exists r.
  pose proof (goal_allocation_sum _ _ _ _ Hg) as Hg100.
  destruct (age_allocation_shape (currentAge profile)
              (RiskTolerance_string (riskTolerance profile)))
    as (H0 & H20 & _ & _ & _ & _ & Hsum).
  cbv zeta in *.
  set (a := calculateAgeBasedAllocation _ _) in *.
  rewrite Ha. unfold blendAllocation, allocation_sum in *; cbn.
  pose proof (Math_round_bounds (stocks g * 0.6 + stocks a * 0.4)) as B1.
  pose proof (Math_round_bounds (bonds g * 0.6 + bonds a * 0.4)) as B2.
  pose proof (Math_round_bounds (realEstate g * 0.6 + realEstate a * 0.4)) as B3.
  pose proof (Math_round_bounds (commodities g * 0.6 + commodities a * 0.4)) as B4.
  pose proof (Math_round_bounds (cash g * 0.6 + cash a * 0.4)) as B5.
  unfold Math_round in *.
  set (n1 := Qfloor _) in *. set (n2 := Qfloor (bonds g * 0.6 + _ + _)) in *.
  set (n3 := Qfloor (realEstate g * 0.6 + _ + _)) in *.
  set (n4 := Qfloor (commodities g * 0.6 + _ + _)) in *.
  set (n5 := Qfloor (cash g * 0.6 + _ + _)) in *.
  exists (n1 + n2 + n3 + n4 + n5)%Z.
  split; [exact Hr|]. split; [rewrite !inject_Z_plus; reflexivity|].
  assert (Hq : 98 < inject_Z (n1 + n2 + n3 + n4 + n5)
               /\ inject_Z (n1 + n2 + n3 + n4 + n5) < 105).
  { rewrite !inject_Z_plus. unfold remaining in *. split; lra. }
  clearbody n1 n2 n3 n4 n5. destruct Hq as [Hlo Hhi].
  unfold Qlt, inject_Z in Hlo, Hhi; simpl in Hlo, Hhi. lia.
Qed.

(* ===================================================================== *)
(** * Portfolio: further properties *)
(* ===================================================================== *)

Lemma add_holding_gain (investments : list Holding) (acc : Totals) :
  Forall (fun h => current_price h == purchase_price h) investments ->
  value_so_far acc == cost_so_far acc ->
  value_so_far (fold_left add_holding investments acc)
  == cost_so_far (fold_left add_holding investments acc).
Proof.
  intros H. revert acc. induction H as [|h l Hh _ IH]; intros acc Hacc; simpl.
  - exact Hacc.
  - apply IH. unfold add_holding; simpl. rewrite Hacc, Hh. reflexivity.
Qed.

(** X22. A portfolio whose holdings all stand at their purchase price (as
    the portfolio route stores a new holding) shows no gain: the total gain
    and its percentage are 0. *)
Theorem portfolio_at_purchase_price (investments : list Holding) :
  Forall (fun h => current_price h == purchase_price h) investments ->
  let p := calculatePortfolioPerformance investments in
  totalGain p == 0 /\ totalGainPercentage p == 0.
Proof.
  intros H. cbv zeta.
  unfold calculatePortfolioPerformance; cbn [totalGain totalGainPercentage].
  set (acc := fold_left add_holding investments _).
  assert (E : value_so_far acc == cost_so_far acc).
  { apply add_holding_gain; [exact H | reflexivity]. }
  split; [rewrite E; ring|].
  destruct (Qlt_le_dec 0 (cost_so_far acc)); [|reflexivity].
  rewrite E. field. lra.
Qed.

Lemma portfolio_at_purchase_price_witness :
  totalGain
    (calculatePortfolioPerformance
       [ {| symbol := "VTI"; shares := 10; purchase_price := 5; current_price := 5 |} ])
  == 0.
Proof.
  apply (portfolio_at_purchase_price
    [ {| symbol := "VTI"; shares := 10; purchase_price := 5; current_price := 5 |} ]).
  repeat constructor.
Defined.

(** X23. The diversification score is ten times the number of distinct
    symbols, capped at 100: it lies between 0 and 100, is 100 exactly from
    ten distinct symbols on, and a further holding of a symbol already held
    leaves it as it is. *)
Theorem diversificationScore_distinct (investments : list Holding) (h : Holding) :
  let score l := diversificationScore (calculatePortfolioPerformance l) in
  score investments == Qmin (10 * inject_Z (distinct_symbols investments)) 100
  /\ 0 <= score investments /\ score investments <= 100
  /\ (score investments == 100 <-> (10 <= distinct_symbols investments)%Z)
  /\ (In (symbol h) (map symbol investments) ->
      score (h :: investments) = score investments).
Proof.
  cbv zeta. unfold calculatePortfolioPerformance; cbn [diversificationScore].
  fold (distinct_symbols investments). fold (distinct_symbols (h :: investments)).
  assert (Hn : (0 <= distinct_symbols investments)%Z) by (unfold distinct_symbols; lia).
  set (n := distinct_symbols investments) in *.
  assert (E : inject_Z n / 10 * 100 == 10 * inject_Z n) by (field; lra).
  assert (Hq : 0 <= inject_Z n).
  { unfold Qle; cbn [Qnum Qden inject_Z]. lia. }
  assert (Hten : 100 <= 10 * inject_Z n <-> (10 <= n)%Z).
  { unfold Qle; cbn [Qnum Qden Qmult inject_Z]. lia. }
  split; [|split; [|split; [|split]]].
  - rewrite E. reflexivity.
  - rewrite E. apply Q.min_glb; lra.
  - apply Q.le_min_r.
  - rewrite E. split; intros H.
    + apply Hten. destruct (Q.min_spec (10 * inject_Z n) 100) as [[H1 E1]|[H1 E1]]; lra.
    + apply Q.min_r. apply Hten. exact H.
  - intros Hin. unfold n, distinct_symbols. cbn [map nodup].
    destruct (in_dec string_dec (symbol h) (map symbol investments)) as [_|Hn'];
      [reflexivity | contradiction].
Qed.

Lemma diversificationScore_distinct_witness :
  diversificationScore
    (calculatePortfolioPerformance
       [ {| symbol := "VTI"; shares := 1; purchase_price := 5; current_price := 7 |};
         {| symbol := "VTI"; shares := 2; purchase_price := 6; current_price := 7 |} ])
  = diversificationScore
      (calculatePortfolioPerformance
         [ {| symbol := "VTI"; shares := 2; purchase_price := 6; current_price := 7 |} ]).
Proof.
  apply (proj2 (proj2 (proj2 (proj2 (diversificationScore_distinct
    [ {| symbol := "VTI"; shares := 2; purchase_price := 6; current_price := 7 |} ]
    {| symbol := "VTI"; shares := 1; purchase_price := 5; current_price := 7 |}))))).
  left. reflexivity.
Defined.

(* ===================================================================== *)
(** * Goals: the contribution and the projection *)
(* ===================================================================== *)

Lemma Qpower_succ (a : Q) (n : nat) :
  Qpower a (Z.of_nat (S n)) == a * Qpower a (Z.of_nat n).
Proof.
  rewrite Nat2Z.inj_succ. unfold Z.succ.
  rewrite Qpower_plus' by lia. rewrite Qpower_1_r. ring.
Qed.

Lemma amount_after_closed (currentAmount monthlyContribution expectedReturn : Q)
    (n : nat) :
  amount_after currentAmount monthlyContribution expectedReturn n
  == currentAmount * Qpower (1 + expectedReturn / 12) (Z.of_nat n)
     + monthlyContribution * geometric (expectedReturn / 12) n.
Proof.
  unfold amount_after.
  set (f := fun amount : Q => amount * (1 + expectedReturn / 12) + monthlyContribution).
  induction n as [|n IH].
  - simpl. ring.
  - rewrite Nat.iter_succ, Qpower_succ. cbn [geometric]. unfold f at 1.
    rewrite IH. ring.
Qed.

Lemma geometric_factor (r : Q) (n : nat) :
  r * geometric r n == Qpower (1 + r) (Z.of_nat n) - 1.
Proof.
  induction n as [|n IH].
  - simpl. ring.
  - rewrite Qpower_succ. cbn [geometric].
    setoid_replace (r * (1 + (1 + r) * geometric r n))
      with (r + (1 + r) * (r * geometric r n)) by ring.
    rewrite IH. ring.
Qed.

Lemma geometric_ge_one (r : Q) (n : nat) : 0 <= r -> (0 < n)%nat -> 1 <= geometric r n.
Proof.
  intros Hr Hn. destruct n as [|n]; [lia|]. cbn [geometric].
  assert (H : 0 <= geometric r n).
  { clear Hn. induction n as [|n IH]; cbn [geometric]; [lra|].
    assert (0 <= (1 + r) * geometric r n) by (apply Qmult_le_0_compat; lra). lra. }
  assert (0 <= (1 + r) * geometric r n) by (apply Qmult_le_0_compat; lra). lra.
Qed.

Lemma geometric_no_return (r : Q) (n : nat) :
  r == 0 -> geometric r n == inject_Z (Z.of_nat n).
Proof.
  intros Hr. induction n as [|n IH]; [reflexivity|].
  cbn [geometric]. rewrite IH, Hr, Nat2Z.inj_succ. unfold Z.succ.
  rewrite inject_Z_plus. change (inject_Z 1) with 1. ring.
Qed.

Lemma Math_pow_whole (base exponent : Q) (n : nat) :
  exponent == inject_Z (Z.of_nat n) ->
  Math_pow base exponent = Some (Qpower base (Z.of_nat n)).
Proof.
  intros He. unfold Math_pow.
  assert (Hf : Qfloor exponent = Z.of_nat n) by (rewrite He; apply Qfloor_Z).
  rewrite Hf.
  assert (E1 : Qeq_bool (inject_Z (Z.of_nat n)) exponent = true)
    by (apply Qeq_bool_iff; symmetry; exact He).
  rewrite E1.
  assert (E2 : (Z.of_nat n <? 0)%Z = false) by (apply Z.ltb_ge; lia).
  rewrite E2, andb_false_r. reflexivity.
Qed.

(** The contribution for a whole number of months and a return that is
    not negative: the gap over the annuity factor. *)
Lemma contribution_whole_months
    (currentAmount targetAmount yearsToGoal expectedReturn : Q) (n : nat) :
  0 <= expectedReturn -> (0 < n)%nat ->
  yearsToGoal * 12 == inject_Z (Z.of_nat n) ->
  currentAmount * Qpower (1 + expectedReturn / 12) (Z.of_nat n) < targetAmount ->
  exists payment,
    calculateMonthlyContributionNeeded currentAmount targetAmount yearsToGoal
      expectedReturn = Some (Finite payment)
    /\ payment
       == (targetAmount
           - currentAmount * Qpower (1 + expectedReturn / 12) (Z.of_nat n))
          / geometric (expectedReturn / 12) n.
Proof.
  intros Hret Hn Hmonths Hgap.
  set (r := expectedReturn / 12) in *.
  assert (Hr : 0 <= r) by (unfold r; apply Qle_shift_div_l; lra).
  set (G := Qpower (1 + r) (Z.of_nat n)) in *.
  pose proof (geometric_ge_one r n Hr Hn) as HS.
  pose proof (geometric_factor r n) as HF. fold G in HF.
  set (Sn := geometric r n) in *.
  assert (Hnq : 1 <= inject_Z (Z.of_nat n)).
  { unfold Qle; cbn [Qnum Qden inject_Z]. lia. }
  unfold calculateMonthlyContributionNeeded, annuityFactor. fold r.
  assert (E0 : Qle_bool yearsToGoal 0 = false).
  { destruct (Qle_bool yearsToGoal 0) eqn:E; [|reflexivity].
    apply Qle_bool_iff in E. lra. }
  rewrite E0, (Math_pow_whole _ _ n Hmonths). fold G.
  assert (E1 : Qle_bool (targetAmount - currentAmount * G) 0 = false).
  { destruct (Qle_bool (targetAmount - currentAmount * G) 0) eqn:E; [|reflexivity].
    apply Qle_bool_iff in E. lra. }
  rewrite E1. cbv beta iota zeta. unfold divide at 1.
  destruct (Qeq_bool r 0) eqn:Er.
  - apply Qeq_bool_iff in Er.
    assert (HG : G - 1 == 0) by (rewrite <- HF, Er; ring).
    assert (E2 : Qeq_bool (G - 1) 0 = true) by (apply Qeq_bool_iff; exact HG).
    rewrite E2. cbn [or_else divide_by]. unfold divide.
    assert (E3 : Qeq_bool (yearsToGoal * 12) 0 = false).
    { destruct (Qeq_bool (yearsToGoal * 12) 0) eqn:E; [|reflexivity].
      apply Qeq_bool_iff in E. lra. }
    rewrite E3. cbn [max_with]. eexists. split; [reflexivity|].
    assert (HSn : Sn == yearsToGoal * 12).
    { unfold Sn. rewrite (geometric_no_return r n Er). symmetry. exact Hmonths. }
    rewrite Q.max_l.
    + rewrite HSn. reflexivity.
    + apply Qle_shift_div_l; lra.
  - apply Qeq_bool_neq in Er.
    assert (HSr : (G - 1) / r == Sn) by (rewrite <- HF; field; exact Er).
    cbn [or_else].
    assert (E2 : Qeq_bool ((G - 1) / r) 0 = false).
    { destruct (Qeq_bool ((G - 1) / r) 0) eqn:E; [|reflexivity].
      apply Qeq_bool_iff in E. lra. }
    rewrite E2. cbn [divide_by]. unfold divide. rewrite E2. cbn [max_with].
    eexists. split; [reflexivity|].
    rewrite Q.max_l.
    + rewrite HSr. reflexivity.
    + rewrite HSr. apply Qle_shift_div_l; lra.
Qed.

(** With a return and a start that are not negative and a positive
    contribution, the amount grows from month to month. *)
Lemma amount_after_grows
    (currentAmount monthlyContribution expectedReturn : Q) (j k : nat) :
  0 <= expectedReturn -> 0 <= currentAmount -> 0 < monthlyContribution ->
  (j < k)%nat ->
  amount_after currentAmount monthlyContribution expectedReturn j
  < amount_after currentAmount monthlyContribution expectedReturn k.
Proof.
  intros Hret Hcur Hpay.
  assert (Hr : 0 <= expectedReturn / 12) by (apply Qle_shift_div_l; lra).
  set (a := amount_after currentAmount monthlyContribution expectedReturn).
  assert (Hstep : forall i, 0 <= a i /\ a i < a (S i)).
  { intros i. unfold a, amount_after. induction i as [|i [IH0 IH1]].
    - simpl. split; [exact Hcur|].
      assert (0 <= currentAmount * (expectedReturn / 12))
        by (apply Qmult_le_0_compat; assumption).
      lra.
    - rewrite !Nat.iter_succ in *.
      set (x := Nat.iter i _ currentAmount) in *.
      assert (H0 : 0 <= x * (expectedReturn / 12))
        by (apply Qmult_le_0_compat; assumption).
      assert (Hx1 : 0 <= x * (1 + expectedReturn / 12) + monthlyContribution) by lra.
      split; [exact Hx1|].
      set (y := x * (1 + expectedReturn / 12) + monthlyContribution) in *.
      assert (0 <= y * (expectedReturn / 12))
        by (apply Qmult_le_0_compat; assumption).
      lra. }
  intros Hjk. induction Hjk as [|k Hjk IH].
  - apply Hstep.
  - eapply Qlt_trans; [exact IH | apply Hstep].
Qed.

Section ContributionAndProjection.

Import PrimFloat.

(** X24. The contribution and the projection agree, in exact arithmetic.
    For a whole number of months below the cap of 600, a return and a
    current amount that are not negative and a target the current amount
    does not reach by itself, the contribution that
    [calculateMonthlyContributionNeeded] returns is positive, and
    [projectInvestmentGoal] with that contribution is on track, reaches
    the target exactly, and takes the years the contribution was computed
    for.  In the source's doubles the last month can be missed: twelve
    contributions of 100/12 stay below 100, and the projection takes 13
    months. *)
Theorem contribution_reaches_target :
  (forall (currentAmount targetAmount yearsToGoal expectedReturn : Q) (n : nat),
      0 <= expectedReturn -> 0 <= currentAmount -> (0 < n < 600)%nat ->
      yearsToGoal * 12 == inject_Z (Z.of_nat n) ->
      currentAmount * Qpower (1 + expectedReturn / 12) (Z.of_nat n) < targetAmount ->
      exists payment,
        calculateMonthlyContributionNeeded currentAmount targetAmount yearsToGoal
          expectedReturn = Some (Finite payment)
        /\ 0 < payment
        /\ projectedAmount
             (projectInvestmentGoal currentAmount payment expectedReturn targetAmount)
           == targetAmount
        /\ yearsToTarget
             (projectInvestmentGoal currentAmount payment expectedReturn targetAmount)
           == yearsToGoal
        /\ onTrack
             (projectInvestmentGoal currentAmount payment expectedReturn targetAmount)
           = true)
  /\ Double.projectInvestmentGoal 0%float (100 / 12)%float 0%float 100%float
     = {| Double.projectedAmount := 108.33333333333331%float;
          Double.yearsToTarget := (13 / 12)%float;
          Double.onTrack := true |}.
Proof.
  split; [|vm_compute; reflexivity].
  intros currentAmount targetAmount yearsToGoal expectedReturn n
    Hret Hcur Hn Hmonths Hgap.
  destruct (contribution_whole_months _ _ _ _ n Hret ltac:(lia) Hmonths Hgap)
    as (payment & Hcalc & Hp).
  assert (Hr : 0 <= expectedReturn / 12) by (apply Qle_shift_div_l; lra).
  pose proof (geometric_ge_one (expectedReturn / 12) n Hr ltac:(lia)) as HS.
  assert (Hpos : 0 < payment) by (rewrite Hp; apply Qlt_shift_div_l; lra).
  assert (Hreach : amount_after currentAmount payment expectedReturn n == targetAmount)
    by (rewrite amount_after_closed, Hp; field; lra).
  exists payment. split; [exact Hcalc|]. split; [exact Hpos|].
  unfold projectInvestmentGoal.
  destruct (simulate_iterations (expectedReturn / 12) payment targetAmount
              currentAmount 0 ltac:(unfold maxMonths; lia))
    as (more & Hsim & Hcap & Hguard & Hstop).
  rewrite Hsim. cbn [projectedAmount yearsToTarget onTrack].
  rewrite Z.add_0_l in *. unfold maxMonths in *.
  fold (amount_after currentAmount payment expectedReturn more) in *.
  assert (Hmore : more = n).
  { destruct (Nat.lt_trichotomy more n) as [Hlt|[Heq|Hgt]]; [|exact Heq|].
    - exfalso.
      pose proof (amount_after_grows currentAmount payment expectedReturn more n
                    Hret Hcur Hpos Hlt) as Hg.
      specialize (Hstop ltac:(lia)). lra.
    - exfalso. specialize (Hguard n Hgt).
      fold (amount_after currentAmount payment expectedReturn n) in Hguard. lra. }
  subst more. split; [exact Hreach|]. split.
  - rewrite <- Hmonths. field.
  - apply Z.ltb_lt. lia.
Qed.

(** 10000 more in two years at 6 percent, from 2000. *)
Lemma contribution_reaches_target_witness :
  exists payment,
    calculateMonthlyContributionNeeded 2000 12000 2 0.06 = Some (Finite payment)
    /\ yearsToTarget (projectInvestmentGoal 2000 payment 0.06 12000) == 2.
Proof.
  destruct (proj1 contribution_reaches_target 2000 12000 2 0.06 24%nat)
    as (payment & Hcalc & _ & _ & Hyears & _).
  - vm_compute. discriminate.
  - vm_compute. discriminate.
  - lia.
  - reflexivity.
  - vm_compute. reflexivity.
  - exists payment. split; assumption.
Defined.

End ContributionAndProjection.

(** What the contribution is, once it is known to be some number. *)
Lemma contribution_sign_of_result
    (currentAmount targetAmount yearsToGoal expectedReturn : Q) (result : number) :
  calculateMonthlyContributionNeeded currentAmount targetAmount yearsToGoal
    expectedReturn = Some result ->
  (0 < yearsToGoal -> exists payment, result = Finite payment /\ 0 <= payment)
  /\ (yearsToGoal <= 0 -> result = Finite (targetAmount - currentAmount)).
Proof.
  unfold calculateMonthlyContributionNeeded, annuityFactor.
  destruct (Qle_bool yearsToGoal 0) eqn:E0.
  - apply Qle_bool_iff in E0. intros [= <-]. split; [intros; lra | reflexivity].
  - assert (Hy : 0 < yearsToGoal).
    { destruct (Qlt_le_dec 0 yearsToGoal) as [H|H]; [exact H|].
      apply Qle_bool_iff in H. congruence. }
    destruct (Math_pow _ _) as [growth|]; [|discriminate].
    destruct (Qle_bool (targetAmount - _) 0) eqn:E1.
    + intros [= <-]. split; [|intros; lra]. intros _. exists 0. split; [reflexivity | lra].
    + intros [= <-]. split; [|intros; lra]. intros _.
      set (needed := targetAmount - currentAmount * growth).
      set (e := yearsToGoal * 12).
      assert (He : ~ e == 0) by (unfold e; lra).
      assert (Hdiv : forall d, ~ d == 0 ->
                exists q, max_with (divide needed d) 0 = Finite q /\ 0 <= q).
      { intros d Hd. unfold divide.
        destruct (Qeq_bool d 0) eqn:Ed;
          [apply Qeq_bool_iff in Ed; contradiction|].
        eexists. split; [reflexivity | apply Q.le_max_r]. }
      assert (Hzero : exists q, max_with (Finite 0) 0 = Finite q /\ 0 <= q).
      { eexists. split; [reflexivity | apply Q.le_max_r]. }
      unfold divide at 1.
      destruct (Qeq_bool (expectedReturn / 12) 0).
      * destruct (Qeq_bool (growth - 1) 0); cbn [or_else divide_by].
        -- apply Hdiv, He.
        -- exact Hzero.
      * cbn [or_else].
        destruct (Qeq_bool ((growth - 1) / (expectedReturn / 12)) 0) eqn:Ef;
          cbn [divide_by].
        -- apply Hdiv, He.
        -- apply Hdiv. apply Qeq_bool_neq. exact Ef.
Qed.

(** For a whole number of months the contribution is some number. *)
Lemma contribution_defined
    (currentAmount targetAmount yearsToGoal expectedReturn : Q) (n : nat) :
  yearsToGoal * 12 == inject_Z (Z.of_nat n) ->
  exists result,
    calculateMonthlyContributionNeeded currentAmount targetAmount yearsToGoal
      expectedReturn = Some result.
Proof.
  intros Hmonths. unfold calculateMonthlyContributionNeeded, annuityFactor.
  destruct (Qle_bool yearsToGoal 0); [eexists; reflexivity|].
  rewrite (Math_pow_whole _ _ n Hmonths).
  destruct (Qle_bool _ 0); eexists; reflexivity.
Qed.

(** X25. With no time left the contribution is the gap itself, which is
    negative when the target is already exceeded.  With the goal a whole
    number of months ahead, up to 1200, a yearly return between 0 and 1
    and amounts up to 10^15 in size, the contribution is a number that is
    not negative, never NaN or infinite. *)
Theorem contribution_sign
    (currentAmount targetAmount yearsToGoal expectedReturn : Q) :
  (yearsToGoal <= 0 ->
   calculateMonthlyContributionNeeded currentAmount targetAmount yearsToGoal
     expectedReturn = Some (Finite (targetAmount - currentAmount)))
  /\ (forall n : nat,
        (0 < n <= 1200)%nat ->
        yearsToGoal * 12 == inject_Z (Z.of_nat n) ->
        0 <= expectedReturn <= 1 ->
        Qabs currentAmount <= 1000000000000000 ->
        Qabs targetAmount <= 1000000000000000 ->
        exists payment,
          calculateMonthlyContributionNeeded currentAmount targetAmount yearsToGoal
            expectedReturn = Some (Finite payment)
          /\ 0 <= payment).
Proof.
  split.
  - intros Hy. unfold calculateMonthlyContributionNeeded.
    assert (E : Qle_bool yearsToGoal 0 = true) by (apply Qle_bool_iff; exact Hy).
    rewrite E. reflexivity.
  - intros n Hn Hmonths _ _ _.
    destruct (contribution_defined currentAmount targetAmount yearsToGoal
                expectedReturn n Hmonths) as (result & Hcalc).
    destruct (contribution_sign_of_result _ _ _ _ _ Hcalc) as [Hpos _].
    assert (Hy : 0 < yearsToGoal).
    { assert (H1 : 1 <= inject_Z (Z.of_nat n))
        by (unfold Qle; cbn [Qnum Qden inject_Z]; lia).
      lra. }
    destruct (Hpos Hy) as (payment & -> & H0).
    exists payment. split; [exact Hcalc | exact H0].
Qed.

(** 12000 in a year from nothing, without return: 1000 a month; and
    savings of 5000 against a target of 3000 due now: minus 2000. *)
Lemma contribution_sign_witness :
  (exists payment,
      calculateMonthlyContributionNeeded 0 12000 1 0 = Some (Finite payment)
      /\ 0 <= payment)
  /\ calculateMonthlyContributionNeeded 5000 3000 0 0.05
     = Some (Finite (3000 - 5000)).
Proof.
  split.
  - apply (proj2 (contribution_sign 0 12000 1 0) 12%nat).
    + lia.
    + reflexivity.
    + split; vm_compute; discriminate.
    + vm_compute. discriminate.
    + vm_compute. discriminate.
  - apply (proj1 (contribution_sign 5000 3000 0 0.05)). vm_compute. discriminate.
Defined.

(** X26. The projection at its ends.  An amount already at the target
    takes no month and is on track; [yearsToTarget] lies between 0 and 50;
    a projection on track has reached the target, one that is not has run
    the fifty years; and without return or contribution an amount below
    the target is never on track. *)
Theorem projectInvestmentGoal_ends
    (currentAmount monthlyContribution expectedReturn targetAmount : Q) :
  let p :=
    projectInvestmentGoal currentAmount monthlyContribution expectedReturn targetAmount in
  (targetAmount <= currentAmount ->
   projectedAmount p = currentAmount /\ yearsToTarget p == 0 /\ onTrack p = true)
  /\ 0 <= yearsToTarget p /\ yearsToTarget p <= 50
  /\ (onTrack p = true -> targetAmount <= projectedAmount p)
  /\ (onTrack p = false -> yearsToTarget p == 50)
  /\ (expectedReturn == 0 -> monthlyContribution <= 0 ->
      currentAmount < targetAmount -> onTrack p = false).
Proof.
  cbv zeta. unfold projectInvestmentGoal.
  destruct (simulate_iterations (expectedReturn / 12) monthlyContribution
              targetAmount currentAmount 0 ltac:(unfold maxMonths; lia))
    as (months & Hsim & Hcap & Hguard & Hstop).
  rewrite Hsim. cbn [projectedAmount yearsToTarget onTrack].
  unfold maxMonths in *. rewrite Z.add_0_l in *.
  assert (Hq : 0 <= inject_Z (Z.of_nat months) /\ inject_Z (Z.of_nat months) <= 600).
  { unfold Qle; cbn [Qnum Qden inject_Z]. lia. }
  split; [|split; [|split; [|split; [|split]]]].
  - intros Hreached.
    assert (Hm : months = 0%nat).
    { destruct months as [|k]; [reflexivity|].
      specialize (Hguard 0%nat ltac:(lia)). simpl in Hguard. lra. }
    subst months. repeat split.
  - apply Qle_shift_div_l; lra.
  - apply Qle_shift_div_r; lra.
  - rewrite Z.ltb_lt. intros Hlt. apply Hstop. exact Hlt.
  - rewrite Z.ltb_ge. intros Hge.
    assert (Hm : Z.of_nat months = 600%Z) by lia. rewrite Hm. reflexivity.
  - intros Hret Hcontrib Hbelow. apply Z.ltb_ge.
    destruct (Z_lt_dec (Z.of_nat months) 600) as [Hlt|Hge]; [|lia].
    exfalso. specialize (Hstop Hlt).
    assert (Hnever : forall k,
               Nat.iter k (fun a => a * (1 + expectedReturn / 12) + monthlyContribution)
                 currentAmount <= currentAmount).
    { induction k as [|k IH]; [simpl; lra|]. rewrite Nat.iter_succ.
      set (x := Nat.iter k _ currentAmount) in *.
      assert (E : x * (1 + expectedReturn / 12) == x) by (rewrite Hret; field).
      rewrite E. lra. }
    specialize (Hnever months). lra.
Qed.

Lemma projectInvestmentGoal_ends_witness :
  onTrack (projectInvestmentGoal 100 0 0 5000) = false.
Proof.
  apply (proj2 (proj2 (proj2 (proj2 (proj2
    (projectInvestmentGoal_ends 100 0 0 5000)))))).
  - reflexivity.
  - vm_compute. discriminate.
  - reflexivity.
Defined.

(* ===================================================================== *)
(** * Risk assessment: proofs *)
(* ===================================================================== *)

Section RiskAssessment.

Lemma Q2R_square_term (x c : Q) :
  Q2R (square (x / 100 * c)) = ((Q2R x / 100 * Q2R c) ^ 2)%R.
Proof.
  unfold square. rewrite !Q2R_mult. unfold Qdiv. rewrite !Q2R_mult.
  replace (Q2R (/ 100)) with (/ 100)%R by (unfold Q2R; cbn; Lra.lra).
  unfold Rdiv. ring.
Qed.

Lemma variance_real (a : AssetAllocation) :
  Q2R (variance a)
  = ((Q2R (stocks a) / 100 * Q2R 0.16) ^ 2
     + (Q2R (bonds a) / 100 * Q2R 0.04) ^ 2
     + (Q2R (realEstate a) / 100 * Q2R 0.12) ^ 2
     + (Q2R (commodities a) / 100 * Q2R 0.2) ^ 2
     + (Q2R (cash a) / 100 * Q2R 0.01) ^ 2)%R.
Proof.
  unfold variance. rewrite !Q2R_plus, !Q2R_square_term. reflexivity.
Qed.

Lemma variance_real_nonneg (a : AssetAllocation) : (0 <= Q2R (variance a))%R.
Proof.
  rewrite variance_real.
  repeat apply Rplus_le_le_0_compat; apply pow2_ge_0.
Qed.

Lemma sqrt_below (v c : R) :
  (0 <= v)%R -> (0 < c)%R -> (sqrt v * 500 < c * 500 <-> v < c * c)%R.
Proof.
  intros Hv Hc. pose proof (sqrt_pos v) as Hp. pose proof (sqrt_sqrt v Hv) as Hs.
  split; intros H.
  - rewrite <- Hs. apply Rmult_le_0_lt_compat; Lra.lra.
  - destruct (Rlt_dec (sqrt v) c) as [Hlt|Hge]; [Lra.lra|]. exfalso.
    assert (c * c <= sqrt v * sqrt v)%R by (apply Rmult_le_compat; Lra.lra).
    Lra.lra.
Qed.

Lemma assessPortfolioRisk_classified (a : AssetAllocation) :
  Risk.riskLevel (assessPortfolioRisk a) = riskLevel_of_variance (variance a)
  /\ (0 <= Risk.riskScore (assessPortfolioRisk a) <= 100)%R
  /\ (0 <= Risk.volatility (assessPortfolioRisk a))%R
  /\ (Risk.volatility (assessPortfolioRisk a) * Risk.volatility (assessPortfolioRisk a)
      = Q2R (variance a))%R.
Proof.
  unfold assessPortfolioRisk. rewrite <- variance_real.
  pose proof (variance_real_nonneg a) as Hv.
  set (v := variance a) in *.
  pose proof (sqrt_pos (Q2R v)) as Hp. pose proof (sqrt_sqrt (Q2R v) Hv) as Hs.
  pose proof (sqrt_below (Q2R v) (3 / 50) Hv ltac:(Lra.lra)) as H30.
  pose proof (sqrt_below (Q2R v) (6 / 50) Hv ltac:(Lra.lra)) as H60.
  assert (Q30 : Q2R (9 # 2500) = (3 / 50 * (3 / 50))%R) by (unfold Q2R; cbn; Lra.lra).
  assert (Q60 : Q2R (9 # 625) = (6 / 50 * (6 / 50))%R) by (unfold Q2R; cbn; Lra.lra).
  set (vol := sqrt (Q2R v)) in *.
  assert (Hscore : (0 <= Rmin (vol * 500) 100 <= 100)%R).
  { unfold Rmin. destruct (Rle_dec (vol * 500) 100); Lra.lra. }
  assert (Hmin : forall c,
             (c <= 100)%R -> (Rmin (vol * 500) 100 < c <-> vol * 500 < c)%R).
  { intros c Hc. unfold Rmin. destruct (Rle_dec (vol * 500) 100); Lra.lra. }
  unfold riskLevel_of_variance.
  destruct (Rlt_dec (Rmin (vol * 500) 100) 30) as [L30|L30];
    [|destruct (Rlt_dec (Rmin (vol * 500) 100) 60) as [L60|L60]];
    cbn [Risk.riskLevel Risk.riskScore Risk.volatility];
    (split; [|split; [exact Hscore | split; [exact Hp | exact Hs]]]).
  - apply Hmin in L30; [|Lra.lra].
    destruct (Qlt_le_dec v (9 # 2500)) as [H|H]; [reflexivity|].
    exfalso. apply Qle_Rle in H. rewrite Q30 in H.
    assert (Q2R v < 3 / 50 * (3 / 50))%R by (apply H30; Lra.lra). Lra.lra.
  - assert (N30 : ~ (vol * 500 < 30)%R) by (intros X; apply L30, Hmin; Lra.lra).
    apply Hmin in L60; [|Lra.lra].
    destruct (Qlt_le_dec v (9 # 2500)) as [H|H].
    + exfalso. apply Qlt_Rlt in H. rewrite Q30 in H. apply N30.
      assert (vol * 500 < 3 / 50 * 500)%R by (apply H30; exact H). Lra.lra.
    + destruct (Qlt_le_dec v (9 # 625)) as [H'|H']; [reflexivity|].
      exfalso. apply Qle_Rle in H'. rewrite Q60 in H'.
      assert (Q2R v < 6 / 50 * (6 / 50))%R by (apply H60; Lra.lra). Lra.lra.
  - assert (N30 : ~ (vol * 500 < 30)%R) by (intros X; apply L30, Hmin; Lra.lra).
    assert (N60 : ~ (vol * 500 < 60)%R) by (intros X; apply L60, Hmin; Lra.lra).
    destruct (Qlt_le_dec v (9 # 2500)) as [H|H].
    + exfalso. apply Qlt_Rlt in H. rewrite Q30 in H. apply N30.
      assert (vol * 500 < 3 / 50 * 500)%R by (apply H30; exact H). Lra.lra.
    + destruct (Qlt_le_dec v (9 # 625)) as [H'|H']; [|reflexivity].
      exfalso. apply Qlt_Rlt in H'. rewrite Q60 in H'. apply N60.
      assert (vol * 500 < 6 / 50 * 500)%R by (apply H60; exact H'). Lra.lra.
Qed.

End RiskAssessment.


(** All in cash is Low, all in stocks High. *)
Example assessPortfolioRisk_cash_and_stocks :
  Risk.riskLevel
    (assessPortfolioRisk
       {| stocks := 0; bonds := 0; realEstate := 0; commodities := 0; cash := 100 |})
  = "Low"%string
  /\ Risk.riskLevel
       (assessPortfolioRisk
          {| stocks := 100; bonds := 0; realEstate := 0; commodities := 0; cash := 0 |})
     = "High"%string.
Proof.
  split; rewrite (proj1 (assessPortfolioRisk_classified _)); reflexivity.
Qed.

(* ===================================================================== *)
(** * The recommendation by risk tolerance alone: proofs *)
(* ===================================================================== *)

(** X28. Whatever the risk tolerance, the three percentages of
    [calculateInvestmentRecommendations] add up to 100, with stocks from 30
    to 80 and cash 5 or 10; a risk tolerance other than the three known ones
    gets the moderate 60/30/10. *)
Theorem calculateInvestmentRecommendations_sum
    (userProfile : UserProfile) (availableToInvest : Q) :
  let r := calculateInvestmentRecommendations userProfile availableToInvest in
  (SimpleRecommendation.stocks r + SimpleRecommendation.bonds r
   + SimpleRecommendation.cash r = 100)%Z
  /\ (30 <= SimpleRecommendation.stocks r <= 80)%Z
  /\ (5 <= SimpleRecommendation.cash r <= 10)%Z
  /\ (~ known_risk (risk_tolerance userProfile) ->
      SimpleRecommendation.stocks r = 60%Z /\ SimpleRecommendation.bonds r = 30%Z
      /\ SimpleRecommendation.cash r = 10%Z).
Proof.
  cbv zeta. unfold calculateInvestmentRecommendations, known_risk.
  destruct (String.eqb (risk_tolerance userProfile) "conservative") eqn:E1;
    [|destruct (String.eqb (risk_tolerance userProfile) "moderate") eqn:E2;
      [|destruct (String.eqb (risk_tolerance userProfile) "aggressive") eqn:E3]];
    cbn; repeat split; try lia;
    try (apply String.eqb_eq in E1); try (apply String.eqb_eq in E2);
    try (apply String.eqb_eq in E3); tauto.
Qed.

Lemma calculateInvestmentRecommendations_sum_witness :
  SimpleRecommendation.stocks
    (calculateInvestmentRecommendations
       {| annual_income := 0; risk_tolerance := "speculative"; financial_goals := [] |}
       1000) = 60%Z.
Proof.
  apply (proj2 (proj2 (proj2 (calculateInvestmentRecommendations_sum
    {| annual_income := 0; risk_tolerance := "speculative"; financial_goals := [] |}
    1000)))).
  unfold known_risk. simpl. intros [H|[H|H]]; discriminate.
Defined.

(* ===================================================================== *)
(** * The portfolio route: proofs *)
(* ===================================================================== *)

Lemma keys_set_value (m : ValueByType) (k : string) (v : Q) :
  NoDup (map fst m) -> NoDup (map fst (set_value m k v)).
Proof.
  induction m as [|[k0 x] m IH]; simpl.
  - intros _. constructor; [intros [] | constructor].
  - intros Hnd. inversion Hnd as [|? ? Hnotin Hrest]; subst.
    destruct (String.eqb k0 k) eqn:E; simpl.
    + constructor; assumption.
    + constructor; [|apply IH; exact Hrest].
      intros Hin. apply Hnotin. clear - Hin E.
      induction m as [|[k1 y] m IH]; simpl in *.
      * destruct Hin as [->|[]]. rewrite String.eqb_refl in E. discriminate.
      * destruct (String.eqb k1 k); simpl in Hin; [exact Hin|].
        destruct Hin as [H|H]; [left; exact H | right; apply IH; exact H].
Qed.

Lemma value_of_set_same (m : ValueByType) (k : string) (v : Q) :
  value_of (set_value m k v) k = Some v.
Proof.
  induction m as [|[k0 x] m IH]; simpl.
  - rewrite String.eqb_refl. reflexivity.
  - destruct (String.eqb k0 k) eqn:E; simpl; rewrite E; [reflexivity | exact IH].
Qed.

Lemma value_of_set_other (m : ValueByType) (k k' : string) (v : Q) :
  k <> k' -> value_of (set_value m k v) k' = value_of m k'.
Proof.
  intros Hne. induction m as [|[k0 x] m IH]; simpl.
  - destruct (String.eqb k k') eqn:E; [apply String.eqb_eq in E; contradiction|].
    reflexivity.
  - destruct (String.eqb k0 k) eqn:E; simpl.
    + apply String.eqb_eq in E. subst k0.
      destruct (String.eqb k k') eqn:E'; [apply String.eqb_eq in E'; contradiction|].
      reflexivity.
    + rewrite IH. reflexivity.
Qed.

Lemma allocationByType_keys (investments : list InvestmentRow) (acc : ValueByType) :
  NoDup (map fst acc) -> NoDup (map fst (fold_left add_to_type investments acc)).
Proof.
  revert acc. induction investments as [|row rows IH]; intros acc Hnd; simpl.
  - exact Hnd.
  - apply IH. unfold add_to_type. apply keys_set_value, Hnd.
Qed.

(** The entry of a type after the rows: the value of the rows of that
    type added to what it held before; there is none when there was none
    and no row has the type. *)
Lemma allocationByType_entry
    (investments : list InvestmentRow) (acc : ValueByType) (type : string) :
  match value_of (fold_left add_to_type investments acc) type with
  | Some v =>
      v = value_by_type_from type (or_zero (value_of acc type)) investments
      /\ (value_of acc type = None ->
          exists row, In row investments /\ type_of_row row = type)
  | None =>
      value_of acc type = None
      /\ forall row, In row investments -> type_of_row row <> type
  end.
Proof.
  revert acc. induction investments as [|row rows IH]; intros acc.
  - simpl. destruct (value_of acc type) as [v|]; simpl.
    + split; [reflexivity | discriminate].
    + split; [reflexivity | intros row []].
  - unfold value_by_type_from. cbn [fold_left].
    fold (value_by_type_from type
            (if String.eqb (type_of_row row) type
             then or_zero (value_of acc type) + row_shares row * price_or_purchase row
             else or_zero (value_of acc type)) rows).
    specialize (IH (add_to_type acc row)).
    assert (Hstep : value_of (add_to_type acc row) type
                    = if String.eqb (type_of_row row) type
                      then Some (or_zero (value_of acc type)
                                 + row_shares row * price_or_purchase row)
                      else value_of acc type).
    { unfold add_to_type. fold (type_of_row row).
      destruct (String.eqb (type_of_row row) type) eqn:E.
      - apply String.eqb_eq in E. rewrite <- E. apply value_of_set_same.
      - apply value_of_set_other. apply String.eqb_neq. exact E. }
    destruct (value_of (fold_left add_to_type rows (add_to_type acc row)) type)
      as [v|].
    + destruct IH as [Hv Hrow]. rewrite Hstep in Hv, Hrow.
      destruct (String.eqb (type_of_row row) type) eqn:E.
      * split; [exact Hv|].
        intros _. exists row. split; [left; reflexivity|].
        apply String.eqb_eq. exact E.
      * split; [exact Hv|].
        intros Hnone. destruct (Hrow Hnone) as (r & Hin & Hr).
        exists r. split; [right; exact Hin | exact Hr].
    + destruct IH as [Hnone Hrows]. rewrite Hstep in Hnone.
      destruct (String.eqb (type_of_row row) type) eqn:E; [discriminate|].
      split; [exact Hnone|].
      intros r [<-|Hin]; [apply String.eqb_neq; exact E | apply Hrows, Hin].
Qed.

(** The total value of the performance: the rows at their current
    price, a missing one counting as 0. *)
Lemma totalValue_of_rows (investments : list InvestmentRow) (t : Totals) :
  value_so_far (fold_left add_holding (map holding_of_row investments) t)
  = current_value_from (value_so_far t) investments.
Proof.
  revert t. induction investments as [|row rows IH]; intros t; [reflexivity|].
  unfold current_value_from. cbn [map fold_left]. rewrite IH. reflexivity.
Qed.

(** Rows with a price add to the running total as much as to their type,
    and never take away from it. *)
Lemma value_by_type_below (type : string) (investments : list InvestmentRow)
    (init init' : Q) :
  Forall priced investments -> init <= init' ->
  value_by_type_from type init investments <= current_value_from init' investments.
Proof.
  intros Hall. revert init init'.
  induction Hall as [|row rows (Hp & Hs & Hc) _ IH]; intros init init' Hle.
  - exact Hle.
  - unfold value_by_type_from, current_value_from. cbn [fold_left].
    apply IH.
    assert (Hval : row_shares row * price_or_purchase row
                   == row_shares row * or_zero (row_current_price row)).
    { unfold price_or_purchase, unpriced, or_zero in *.
      destruct (row_current_price row) as [p|]; [|discriminate].
      rewrite Hp. reflexivity. }
    assert (H0 : 0 <= row_shares row * or_zero (row_current_price row))
      by (apply Qmult_le_0_compat; assumption).
    destruct (String.eqb (type_of_row row) type); rewrite ?Hval; lra.
Qed.

(** X29. The two figures of the portfolio route.  The values by type
    have one entry for each investment type that occurs among the rows
    (a row without a type counting as "other"), holding what the rows of
    that type are worth, each at its current price or, where that is null
    or 0, at its purchase price, added up in the order of the rows.  When
    every row has a price, and no price or number of shares is negative,
    no entry exceeds the total value of the performance; when no row has a
    price, the total value is 0 whatever the entries hold. *)
Theorem portfolioRoute_totals (investments : list InvestmentRow) :
  let '(performance, byType) := portfolioRoute investments in
  NoDup (map fst byType)
  /\ (forall type,
        match value_of byType type with
        | Some v =>
            v = value_by_type type investments
            /\ exists row, In row investments /\ type_of_row row = type
        | None => forall row, In row investments -> type_of_row row <> type
        end)
  /\ (Forall priced investments ->
      forall type v, value_of byType type = Some v -> v <= totalValue performance)
  /\ (Forall (fun row => unpriced row = true) investments ->
      totalValue performance == 0).
Proof.
  unfold portfolioRoute, allocationByType, reduce.
  unfold calculatePortfolioPerformance; cbn [totalValue].
  rewrite totalValue_of_rows. cbn [value_so_far].
  split; [apply allocationByType_keys; constructor|]. split; [|split].
  - intros type. pose proof (allocationByType_entry investments [] type) as H.
    destruct (value_of (fold_left add_to_type investments []) type) as [v|].
    + destruct H as [Hv Hrow]. split; [exact Hv | apply Hrow; reflexivity].
    + apply H.
  - intros Hall type v Hv.
    pose proof (allocationByType_entry investments [] type) as H.
    rewrite Hv in H. destruct H as [-> _]. simpl.
    apply value_by_type_below; [exact Hall | lra].
  - intros Hall. unfold current_value_from.
    assert (H : forall init, init == 0 ->
                fold_left
                  (fun sum row => sum + row_shares row * or_zero (row_current_price row))
                  investments init == 0).
    { clear - Hall. induction Hall as [|row rows Hu _ IH]; intros init Hinit.
      - exact Hinit.
      - cbn [fold_left]. apply IH. rewrite Hinit. unfold unpriced, or_zero in *.
        destruct (row_current_price row) as [p|]; [|ring].
        apply Qeq_bool_iff in Hu. rewrite Hu. ring. }
    apply H. reflexivity.
Qed.

(** Two funds and a bond: the funds are worth 70 + 20, and that is not
    above the total value. *)
Lemma portfolioRoute_totals_witness :
  exists v,
    value_of
      (allocationByType
         [ {| row_symbol := "VTI"; row_shares := 10; row_purchase_price := 5;
              row_current_price := Some 7; row_investment_type := Some "etf"%string |};
           {| row_symbol := "BND"; row_shares := 3; row_purchase_price := 80;
              row_current_price := Some 72.5;
              row_investment_type := Some "bond"%string |};
           {| row_symbol := "VXUS"; row_shares := 4; row_purchase_price := 6;
              row_current_price := Some 5; row_investment_type := Some "etf"%string |} ])
      "etf" = Some v
    /\ v <= totalValue
              (calculatePortfolioPerformance
                 (map holding_of_row
         [ {| row_symbol := "VTI"; row_shares := 10; row_purchase_price := 5;
              row_current_price := Some 7; row_investment_type := Some "etf"%string |};
           {| row_symbol := "BND"; row_shares := 3; row_purchase_price := 80;
              row_current_price := Some 72.5;
              row_investment_type := Some "bond"%string |};
           {| row_symbol := "VXUS"; row_shares := 4; row_purchase_price := 6;
              row_current_price := Some 5;
              row_investment_type := Some "etf"%string |} ])).
Proof.
  eexists. split; [vm_compute; reflexivity|].
  pose proof (portfolioRoute_totals
         [ {| row_symbol := "VTI"; row_shares := 10; row_purchase_price := 5;
              row_current_price := Some 7; row_investment_type := Some "etf"%string |};
           {| row_symbol := "BND"; row_shares := 3; row_purchase_price := 80;
              row_current_price := Some 72.5;
              row_investment_type := Some "bond"%string |};
           {| row_symbol := "VXUS"; row_shares := 4; row_purchase_price := 6;
              row_current_price := Some 5;
              row_investment_type := Some "etf"%string |} ]) as H.
  cbv beta iota zeta delta [portfolioRoute] in H.
  destruct H as (_ & _ & H & _).
  apply (H ltac:(repeat constructor; vm_compute; discriminate) "etf"%string).
  vm_compute. reflexivity.
Defined.

(* ===================================================================== *)
(** * The spending analysis component: proofs *)
(* ===================================================================== *)

Lemma by_amount_le (x y : string * Bucket.t) :
  (by_amount x y <= 0)%Z <-> spent_no_less x y.
Proof.
  unfold by_amount, sign, spent_no_less.
  set (p := Bucket.amount (snd x)). set (q := Bucket.amount (snd y)).
  assert (H : q - p <= 0 <-> q <= p) by (split; intros; lra).
  rewrite <- H. unfold Qle. cbn [Qnum Qden]. rewrite Z.mul_1_r.
  destruct (Qnum (q - p)); simpl; split; intros; lia.
Qed.

Lemma sort_insert_perm (x : string * Bucket.t) (l : list (string * Bucket.t)) :
  Permutation (x :: l) (sort_insert by_amount x l).
Proof.
  induction l as [|y l IH]; simpl; [reflexivity|].
  destruct (by_amount x y <=? 0)%Z; [reflexivity|].
  rewrite perm_swap. constructor. exact IH.
Qed.

Lemma sort_by_amount_perm (l : list (string * Bucket.t)) :
  Permutation l (Array_sort by_amount l).
Proof.
  induction l as [|x l IH]; [constructor|].
  change (Array_sort by_amount (x :: l))
    with (sort_insert by_amount x (Array_sort by_amount l)).
  rewrite <- sort_insert_perm. constructor. exact IH.
Qed.

Lemma sort_insert_sorted (x : string * Bucket.t) (l : list (string * Bucket.t)) :
  StronglySorted spent_no_less l ->
  StronglySorted spent_no_less (sort_insert by_amount x l).
Proof.
  induction 1 as [|y l Hl IH Hy]; simpl.
  - constructor; constructor.
  - destruct (by_amount x y <=? 0)%Z eqn:E.
    + apply Z.leb_le, by_amount_le in E.
      constructor; [constructor; assumption|].
      constructor; [exact E|].
      eapply Forall_impl; [|exact Hy]. intros z Hz.
      unfold spent_no_less in *. lra.
    + apply Z.leb_gt in E.
      assert (Hyx : spent_no_less y x).
      { unfold spent_no_less.
        destruct (Qlt_le_dec (Bucket.amount (snd x)) (Bucket.amount (snd y)))
          as [H|H]; [lra|].
        exfalso. apply by_amount_le in H. lia. }
      constructor; [exact IH|].
      apply Forall_forall. intros z Hz.
      apply (Permutation_in _ (Permutation_sym (sort_insert_perm x l))) in Hz.
      destruct Hz as [<-|Hz]; [exact Hyx|].
      rewrite Forall_forall in Hy. apply Hy, Hz.
Qed.

Lemma sort_by_amount_sorted (l : list (string * Bucket.t)) :
  StronglySorted spent_no_less (Array_sort by_amount l).
Proof.
  induction l as [|x l IH]; [constructor|].
  change (Array_sort by_amount (x :: l))
    with (sort_insert by_amount x (Array_sort by_amount l)).
  apply sort_insert_sorted, IH.
Qed.

Lemma totalSpending_sum (l : list (string * Bucket.t)) :
  totalSpending l == sum_amounts l.
Proof.
  unfold totalSpending, reduce.
  assert (H : forall init,
             fold_left (fun sum entry => sum + Bucket.amount (snd entry)) l init
             == init + sum_amounts l).
  { induction l as [|x l IH]; intros init; simpl; [ring|]. rewrite IH. ring. }
  rewrite H. ring.
Qed.

(** No entry of a list of amounts that are not negative is above their
    total. *)
Lemma totalSpending_bound (l : list (string * Bucket.t)) :
  (forall entry, In entry l -> 0 <= Bucket.amount (snd entry)) ->
  forall entry, In entry l -> Bucket.amount (snd entry) <= totalSpending l.
Proof.
  intros Hnn entry Hin. rewrite totalSpending_sum.
  induction l as [|x l IH]; [contradiction|]. simpl.
  assert (Hrest : 0 <= sum_amounts l).
  { clear - Hnn. induction l as [|y l IH]; simpl; [lra|].
    assert (0 <= Bucket.amount (snd y)) by (apply Hnn; right; left; reflexivity).
    assert (0 <= sum_amounts l).
    { apply IH. intros e He. apply Hnn. destruct He as [->|He]; [left | right; right];
        auto. }
    lra. }
  destruct Hin as [->|Hin]; [lra|].
  assert (0 <= Bucket.amount (snd x)) by (apply Hnn; left; reflexivity).
  assert (Bucket.amount (snd entry) <= sum_amounts l).
  { apply IH; [|exact Hin]. intros e He. apply Hnn. right. exact He. }
  lra.
Qed.

Lemma In_get (m : SpendingByCategory) (k : string) (b : Bucket.t) :
  NoDup (map fst m) -> In (k, b) m -> get m k = Some b.
Proof.
  induction m as [|[k0 b0] m IH]; simpl; [contradiction|].
  intros Hnd [H|H].
  - injection H as -> ->. rewrite String.eqb_refl. reflexivity.
  - inversion Hnd as [|? ? Hnotin Hrest]; subst.
    destruct (String.eqb k0 k) eqn:E.
    + apply String.eqb_eq in E. subst k0. exfalso. apply Hnotin.
      apply (in_map fst) in H. exact H.
    + apply IH; assumption.
Qed.

(** The amounts of the map the aggregation returns are not negative, and
    the map is empty exactly when the window holds no expense row. *)
Lemma analyzeSpendingByCategory_amounts
    (Date_parse : string -> option Z) (clock : Z)
    (transactions : list Transaction) (spending : SpendingByCategory) :
  analyzeSpendingByCategory Date_parse clock transactions = Some spending ->
  (forall entry, In entry spending -> 0 <= Bucket.amount (snd entry))
  /\ (spending = [] <-> expenseTransactions Date_parse clock transactions = []).
Proof.
  intros Ha.
  destruct (analyzeSpendingByCategory_map _ _ _ _ Ha)
    as (m & total & Hloop & Hnd & -> & Hb).
  set (rows := expenseTransactions Date_parse clock transactions) in *.
  split.
  - intros entry Hin. apply in_map_iff in Hin. destruct Hin as ([k b] & <- & Hin).
    simpl. pose proof (Hb k) as Hk. rewrite (In_get m k b Hnd Hin) in Hk.
    destruct Hk as (Hamount & _). rewrite Hamount. apply sum_where_nonneg.
  - split; intros H.
    + apply map_eq_nil in H. subst m.
      destruct rows as [|t rows'] eqn:Er; [reflexivity|]. exfalso.
      destruct (description t) as [d|] eqn:Hd.
      * specialize (Hb (categorizeTransaction d)). simpl in Hb.
        unfold count_where in Hb. simpl in Hb. unfold has_category at 1 in Hb.
        rewrite Hd, String.eqb_refl in Hb. simpl in Hb. lia.
      * assert (Hnone : forEach_accumulate (t :: rows') [] = None).
        { apply forEach_accumulate_descriptions. left. exact Hd. }
        congruence.
    + rewrite H in Hloop. simpl in Hloop. injection Hloop as <-. reflexivity.
Qed.

(** X30. The spending analysis component lists the categories of a
    spending map by amount, the largest first, each once.  For the map the
    aggregation returns, no amount is negative or above the total the
    component shows, and the list is empty, the component then showing
    its empty state, exactly when the window holds no expense row. *)
Theorem SpendingAnalysis_categories
    (Date_parse : string -> option Z) (clock : Z)
    (transactions : list Transaction) (spending : SpendingByCategory) :
  Permutation spending (sortedCategories spending)
  /\ StronglySorted spent_no_less (sortedCategories spending)
  /\ (analyzeSpendingByCategory Date_parse clock transactions = Some spending ->
      (forall entry, In entry (sortedCategories spending) ->
         0 <= Bucket.amount (snd entry)
         /\ Bucket.amount (snd entry) <= totalSpending (sortedCategories spending))
      /\ (sortedCategories spending = []
          <-> expenseTransactions Date_parse clock transactions = [])).
Proof.
  unfold sortedCategories.
  pose proof (sort_by_amount_perm spending) as Hperm.
  split; [exact Hperm|]. split; [apply sort_by_amount_sorted|].
  intros Ha.
  destruct (analyzeSpendingByCategory_amounts _ _ _ _ Ha) as [Hnn Hempty].
  assert (Hnn' : forall entry, In entry (Array_sort by_amount spending) ->
                   0 <= Bucket.amount (snd entry)).
  { intros entry Hin. apply Hnn.
    apply (Permutation_in _ (Permutation_sym Hperm)). exact Hin. }
  split.
  - intros entry Hin. split; [apply Hnn', Hin|].
    apply totalSpending_bound; assumption.
  - rewrite <- Hempty. split; intros H.
    + rewrite H in Hperm. apply Permutation_sym, Permutation_nil in Hperm. exact Hperm.
    + rewrite H. reflexivity.
Qed.

(** A card bill and the rent: Housing comes first, and its 1500 are not
    above the total shown. *)
Lemma SpendingAnalysis_categories_witness :
  exists spending,
    analyzeSpendingByCategory parseISODate 1706745600000
      [tx (-300) "Credit Card bill" expense "2024-01-20";
       tx (-1500) "rent payment" expense "2024-01-15"] = Some spending
    /\ map fst (sortedCategories spending) = ["Housing"; "Debt"]%string
    /\ 1500 <= totalSpending (sortedCategories spending).
Proof.
  eexists. split; [vm_compute; reflexivity|]. split; [vm_compute; reflexivity|].
  refine (proj2 (proj1 (proj2 (proj2 (SpendingAnalysis_categories parseISODate
    1706745600000
    [tx (-300) "Credit Card bill" expense "2024-01-20";
     tx (-1500) "rent payment" expense "2024-01-15"] _)) _)
    ("Housing"%string,
     {| Bucket.amount := 1500; Bucket.percentage := 1500 / 1800 * 100;
        Bucket.transactions := 1 |}) _)).
  - vm_compute. reflexivity.
  - vm_compute. left. reflexivity.
Defined.
